(** * HydroMonitor: the data-acquisition and storage-fallback core

    A shallow embedding of
      - [ExternalDatabaseService] (hex decoder and external fetcher),
      - the lazily initialised database gateway of [server/db.ts],
      - [DatabaseStorage], the storage orchestrator,
    followed by the properties of the specification that concern them.

    Conventions of the embedding.
      - JavaScript strings are sequences of code units; the decoder only
        distinguishes characters below 256, so [string] is used.
      - A JavaScript number is [NaN] or an exact rational [Fin q]; a
        quotient such as [n / 100] is kept as the fraction [n # 100] (the
        runtime holds the double nearest to it, and [-0] is not told apart
        from [0]).
      - Instants ([Date.now()], [new Date()], a timestamp column) are epoch
        milliseconds in [Z].
      - Everything outside the process (the relational store, the network,
        the clock, the process environment) is an explicit [Env] of
        oracles; a [World] records what has been consumed from it.
      - The methods are asynchronous in the source; here a call runs to
        completion before the next one starts (the [initializeDefaults]
        that the constructor starts has completed before the first call):
        calls that overlap are not modelled.
      - The store is idealised in two respects: a number written to a
        [real] column is read back as it was written, and the store's
        [now()] is the process clock. *)

From Stdlib Require Import ZArith QArith String Ascii List Bool Lia.
From stdpp Require Import list sorting.
Import ListNotations.

Local Set Warnings "-register-all".
Local Close Scope Q_scope.
Local Open Scope string_scope.
Local Open Scope Z_scope.

(* ===================================================================== *)
(** ** Results of computations that may throw *)
(* ===================================================================== *)

Inductive Exn :=
| TypeError      (* property access on null, call of a non-function *)
| NetworkError   (* fetch rejected: DNS, refused connection, abort on timeout *)
| ApiError       (* "External database API error: ..." *)
| FormatError    (* "Expected JSON response but got ..." *)
| SyntaxError    (* response.json() on a body that is not JSON *)
| InitError      (* the pool or the ORM constructor failed *)
| DbError.       (* a query rejected by the store *)

Inductive Result (A : Type) :=
| Ok (a : A)
| Throw (e : Exn)
| OutOfFuel.
Arguments Ok {A} a.
Arguments Throw {A} e.
Arguments OutOfFuel {A}.

Module Pure.

Definition bind {A B} (r : Result A) (k : A -> Result B) : Result B :=
  match r with
  | Ok a => k a
  | Throw e => Throw e
  | OutOfFuel => OutOfFuel
  end.

(** [try { r } catch (error) { h error }] *)
Definition try_catch {A} (r : Result A) (h : Exn -> Result A) : Result A :=
  match r with
  | Throw e => h e
  | _ => r
  end.

End Pure.

Declare Scope pure_scope.
Delimit Scope pure_scope with pure.
Notation "x <- c ;; k" := (Pure.bind c (fun x => k))
  (at level 20, c at level 99, k at level 200, only parsing) : pure_scope.

(* ===================================================================== *)
(** ** JavaScript numbers and JSON values *)
(* ===================================================================== *)

Inductive JsNumber :=
| NaN
| Fin (q : Q).

(** [x / k] for a positive literal [k]. *)
Definition js_div (x : JsNumber) (k : positive) : JsNumber :=
  match x with
  | NaN => NaN
  | Fin q => Fin (Qnum q # (Qden q * k))
  end.

(** ToBoolean on a number: [NaN] and zero are falsy. *)
Definition num_truthy (x : JsNumber) : bool :=
  match x with
  | NaN => false
  | Fin q => negb (Qnum q =? 0)
  end.

(** The value of a parsed JSON document, and [undefined] for a missing
    property. *)
Inductive JsValue :=
| JUndefined
| JNull
| JBool (b : bool)
| JNum (q : Q)
| JStr (s : string)
| JArr (items : list JsValue)
| JObj (fields : list (string * JsValue)).

Definition truthy (v : JsValue) : bool :=
  match v with
  | JUndefined | JNull => false
  | JBool b => b
  | JNum q => negb (Qnum q =? 0)
  | JStr s => negb (String.eqb s EmptyString)
  | JArr _ | JObj _ => true
  end.

(** [a || b] *)
Definition js_or (a b : JsValue) : JsValue := if truthy a then a else b.

Fixpoint assoc_last (k : string) (fields : list (string * JsValue))
    (found : JsValue) : JsValue :=
  match fields with
  | [] => found
  | (k', v) :: rest =>
      assoc_last k rest (if String.eqb k k' then v else found)
  end.

(** [v.k] for the property names the fetcher reads (none of them is a
    built-in property of a string, number, boolean or array): reading a
    property of [null] or [undefined] throws, a missing property is
    [undefined]; of a repeated key the parser keeps the last. *)
Definition js_get (v : JsValue) (k : string) : Result JsValue :=
  match v with
  | JUndefined | JNull => Throw TypeError
  | JObj fields => Ok (assoc_last k fields JUndefined)
  | _ => Ok JUndefined
  end.

(** [v?.k] *)
Definition js_get_opt (v : JsValue) (k : string) : Result JsValue :=
  match v with
  | JUndefined | JNull => Ok JUndefined
  | _ => js_get v k
  end.

(* ===================================================================== *)
(** ** Strings: [startsWith], [substr], [includes], [parseInt(_, 16)] *)
(* ===================================================================== *)

Fixpoint starts_with (p s : string) : bool :=
  match p, s with
  | EmptyString, _ => true
  | String a p', String b s' => Ascii.eqb a b && starts_with p' s'
  | String _ _, EmptyString => false
  end.

Fixpoint includes (p s : string) : bool :=
  starts_with p s ||
  match s with
  | EmptyString => false
  | String _ s' => includes p s'
  end.

(** [s.substr(start, len)] for the non-negative literals the decoder uses:
    the characters that exist from [start] on, at most [len] of them. *)
Definition substr (s : string) (start len : nat) : string :=
  String.substring start len s.

Definition is_js_whitespace (c : ascii) : bool :=
  let n := nat_of_ascii c in
  ((9 <=? n)%nat && (n <=? 13)%nat) || (n =? 32)%nat || (n =? 160)%nat.

Fixpoint trim_start (s : string) : string :=
  match s with
  | String c s' => if is_js_whitespace c then trim_start s' else s
  | EmptyString => EmptyString
  end.

Definition hex_digit (c : ascii) : option Z :=
  let n := Z.of_nat (nat_of_ascii c) in
  if (48 <=? n) && (n <=? 57) then Some (n - 48)        (* 0-9 *)
  else if (65 <=? n) && (n <=? 70) then Some (n - 55)   (* A-F *)
  else if (97 <=? n) && (n <=? 102) then Some (n - 87)  (* a-f *)
  else None.

(** The value of the longest prefix made of hexadecimal digits, [None]
    when that prefix is empty. *)
Fixpoint parse_digits (s : string) (acc : option Z) : option Z :=
  match s with
  | String c s' =>
      match hex_digit c with
      | Some d => parse_digits s' (Some (16 * default 0 acc + d))
      | None => acc
      end
  | EmptyString => acc
  end.

Definition strip_sign (s : string) : Z * string :=
  match s with
  | String "-" r => (-1, r)
  | String "+" r => (1, r)
  | _ => (1, s)
  end.

Definition strip_0x (s : string) : string :=
  match s with
  | String "0" (String "x" r) => r
  | String "0" (String "X" r) => r
  | _ => s
  end.

(** [parseInt(s, 16)]: leading white space is skipped, then an optional
    sign, then an optional [0x]; the longest run of hexadecimal digits that
    follows is the value, and [NaN] results when there is none. *)
Definition parseInt16 (s : string) : JsNumber :=
  let (sign, s1) := strip_sign (trim_start s) in
  match parse_digits (strip_0x s1) None with
  | None => NaN
  | Some v => Fin (sign * v # 1)
  end.

(* ===================================================================== *)
(** ** Hex decoder: [ExternalDatabaseService.decodeHexData] *)
(* ===================================================================== *)

(** The object literal a layout returns: a property is [None] when the
    literal does not have it. *)
Module Decoded.
Record t := mk {
  ph : option JsNumber;
  moisture : option JsNumber;
  ec : option JsNumber;
  temperature : option JsNumber;
  humidity : option JsNumber;
  light : option JsNumber;
  tdsLevel : option JsNumber
}.
End Decoded.

Section Decoder.
Local Open Scope pure_scope.

(** [deviceCode.startsWith(p)]: only a string has the method. *)
Definition js_startsWith (v : JsValue) (p : string) : Result bool :=
  match v with
  | JStr s => Ok (starts_with p s)
  | _ => Throw TypeError
  end.

(** [parseInt(hexString.substr(off, 4), 16)] *)
Definition chunk (hexString : JsValue) (off : nat) : Result JsNumber :=
  match hexString with
  | JStr s => Ok (parseInt16 (substr s off 4))
  | _ => Throw TypeError
  end.

(** The body of the [try] block. *)
Definition decodeHexData_try (hexString deviceCode : JsValue)
  : Result (option Decoded.t) :=
  cz <- js_startsWith deviceCode "CZ" ;;
  if cz then
    (* Cabai (4 sensors) *)
    c0 <- chunk hexString 0 ;;
    c1 <- chunk hexString 4 ;;
    c2 <- chunk hexString 8 ;;
    c3 <- chunk hexString 12 ;;
    Ok (Some {| Decoded.ph := Some (js_div c0 100);
                Decoded.moisture := Some (js_div c1 10);
                Decoded.ec := Some (js_div c2 100);
                Decoded.temperature := Some (js_div c3 10);
                Decoded.humidity := None;
                Decoded.light := None;
                Decoded.tdsLevel := None |})
  else
  mz <- js_startsWith deviceCode "MZ" ;;
  sz <- (if mz then Ok true else js_startsWith deviceCode "SZ") ;;
  if sz then
    (* Melon/Selada (3 sensors) *)
    c0 <- chunk hexString 0 ;;
    c1 <- chunk hexString 4 ;;
    c2 <- chunk hexString 8 ;;
    Ok (Some {| Decoded.ph := Some (js_div c0 100);
                Decoded.moisture := None;
                Decoded.ec := Some (js_div c1 100);
                Decoded.temperature := Some (js_div c2 10);
                Decoded.humidity := None;
                Decoded.light := None;
                Decoded.tdsLevel := None |})
  else
  gz <- js_startsWith deviceCode "GZ" ;;
  if gz then
    (* Greenhouse (3 sensors) *)
    c0 <- chunk hexString 0 ;;
    c1 <- chunk hexString 4 ;;
    c2 <- chunk hexString 8 ;;
    Ok (Some {| Decoded.ph := None;
                Decoded.moisture := None;
                Decoded.ec := None;
                Decoded.temperature := Some (js_div c0 10);
                Decoded.humidity := Some (js_div c1 10);
                Decoded.light := Some c2;
                Decoded.tdsLevel := None |})
  else
  hz <- js_startsWith deviceCode "HZ" ;;
  if hz then
    (* Hydroponic (3 sensors - pH, TDS/EC, Temperature) *)
    c0 <- chunk hexString 0 ;;
    c1 <- chunk hexString 4 ;;
    c2 <- chunk hexString 8 ;;
    Ok (Some {| Decoded.ph := Some (js_div c0 100);
                Decoded.moisture := None;
                Decoded.ec := None;
                Decoded.temperature := Some (js_div c2 10);
                Decoded.humidity := None;
                Decoded.light := None;
                Decoded.tdsLevel := Some (js_div c1 10) |})
  else
    (* Unknown device code *)
    Ok None.

(** [decodeHexData]: whatever the [try] block throws becomes [null]. *)
Definition decodeHexData (hexString deviceCode : JsValue)
  : Result (option Decoded.t) :=
  Pure.try_catch (decodeHexData_try hexString deviceCode)
                 (fun _ => Ok None).

End Decoder.

(* ===================================================================== *)
(** ** Data model (shared/schema.ts) *)
(* ===================================================================== *)

(** Identifiers of rows and of in-memory objects: a generated primary key,
    a template string [`${tag}_${Date.now()}`], or a literal. *)
Inductive Ident :=
| Uuid (n : nat)
| Stamped (tag : string) (t : Z)
| Named (s : string).

Inductive ConnectionStatus := connected | disconnected | error.

Module SensorReading.
Record t := mk {
  id : Ident;
  timestamp : Z;
  temperature : Q;
  ph : Q;
  tdsLevel : Q;
  createdAt : Z
}.
End SensorReading.

(** [InsertSensorReading]: the three picked columns. *)
Module InsertSensorReading.
Record t := mk {
  temperature : Q;
  ph : Q;
  tdsLevel : Q
}.
End InsertSensorReading.

Module SystemStatus.
Record t := mk {
  id : Ident;
  connectionStatus : ConnectionStatus;
  lastUpdate : Z;
  dataPoints : Z;
  cpuUsage : Q;
  memoryUsage : Q;
  storageUsage : Q;
  uptime : string
}.
End SystemStatus.

(** [Partial<SystemStatus>] *)
Module PartialSystemStatus.
Record t := mk {
  id : option Ident;
  connectionStatus : option ConnectionStatus;
  lastUpdate : option Z;
  dataPoints : option Z;
  cpuUsage : option Q;
  memoryUsage : option Q;
  storageUsage : option Q;
  uptime : option string
}.
Definition empty : t := mk None None None None None None None None.
(** [{ dataPoints: n }] *)
Definition only_dataPoints (n : Z) : t :=
  mk None None None (Some n) None None None None.
End PartialSystemStatus.

Module AlertSettings.
Record t := mk {
  id : Ident;
  temperatureAlerts : bool;
  phAlerts : bool;
  tdsLevelAlerts : bool
}.
End AlertSettings.

(** What [fetchLatestReading] hands over. *)
Inductive ExtIdent :=
| IdJson (v : JsValue)      (* taken from the envelope *)
| IdExt (t : Z).            (* `ext_${Date.now()}` *)

Inductive ExtTimestamp :=
| TsJson (v : JsValue)      (* taken from the envelope *)
| TsIso (t : Z).            (* new Date().toISOString() *)

Module ExternalDatabaseReading.
Record t := mk {
  id : ExtIdent;
  temperature : Q;
  ph : Q;
  tdsLevel : Q;
  timestamp : ExtTimestamp
}.
End ExternalDatabaseReading.

(* ===================================================================== *)
(** ** The world outside the process *)
(* ===================================================================== *)

(** The statements the orchestrator sends to the store. *)
Inductive DbOp :=
| SelectStatus        (* select().from(systemStatus).limit(1) *)
| InsertStatus
| UpdateStatus
| SelectAlerts        (* select().from(alertSettings).limit(1) *)
| InsertAlerts
| UpdateAlerts
| SelectLatest        (* newest reading, limit(1) *)
| SelectReadings      (* newest first, limit(n) *)
| SelectRange         (* between two instants, oldest first *)
| InsertReading
| CountReadings.

Module Response.
Record t := mk {
  ok : bool;
  content_type : option string;   (* headers.get("content-type") *)
  json : option JsValue           (* [None]: the body does not parse *)
}.
End Response.

Inductive FetchOutcome :=
| Rejected                          (* network failure, or abort after 10 s *)
| Responded (r : Response.t).

Module Env.
Record t := mk {
  DATABASE_URL : option string;       (* process.env.DATABASE_URL *)
  NODE_ENV : option string;           (* process.env.NODE_ENV *)
  pool_init_throws : bool;            (* new Pool(..) / drizzle(..) throws *)
  db_fails : nat -> DbOp -> bool;     (* does the k-th statement fail? *)
  net : nat -> FetchOutcome;          (* outcome of the k-th request *)
  clock : nat -> Z                    (* k-th reading of the clock *)
}.
End Env.

Module Tables.
Record t := mk {
  sensorReadings : list SensorReading.t;    (* in insertion order *)
  systemStatus : list SystemStatus.t;
  alertSettings : list AlertSettings.t;
  next_uuid : nat                           (* defaultRandom() *)
}.
End Tables.

Module FallbackData.
Record t := mk {
  systemStatus : SystemStatus.t;
  alertSettings : AlertSettings.t;
  sensorReadings : list SensorReading.t
}.
End FallbackData.

Record State := mkState {
  (* the DatabaseStorage object *)
  lastExternalFetchTime : Z;
  databaseAvailable : bool;
  fallbackData : FallbackData.t;
  (* module variables of the gateway; [_db] stands for [_db && _pool] *)
  _db : bool;
  _databaseAvailable : bool;
  (* the store and what has been consumed from the oracles *)
  tables : Tables.t;
  dbOps : nat;
  netCalls : nat;
  ticks : nat
}.

Definition cacheTimeout : Z := 10000. (* 10 seconds cache *)

Definition set_lastExternalFetchTime (v : Z) (s : State) : State :=
  mkState v (databaseAvailable s) (fallbackData s) (_db s)
          (_databaseAvailable s) (tables s) (dbOps s) (netCalls s) (ticks s).
Definition set_databaseAvailable (v : bool) (s : State) : State :=
  mkState (lastExternalFetchTime s) v (fallbackData s) (_db s)
          (_databaseAvailable s) (tables s) (dbOps s) (netCalls s) (ticks s).
Definition set_fallbackData (v : FallbackData.t) (s : State) : State :=
  mkState (lastExternalFetchTime s) (databaseAvailable s) v (_db s)
          (_databaseAvailable s) (tables s) (dbOps s) (netCalls s) (ticks s).
Definition set_gateway (db av : bool) (s : State) : State :=
  mkState (lastExternalFetchTime s) (databaseAvailable s) (fallbackData s) db
          av (tables s) (dbOps s) (netCalls s) (ticks s).
Definition set_tables (v : Tables.t) (s : State) : State :=
  mkState (lastExternalFetchTime s) (databaseAvailable s) (fallbackData s)
          (_db s) (_databaseAvailable s) v (dbOps s) (netCalls s) (ticks s).
Definition next_dbOp (s : State) : State :=
  mkState (lastExternalFetchTime s) (databaseAvailable s) (fallbackData s)
          (_db s) (_databaseAvailable s) (tables s) (S (dbOps s)) (netCalls s)
          (ticks s).
Definition next_netCall (s : State) : State :=
  mkState (lastExternalFetchTime s) (databaseAvailable s) (fallbackData s)
          (_db s) (_databaseAvailable s) (tables s) (dbOps s) (S (netCalls s))
          (ticks s).
Definition next_tick (s : State) : State :=
  mkState (lastExternalFetchTime s) (databaseAvailable s) (fallbackData s)
          (_db s) (_databaseAvailable s) (tables s) (dbOps s) (netCalls s)
          (S (ticks s)).

(* ===================================================================== *)
(** ** The monad of the server code: state, exceptions, fuel *)
(* ===================================================================== *)

Definition M (A : Type) : Type := State -> Result A * State.

Module Monad.

Definition ret {A} (a : A) : M A := fun s => (Ok a, s).

Definition bind {A B} (m : M A) (k : A -> M B) : M B :=
  fun s =>
    match m s with
    | (Ok a, s') => k a s'
    | (Throw e, s') => (Throw e, s')
    | (OutOfFuel, s') => (OutOfFuel, s')
    end.

Definition throw {A} (e : Exn) : M A := fun s => (Throw e, s).

(** [try { m } catch (error) { h error }]; the state reached when the
    exception was thrown is the one the handler starts from. *)
Definition try_catch {A} (m : M A) (h : Exn -> M A) : M A :=
  fun s =>
    match m s with
    | (Throw e, s') => h e s'
    | r => r
    end.

Definition lift {A} (r : Result A) : M A := fun s => (r, s).
Definition gets {A} (f : State -> A) : M A := fun s => (Ok (f s), s).
Definition modify (f : State -> State) : M unit := fun s => (Ok tt, f s).

End Monad.
Import Monad.

Declare Scope server_scope.
Delimit Scope server_scope with server.
Notation "x <- c ;; k" := (Monad.bind c (fun x => k))
  (at level 20, c at level 99, k at level 200, only parsing) : server_scope.

(** ORDER BY timestamp DESC / ASC.  The store is free to order rows of
    equal timestamp as it likes; the model takes the order a merge sort
    gives, and the properties below only use that the result is sorted and
    a permutation of the rows. *)
Definition newest_first (a b : SensorReading.t) : Prop :=
  SensorReading.timestamp b <= SensorReading.timestamp a.
Definition oldest_first (a b : SensorReading.t) : Prop :=
  SensorReading.timestamp a <= SensorReading.timestamp b.

#[global] Instance newest_first_dec : RelDecision newest_first :=
  fun a b => Z_le_dec (SensorReading.timestamp b) (SensorReading.timestamp a).
#[global] Instance oldest_first_dec : RelDecision oldest_first :=
  fun a b => Z_le_dec (SensorReading.timestamp a) (SensorReading.timestamp b).

(** [gte(timestamp, start) AND lte(timestamp, end)] *)
Definition in_range (start end_ : Z) (r : SensorReading.t) : bool :=
  (start <=? SensorReading.timestamp r) && (SensorReading.timestamp r <=? end_).

(** [a.slice(0, n)]: a negative [n] counts from the end. *)
Definition slice0 {A} (l : list A) (n : Z) : list A :=
  if n <? 0 then take (Z.to_nat (Z.of_nat (length l) + n)) l
  else take (Z.to_nat n) l.

(** [x || fallback] on a decoded property. *)
Definition num_or (x : option JsNumber) (fallback : Q) : Q :=
  match x with
  | Some (Fin q) => if Qnum q =? 0 then fallback else q
  | _ => fallback
  end.

Definition ident_eqb (a b : Ident) : bool :=
  match a, b with
  | Uuid n, Uuid m => (n =? m)%nat
  | Stamped g t, Stamped h u => String.eqb g h && (t =? u)
  | Named x, Named y => String.eqb x y
  | _, _ => false
  end.

Section Server.
Variable E : Env.t.
Local Open Scope server_scope.

(* ------------------------------------------------------------------- *)
(** *** Primitive interactions *)

(** [Date.now()], [new Date()], and the store's [now()] *)
Definition date_now : M Z :=
  fun s => (Ok (Env.clock E (ticks s)), next_tick s).

(** [await fetch(this.apiUrl, ...)] with its abort timer *)
Definition http_fetch : M Response.t :=
  fun s =>
    match Env.net E (netCalls s) with
    | Rejected => (Throw NetworkError, next_netCall s)
    | Responded r => (Ok r, next_netCall s)
    end.

(** Sending one statement: it is counted, and rejected if the oracle
    says so. *)
Definition db_send (op : DbOp) : M unit :=
  fun s =>
    if Env.db_fails E (dbOps s) op
    then (Throw DbError, next_dbOp s)
    else (Ok tt, next_dbOp s).

Definition fresh_uuid : M Ident :=
  fun s =>
    let tb := tables s in
    (Ok (Uuid (Tables.next_uuid tb)),
     set_tables (Tables.mk (Tables.sensorReadings tb) (Tables.systemStatus tb)
                           (Tables.alertSettings tb) (S (Tables.next_uuid tb))) s).

Definition put_sensorReadings (rows : list SensorReading.t) : M unit :=
  modify (fun s =>
    let tb := tables s in
    set_tables (Tables.mk rows (Tables.systemStatus tb)
                          (Tables.alertSettings tb) (Tables.next_uuid tb)) s).
Definition put_systemStatus (rows : list SystemStatus.t) : M unit :=
  modify (fun s =>
    let tb := tables s in
    set_tables (Tables.mk (Tables.sensorReadings tb) rows
                          (Tables.alertSettings tb) (Tables.next_uuid tb)) s).
Definition put_alertSettings (rows : list AlertSettings.t) : M unit :=
  modify (fun s =>
    let tb := tables s in
    set_tables (Tables.mk (Tables.sensorReadings tb) (Tables.systemStatus tb)
                          rows (Tables.next_uuid tb)) s).

(* ------------------------------------------------------------------- *)
(** *** Statements *)

(** [insert(sensorReadings).values({temperature, ph, tdsLevel}).returning()];
    id, timestamp and createdAt take their column defaults.  (The row
    holds the three numbers as they were given: the rounding of the
    [real] columns is not modelled.) *)
Definition db_insert_reading (v : InsertSensorReading.t) : M SensorReading.t :=
  _ <- db_send InsertReading ;;
  i <- fresh_uuid ;;
  t <- date_now ;;
  let row := SensorReading.mk i t (InsertSensorReading.temperature v)
               (InsertSensorReading.ph v) (InsertSensorReading.tdsLevel v) t in
  rows <- gets (fun s => Tables.sensorReadings (tables s)) ;;
  _ <- put_sensorReadings (rows ++ [row]) ;;
  ret row.

(** [select().from(sensorReadings).orderBy(desc(timestamp)).limit(1)] *)
Definition db_select_latest : M (list SensorReading.t) :=
  _ <- db_send SelectLatest ;;
  rows <- gets (fun s => Tables.sensorReadings (tables s)) ;;
  ret (take 1 (merge_sort newest_first rows)).

(** [.limit(n)]: the query builder writes a LIMIT clause for a limit that
    is not negative and none for a negative one, so that a negative limit
    gives every row. *)
Definition sql_limit {A} (limit : Z) (rows : list A) : list A :=
  if limit <? 0 then rows else take (Z.to_nat limit) rows.

(** [... .orderBy(desc(timestamp)).limit(limit)] *)
Definition db_select_readings (limit : Z) : M (list SensorReading.t) :=
  _ <- db_send SelectReadings ;;
  rows <- gets (fun s => Tables.sensorReadings (tables s)) ;;
  ret (sql_limit limit (merge_sort newest_first rows)).

(** [... .where(and(gte(timestamp, start), lte(timestamp, end)))
         .orderBy(timestamp)] *)
Definition db_select_range (start end_ : Z) : M (list SensorReading.t) :=
  _ <- db_send SelectRange ;;
  rows <- gets (fun s => Tables.sensorReadings (tables s)) ;;
  ret (merge_sort oldest_first (List.filter (in_range start end_) rows)).

(** [select({ count: count() }).from(sensorReadings)] *)
Definition db_count_readings : M Z :=
  _ <- db_send CountReadings ;;
  rows <- gets (fun s => Tables.sensorReadings (tables s)) ;;
  ret (Z.of_nat (length rows)).

Definition db_select_status : M (option SystemStatus.t) :=
  _ <- db_send SelectStatus ;;
  rows <- gets (fun s => Tables.systemStatus (tables s)) ;;
  ret (head rows).

(** [insert(systemStatus).values({connectionStatus: 'connected',
    dataPoints: 0, cpuUsage: 23, memoryUsage: 30, storageUsage: 26,
    uptime: '3d 14h 22m', ...statusUpdate}).returning()] *)
Definition db_insert_status (u : PartialSystemStatus.t) : M SystemStatus.t :=
  _ <- db_send InsertStatus ;;
  i <- fresh_uuid ;;
  t <- date_now ;;
  let row := SystemStatus.mk
               (default i (PartialSystemStatus.id u))
               (default connected (PartialSystemStatus.connectionStatus u))
               (default t (PartialSystemStatus.lastUpdate u))
               (default 0 (PartialSystemStatus.dataPoints u))
               (default (23 # 1)%Q (PartialSystemStatus.cpuUsage u))
               (default (30 # 1)%Q (PartialSystemStatus.memoryUsage u))
               (default (26 # 1)%Q (PartialSystemStatus.storageUsage u))
               (default "3d 14h 22m" (PartialSystemStatus.uptime u)) in
  rows <- gets (fun s => Tables.systemStatus (tables s)) ;;
  _ <- put_systemStatus (rows ++ [row]) ;;
  ret row.

(** [Object.assign(target, statusUpdate, { lastUpdate })], also the
    effect of [set({ ...statusUpdate, lastUpdate })] on a row. *)
Definition assign_status (target : SystemStatus.t)
    (u : PartialSystemStatus.t) (lastUpdate : Z) : SystemStatus.t :=
  SystemStatus.mk
    (default (SystemStatus.id target) (PartialSystemStatus.id u))
    (default (SystemStatus.connectionStatus target)
             (PartialSystemStatus.connectionStatus u))
    lastUpdate
    (default (SystemStatus.dataPoints target) (PartialSystemStatus.dataPoints u))
    (default (SystemStatus.cpuUsage target) (PartialSystemStatus.cpuUsage u))
    (default (SystemStatus.memoryUsage target) (PartialSystemStatus.memoryUsage u))
    (default (SystemStatus.storageUsage target) (PartialSystemStatus.storageUsage u))
    (default (SystemStatus.uptime target) (PartialSystemStatus.uptime u)).

(** [update(systemStatus).set({...statusUpdate, lastUpdate})
      .where(eq(systemStatus.id, key)).returning()] *)
Definition db_update_status (key : Ident) (u : PartialSystemStatus.t)
    (lastUpdate : Z) : M (list SystemStatus.t) :=
  _ <- db_send UpdateStatus ;;
  rows <- gets (fun s => Tables.systemStatus (tables s)) ;;
  let hit r := ident_eqb (SystemStatus.id r) key in
  let upd r := if hit r then assign_status r u lastUpdate else r in
  _ <- put_systemStatus (map upd rows) ;;
  ret (map upd (List.filter hit rows)).

Definition db_select_alerts : M (option AlertSettings.t) :=
  _ <- db_send SelectAlerts ;;
  rows <- gets (fun s => Tables.alertSettings (tables s)) ;;
  ret (head rows).

Definition db_insert_alerts (ta pa la : bool) : M AlertSettings.t :=
  _ <- db_send InsertAlerts ;;
  i <- fresh_uuid ;;
  let row := AlertSettings.mk i ta pa la in
  rows <- gets (fun s => Tables.alertSettings (tables s)) ;;
  _ <- put_alertSettings (rows ++ [row]) ;;
  ret row.

Definition db_update_alerts (key : Ident) (ta pa la : bool)
  : M (list AlertSettings.t) :=
  _ <- db_send UpdateAlerts ;;
  rows <- gets (fun s => Tables.alertSettings (tables s)) ;;
  let hit r := ident_eqb (AlertSettings.id r) key in
  let upd r := if hit r then AlertSettings.mk (AlertSettings.id r) ta pa la
               else r in
  _ <- put_alertSettings (map upd rows) ;;
  ret (map upd (List.filter hit rows)).

(* ------------------------------------------------------------------- *)
(** *** External fetcher: [ExternalDatabaseService.fetchLatestReading] *)

(** [a || b || c || d], the alternatives being read only when needed. *)
Definition first_truthy (data : JsValue) (keys : list string) : Result JsValue :=
  fold_right
    (fun k rest =>
       (v <- js_get data k ;; if truthy v then Ok v else rest)%pure)
    (Ok JUndefined) keys.

Definition fetchLatestReading : M (option ExternalDatabaseReading.t) :=
  try_catch
    (response <- http_fetch ;;
     if negb (Response.ok response) then
       (* the body is read for the message, then the error is thrown *)
       throw ApiError
     else
     match Response.content_type response with
     | None => throw FormatError
     | Some contentType =>
       if negb (includes "application/json" contentType) then throw FormatError
       else
       data <- lift (match Response.json response with
                     | Some d => Ok d
                     | None => Throw SyntaxError
                     end) ;;
       (* Extract device code and encoded data *)
       dc <- lift (js_get data "device_code") ;;
       let deviceCode := js_or dc (JStr "UNKNOWN") in
       reading <- lift (js_get data "reading") ;;
       encodedData <- lift (js_get_opt reading "encoded_data") ;;
       if negb (truthy encodedData) then ret None
       else
       (* Decode the hex data *)
       decodedData <- lift (decodeHexData encodedData deviceCode) ;;
       match decodedData with
       | None => ret None
       | Some d =>
         (* Adapt decoded data to our schema *)
         given_id <- lift (first_truthy data ["id"; "_id"; "reading_id"]) ;;
         i <- (if truthy given_id then ret (IdJson given_id)
               else t <- date_now ;; ret (IdExt t)) ;;
         ts0 <- lift (js_get_opt reading "timestamp") ;;
         ts1 <- lift (if truthy ts0 then Ok ts0
                      else first_truthy data ["timestamp"; "created_at"; "time"]) ;;
         ts <- (if truthy ts1 then ret (TsJson ts1)
                else t <- date_now ;; ret (TsIso t)) ;;
         ret (Some (ExternalDatabaseReading.mk
                      i
                      (num_or (Decoded.temperature d) 0)
                      (num_or (Decoded.ph d) 0)
                      (num_or (Decoded.tdsLevel d)
                              (num_or (Decoded.ec d) 0))
                      ts))
       end
     end)
    (fun _ => ret None).

(* ------------------------------------------------------------------- *)
(** *** Persistence gateway: [initializeDatabase], [getDatabaseConnection] *)

(** Returns the pair [(db is set, available)]. *)
Definition initializeDatabase : M (bool * bool) :=
  fun s =>
    if _db s then (Ok (true, _databaseAvailable s), s)
    else
      match Env.DATABASE_URL E with
      | None => (Ok (false, false), set_gateway false false s)
      | Some url =>
          if String.eqb url EmptyString
          then (Ok (false, false), set_gateway false false s)
          else if Env.pool_init_throws E
          then (Ok (false, false), set_gateway false false s)
          else (Ok (true, true), set_gateway true true s)
      end.

Definition getDatabaseConnection : M (bool * bool) := initializeDatabase.

(* ------------------------------------------------------------------- *)
(** *** Storage orchestrator: [DatabaseStorage] *)

Definition setAvailable (b : bool) : M unit := modify (set_databaseAvailable b).

Definition get_fallback : M FallbackData.t := gets fallbackData.

Definition put_fallback_systemStatus (v : SystemStatus.t) : M unit :=
  modify (fun s =>
    let f := fallbackData s in
    set_fallbackData (FallbackData.mk v (FallbackData.alertSettings f)
                                      (FallbackData.sensorReadings f)) s).
Definition put_fallback_alertSettings (v : AlertSettings.t) : M unit :=
  modify (fun s =>
    let f := fallbackData s in
    set_fallbackData (FallbackData.mk (FallbackData.systemStatus f) v
                                      (FallbackData.sensorReadings f)) s).
Definition put_fallback_sensorReadings (v : list SensorReading.t) : M unit :=
  modify (fun s =>
    let f := fallbackData s in
    set_fallbackData (FallbackData.mk (FallbackData.systemStatus f)
                                      (FallbackData.alertSettings f) v) s).

(** [Object.assign(this.fallbackData.systemStatus, statusUpdate,
    { lastUpdate: new Date() }); return this.fallbackData.systemStatus] *)
Definition update_fallback_status (statusUpdate : PartialSystemStatus.t)
  : M (option SystemStatus.t) :=
  t <- date_now ;;
  f <- get_fallback ;;
  let st := assign_status (FallbackData.systemStatus f) statusUpdate t in
  _ <- put_fallback_systemStatus st ;;
  ret (Some st).

(** The result is [None] where the source yields [undefined] (an update
    that returned no row). *)
Definition updateSystemStatus (statusUpdate : PartialSystemStatus.t)
  : M (option SystemStatus.t) :=
  conn <- getDatabaseConnection ;;
  let '(dbInstance, available) := conn in
  if negb available || negb dbInstance then
    (* Update fallback data and return it *)
    update_fallback_status statusUpdate
  else
    try_catch
      (currentStatus <- db_select_status ;;
       match currentStatus with
       | None =>
           (* Create new status if none exists *)
           newStatus <- db_insert_status statusUpdate ;;
           ret (Some newStatus)
       | Some cur =>
           t <- date_now ;;
           updated <- db_update_status (SystemStatus.id cur) statusUpdate t ;;
           ret (head updated)
       end)
      (fun _ =>
         _ <- setAvailable false ;;
         (* Fallback to in-memory update *)
         update_fallback_status statusUpdate).

(** The object literal of a reading made up in memory:
    [{ id: `${tag}_${Date.now()}`, timestamp: new Date(),
       createdAt: new Date(), temperature, ph, tdsLevel }] *)
Definition in_memory_reading (tag : string) (v : InsertSensorReading.t)
  : M SensorReading.t :=
  t0 <- date_now ;;
  t1 <- date_now ;;
  t2 <- date_now ;;
  ret (SensorReading.mk (Stamped tag t0) t1
         (InsertSensorReading.temperature v) (InsertSensorReading.ph v)
         (InsertSensorReading.tdsLevel v) t2).

(** temperature 25.5, ph 6.8, tdsLevel 450 *)
Definition sample_values : InsertSensorReading.t :=
  InsertSensorReading.mk (255 # 10)%Q (68 # 10)%Q (450 # 1)%Q.

(** The first block of [fetchFromExternalDatabase]: inside the freshness
    window, and with the gateway up, the newest stored row is the
    answer.  [None] means that control goes on to the external fetch. *)
Definition read_cached (db available : bool) (now : Z)
  : M (option SensorReading.t) :=
  last <- gets lastExternalFetchTime ;;
  (* Check if we need to fetch new data (only if DB is available) *)
  if available && db && (now - last <? cacheTimeout) then
    try_catch
      (latestStored <- db_select_latest ;;
       ret (head latestStored))
      (fun _ =>
         (* DB cache read failed *)
         _ <- setAvailable false ;;
         ret None)
  else ret None.

(** The block that stores what the external service gave.  [None] means
    that nothing was stored (gateway down, or a statement failed). *)
Definition store_external (db available : bool)
    (values : InsertSensorReading.t) : M (option SensorReading.t) :=
  (* Insert new reading into database only if available *)
  if available && db then
    try_catch
      (newReading <- db_insert_reading values ;;
       (* Recovery: set to true on successful DB operation *)
       _ <- setAvailable true ;;
       (* Update system status efficiently with COUNT *)
       cnt <- db_count_readings ;;
       _ <- updateSystemStatus (PartialSystemStatus.only_dataPoints cnt) ;;
       ret (Some newReading))
      (fun _ =>
         (* Failed to store reading in database *)
         _ <- setAvailable false ;;
         ret None)
  else ret None.

(** The second [try] block of [fetchFromExternalDatabase]. *)
Definition fetch_external (db available : bool) (now : Z)
  : M (option SensorReading.t) :=
  try_catch
    (externalData <- fetchLatestReading ;;
     match externalData with
     | None => ret None   (* No data received from external database *)
     | Some x =>
       (* Update fetch time immediately after successful external fetch *)
       _ <- modify (set_lastExternalFetchTime now) ;;
       let values := InsertSensorReading.mk
                       (ExternalDatabaseReading.temperature x)
                       (ExternalDatabaseReading.ph x)
                       (ExternalDatabaseReading.tdsLevel x) in
       stored <- store_external db available values ;;
       match stored with
       | Some newReading => ret (Some newReading)
       | None =>
         (* Return data without storing if DB unavailable *)
         t1 <- date_now ;;
         t2 <- date_now ;;
         ret (Some (SensorReading.mk (Stamped "external" now) t1
                      (ExternalDatabaseReading.temperature x)
                      (ExternalDatabaseReading.ph x)
                      (ExternalDatabaseReading.tdsLevel x) t2))
       end
     end)
    (fun _ => ret None).

Definition fetchFromExternalDatabase : M (option SensorReading.t) :=
  now <- date_now ;;
  conn <- getDatabaseConnection ;;
  let '(db, available) := conn in
  cached <- read_cached db available now ;;
  match cached with
  | Some latest => ret (Some latest)
  | None => fetch_external db available now
  end.

(** The fallback branch of [getSensorReadings] (it occurs twice). *)
Definition fallback_readings (limit : Z) : M (list SensorReading.t) :=
  f <- get_fallback ;;
  _ <- (match FallbackData.sensorReadings f with
        | [] =>
            (* Providing sample data (fallback mode) *)
            sampleReading <- in_memory_reading "sample" sample_values ;;
            put_fallback_sensorReadings [sampleReading]
        | _ :: _ => ret tt
        end) ;;
  f' <- get_fallback ;;
  ret (slice0 (FallbackData.sensorReadings f') limit).

Definition is_development : bool :=
  match Env.NODE_ENV E with
  | Some v => String.eqb v "development"
  | None => false
  end.

(** The [try] block of [getSensorReadings]. *)
Definition query_readings (limit : Z) : M (list SensorReading.t) :=
  conn <- getDatabaseConnection ;;
  let '(dbInstance, available) := conn in
  if negb available || negb dbInstance then
    _ <- setAvailable false ;;
    (* Return fallback data directly instead of recursive call *)
    fallback_readings limit
  else
    (* Get readings from database *)
    readings <- db_select_readings limit ;;
    (* Recovery: set to true on successful DB operation *)
    _ <- setAvailable true ;;
    (* If no data in database, provide sample data ONLY in development *)
    match readings with
    | [] =>
      if is_development then
        sampleReading <- db_insert_reading sample_values ;;
        ret [sampleReading]
      else
        (* In production, return in-memory fallback instead of persisting *)
        sampleReading <- in_memory_reading "fallback" sample_values ;;
        _ <- put_fallback_sensorReadings [sampleReading] ;;
        ret [sampleReading]
    | _ :: _ => ret readings
    end.

(** [getSensorReadings(limit = 50)].  The [catch] block calls the method
    again; [fuel] bounds the depth of that recursion. *)
Fixpoint getSensorReadings (fuel : nat) (limit : Z) : M (list SensorReading.t) :=
  match fuel with
  | O => lift OutOfFuel
  | S fuel' =>
    (* Try to get fresh data from external source *)
    _ <- fetchFromExternalDatabase ;;
    flag <- gets databaseAvailable ;;
    if negb flag then
      (* Return fallback data if no database *)
      fallback_readings limit
    else
      try_catch
        (query_readings limit)
        (fun _ =>
           (* Database error, falling back to sample data *)
           _ <- setAvailable false ;;
           getSensorReadings fuel' limit)
  end.

(** [startTime] and [endTime] are taken as the instants [new Date(..)]
    makes of them. *)
Definition getSensorReadingsByTimeRange (start end_ : Z)
  : M (list SensorReading.t) :=
  (* Try to get fresh data *)
  _ <- fetchFromExternalDatabase ;;
  conn <- getDatabaseConnection ;;
  let '(db, available) := conn in
  if negb available || negb db then
    f <- get_fallback ;;
    ret (FallbackData.sensorReadings f)
  else
    try_catch
      (db_select_range start end_)
      (fun _ =>
         _ <- setAvailable false ;;
         f <- get_fallback ;;
         ret (FallbackData.sensorReadings f)).

(** [this.fallbackData.sensorReadings.unshift(reading); return reading] *)
Definition remember_in_memory (insertReading : InsertSensorReading.t)
  : M SensorReading.t :=
  reading <- in_memory_reading "memory" insertReading ;;
  f <- get_fallback ;;
  _ <- put_fallback_sensorReadings (reading :: FallbackData.sensorReadings f) ;;
  ret reading.

Definition createSensorReading (insertReading : InsertSensorReading.t)
  : M SensorReading.t :=
  conn <- getDatabaseConnection ;;
  let '(db, available) := conn in
  if negb available || negb db then
    (* Return in-memory data if DB unavailable *)
    remember_in_memory insertReading
  else
    try_catch
      (reading <- db_insert_reading insertReading ;;
       (* Update system status efficiently with COUNT *)
       cnt <- db_count_readings ;;
       _ <- updateSystemStatus (PartialSystemStatus.only_dataPoints cnt) ;;
       ret reading)
      (fun _ =>
         (* Failed to create reading in database *)
         _ <- setAvailable false ;;
         (* Fallback to in-memory *)
         remember_in_memory insertReading).

Definition default_status : M SystemStatus.t :=
  t <- date_now ;;
  ret (SystemStatus.mk (Named "default") connected t 0
         (23 # 1)%Q (30 # 1)%Q (26 # 1)%Q "3d 14h 22m").

Definition getSystemStatus : M SystemStatus.t :=
  conn <- getDatabaseConnection ;;
  let '(dbInstance, available) := conn in
  if negb available || negb dbInstance then
    gets (fun s => FallbackData.systemStatus (fallbackData s))
  else
    try_catch
      (status <- db_select_status ;;
       (* Set to true on successful connection *)
       _ <- setAvailable true ;;
       match status with
       | None => default_status   (* Return default if none exists yet *)
       | Some st => ret st
       end)
      (fun _ =>
         (* Database error, using fallback system status *)
         _ <- setAvailable false ;;
         gets (fun s => FallbackData.systemStatus (fallbackData s))).

Definition getAlertSettings : M AlertSettings.t :=
  conn <- getDatabaseConnection ;;
  let '(dbInstance, available) := conn in
  if negb available || negb dbInstance then
    gets (fun s => FallbackData.alertSettings (fallbackData s))
  else
    try_catch
      (settings <- db_select_alerts ;;
       (* Set to true on successful connection *)
       _ <- setAvailable true ;;
       match settings with
       | None => ret (AlertSettings.mk (Named "default") true true false)
       | Some st => ret st
       end)
      (fun _ =>
         _ <- setAvailable false ;;
         gets (fun s => FallbackData.alertSettings (fallbackData s))).

(** [Object.assign(this.fallbackData.alertSettings, newSettings)] *)
Definition update_fallback_alerts (newSettings : AlertSettings.t)
  : M (option AlertSettings.t) :=
  _ <- put_fallback_alertSettings newSettings ;;
  ret (Some newSettings).

Definition updateAlertSettings (newSettings : AlertSettings.t)
  : M (option AlertSettings.t) :=
  conn <- getDatabaseConnection ;;
  let '(dbInstance, available) := conn in
  if negb available || negb dbInstance then
    update_fallback_alerts newSettings
  else
    try_catch
      (currentSettings <- db_select_alerts ;;
       match currentSettings with
       | None =>
           created <- db_insert_alerts
                        (AlertSettings.temperatureAlerts newSettings)
                        (AlertSettings.phAlerts newSettings)
                        (AlertSettings.tdsLevelAlerts newSettings) ;;
           ret (Some created)
       | Some cur =>
           updated <- db_update_alerts (AlertSettings.id cur)
                        (AlertSettings.temperatureAlerts newSettings)
                        (AlertSettings.phAlerts newSettings)
                        (AlertSettings.tdsLevelAlerts newSettings) ;;
           ret (head updated)
       end)
      (fun _ =>
         _ <- setAvailable false ;;
         update_fallback_alerts newSettings).

(** [initializeDefaults], started by the constructor. *)
Definition initializeDefaults : M unit :=
  try_catch
    (conn <- getDatabaseConnection ;;
     let '(db, available) := conn in
     if negb available || negb db then setAvailable false
     else
       (* Test database connection first *)
       _ <- db_select_status ;;
       statusCount <- db_select_status ;;
       _ <- (match statusCount with
             | None => _ <- db_insert_status PartialSystemStatus.empty ;; ret tt
             | Some _ => ret tt
             end) ;;
       alertsCount <- db_select_alerts ;;
       _ <- (match alertsCount with
             | None => _ <- db_insert_alerts true true false ;; ret tt
             | Some _ => ret tt
             end) ;;
       setAvailable true)
    (fun _ => setAvailable false).

End Server.

(** The field initialisers of [DatabaseStorage], on a process whose gateway
    has not been touched and a store holding [tb]. *)
Definition new_DatabaseStorage (E : Env.t) (tb : Tables.t) : State :=
  mkState 0 true
    (FallbackData.mk
       (SystemStatus.mk (Named "fallback") connected (Env.clock E 0) 0
          (23 # 1)%Q (30 # 1)%Q (26 # 1)%Q "3d 14h 22m")
       (AlertSettings.mk (Named "fallback") true true false)
       [])
    false false tb 0 0 1.

(* ===================================================================== *)
(** ** Vocabulary of the properties *)
(* ===================================================================== *)

(** A payload made of hexadecimal digits only. *)
Definition is_hex (c : ascii) : bool :=
  match hex_digit c with
  | Some _ => true
  | None => false
  end.

Fixpoint all_hex (s : string) : bool :=
  match s with
  | EmptyString => true
  | String c r => is_hex c && all_hex r
  end.

(** The unsigned integer a hexadecimal numeral denotes, most significant
    digit first. *)
Fixpoint hex_value_from (acc : Z) (s : string) : Z :=
  match s with
  | EmptyString => acc
  | String c r => hex_value_from (16 * acc + default 0 (hex_digit c)) r
  end.

Definition hex_value (s : string) : Z := hex_value_from 0 s.

(** The two-letter families the decoder knows. *)
Definition known_family (deviceCode : string) : bool :=
  starts_with "CZ" deviceCode || starts_with "MZ" deviceCode ||
  starts_with "SZ" deviceCode || starts_with "GZ" deviceCode ||
  starts_with "HZ" deviceCode.

(** Does the response declare a JSON payload? *)
Definition declares_json (r : Response.t) : bool :=
  match Response.content_type r with
  | Some c => includes "application/json" c
  | None => false
  end.

(** [data.reading?.encoded_data] *)
Definition encoded_data_of (data : JsValue) : Result JsValue :=
  (reading <- js_get data "reading" ;; js_get_opt reading "encoded_data")%pure.

(** [data.device_code || "UNKNOWN"] *)
Definition device_code_of (data : JsValue) : Result JsValue :=
  (dc <- js_get data "device_code" ;; Ok (js_or dc (JStr "UNKNOWN")))%pure.

(** A computation that neither throws nor runs out of fuel, and one that
    at least does not run out of fuel. *)
Definition total {A} (m : M A) : Prop :=
  forall s, exists a s', m s = (Ok a, s').
Definition halts {A} (m : M A) : Prop :=
  forall s, fst (m s) <> OutOfFuel.

(** From a state in [P], [m] ends in a state in [Q], whether it returns or
    throws; [keeps P m] when [Q] is [P]. *)
Definition hoare {A} (P : State -> Prop) (m : M A) (Q : State -> Prop) : Prop :=
  forall s, P s -> Q (snd (m s)).
Definition keeps {A} (P : State -> Prop) (m : M A) : Prop := hoare P m P.

(** What [getDatabaseConnection] will answer in state [s], and the state it
    leaves. *)
Definition url_configured (E : Env.t) : bool :=
  match Env.DATABASE_URL E with
  | Some url => negb (String.eqb url EmptyString)
  | None => false
  end.

Definition gateway_available (E : Env.t) (s : State) : bool :=
  if _db s then _databaseAvailable s
  else url_configured E && negb (Env.pool_init_throws E).

Definition gateway_connected (s : State) : Prop :=
  _db s = true /\ _databaseAvailable s = true.

(** Two states that differ at most in the module variables of the gateway. *)
Definition same_but_gateway (s s' : State) : Prop :=
  lastExternalFetchTime s' = lastExternalFetchTime s /\
  databaseAvailable s' = databaseAvailable s /\
  fallbackData s' = fallbackData s /\
  tables s' = tables s /\
  dbOps s' = dbOps s /\
  netCalls s' = netCalls s /\
  ticks s' = ticks s.

(** The priming step of a read answers from the store, without calling
    the external service: the gateway is available, the read falls inside
    the freshness window, and the query for the newest row succeeds and
    finds one. *)
Definition served_from_cache (E : Env.t) (s : State) : bool :=
  gateway_available E s &&
  (Env.clock E (ticks s) - lastExternalFetchTime s <? cacheTimeout) &&
  negb (Env.db_fails E (dbOps s) SelectLatest) &&
  match Tables.sensorReadings (tables s) with
  | [] => false
  | _ :: _ => true
  end.

(** The row an accepted insert of [v] creates in state [s], and the state
    it leaves. *)
Definition inserted_row (E : Env.t) (v : InsertSensorReading.t) (s : State)
  : SensorReading.t :=
  SensorReading.mk (Uuid (Tables.next_uuid (tables s)))
    (Env.clock E (ticks s))
    (InsertSensorReading.temperature v) (InsertSensorReading.ph v)
    (InsertSensorReading.tdsLevel v)
    (Env.clock E (ticks s)).

Definition after_insert_reading (E : Env.t) (v : InsertSensorReading.t)
    (s : State) : State :=
  mkState (lastExternalFetchTime s) (databaseAvailable s) (fallbackData s)
    (_db s) (_databaseAvailable s)
    (Tables.mk (Tables.sensorReadings (tables s) ++ [inserted_row E v s])
       (Tables.systemStatus (tables s)) (Tables.alertSettings (tables s))
       (S (Tables.next_uuid (tables s))))
    (S (dbOps s)) (netCalls s) (S (ticks s)).

(** The values of the seed reading: temperature 25.5, pH 6.8, TDS 450. *)
Definition is_sample (r : SensorReading.t) : Prop :=
  SensorReading.temperature r = (255 # 10)%Q /\
  SensorReading.ph r = (68 # 10)%Q /\
  SensorReading.tdsLevel r = (450 # 1)%Q.

(** The count query and the statements on the status row are accepted,
    from the [k]-th statement on. *)
Definition recount_accepted (E : Env.t) (k : nat) : Prop :=
  forall j, (k <= j)%nat ->
    Env.db_fails E j CountReadings = false /\
    Env.db_fails E j SelectStatus = false /\
    Env.db_fails E j InsertStatus = false /\
    Env.db_fails E j UpdateStatus = false.

(** The persisted status row carries the number of persisted readings. *)
Definition dataPoints_in_sync (tb : Tables.t) : Prop :=
  exists st,
    head (Tables.systemStatus tb) = Some st /\
    SystemStatus.dataPoints st = Z.of_nat (length (Tables.sensorReadings tb)).

(** Every status object the orchestrator can hand out says 'connected':
    the in-memory fallback status and the persisted rows. *)
Definition status_connected (s : State) : Prop :=
  SystemStatus.connectionStatus (FallbackData.systemStatus (fallbackData s))
    = connected /\
  Forall (fun st => SystemStatus.connectionStatus st = connected)
         (Tables.systemStatus (tables s)).

(* ===================================================================== *)
(** ** Concrete environments and states *)
(* ===================================================================== *)

Module Scenario.

(** An upstream answer for device HZ1: pH 7.00, TDS 200.0, 24.0 degrees. *)
Definition envelope : JsValue :=
  JObj [("device_code", JStr "HZ1");
        ("reading", JObj [("encoded_data", JStr "02BC07D000F0");
                          ("timestamp", JStr "2025-01-01T00:00:00Z")])].

Definition answers : FetchOutcome :=
  Responded (Response.mk true (Some "application/json; charset=utf-8")
                         (Some envelope)).

(** A clock that advances 100 ms between two readings. *)
Definition clock (k : nat) : Z := 1700000000000 + 100 * Z.of_nat k.

Definition empty_store : Tables.t := Tables.mk [] [] [] 0.

(** The storage object once the constructor's [initializeDefaults] has
    run against an empty store. *)
Definition boot (E : Env.t) : State :=
  snd (initializeDefaults E (new_DatabaseStorage E empty_store)).

(** No connection string: the gateway is never available. *)
Definition no_store : Env.t :=
  Env.mk None (Some "production") false (fun _ _ => false)
         (fun _ => answers) clock.

(** A store that never fails and an upstream that always answers. *)
Definition healthy (node_env : string) : Env.t :=
  Env.mk (Some "postgres://db") (Some node_env) false (fun _ _ => false)
         (fun _ => answers) clock.

(** A store that never fails, an upstream that never answers. *)
Definition upstream_down (node_env : string) : Env.t :=
  Env.mk (Some "postgres://db") (Some node_env) false (fun _ _ => false)
         (fun _ => Rejected) clock.

(** A store that fails every statement, an upstream that never answers. *)
Definition store_down : Env.t :=
  Env.mk (Some "postgres://db") (Some "production") false (fun _ _ => true)
         (fun _ => Rejected) clock.

(** The gateway is up and every statement but the sixth is accepted (the
    first five are those of [initializeDefaults]). *)
Definition hiccup : Env.t :=
  Env.mk (Some "postgres://db") (Some "production") false
         (fun k _ => (k =? 5)%nat) (fun _ => answers) clock.

(** A state whose status row carries a count that is off: 41 data points
    for an empty table of readings. *)
Definition stale_count : State :=
  snd (updateSystemStatus (healthy "production")
         (PartialSystemStatus.only_dataPoints 41)
         (boot (healthy "production"))).

(** The store accepts the five statements of [initializeDefaults] and
    rejects every statement after; the upstream never answers. *)
Definition outage : Env.t :=
  Env.mk (Some "postgres://db") (Some "production") false
         (fun k _ => (5 <=? k)%nat) (fun _ => Rejected) clock.

(** The store accepts every write and every statement on the status row,
    and rejects every query on the readings; the upstream always answers. *)
Definition reads_rejected : Env.t :=
  Env.mk (Some "postgres://db") (Some "production") false
         (fun _ op => match op with
                      | SelectLatest | SelectReadings | SelectRange => true
                      | _ => false
                      end)
         (fun _ => answers) clock.

(** The upstream answers the first request only, and the store fails one
    statement, the eleventh (the cache read of the second read). *)
Definition flaky : Env.t :=
  Env.mk (Some "postgres://db") (Some "production") false
         (fun k _ => (k =? 10)%nat)
         (fun k => if (k =? 0)%nat then answers else Rejected) clock.

End Scenario.

(* ===================================================================== *)
(** ** Further vocabulary: decoder, fetcher, reads and writes *)
(* ===================================================================== *)

(** A decoded property is absent, NaN, or a fraction [n / scale] with
    [|n| <= 65535]. *)
Definition field_within (x : option JsNumber) (scale : positive) : Prop :=
  match x with
  | None | Some NaN => True
  | Some (Fin q) => Qden q = scale /\ -65535 <= Qnum q <= 65535
  end.

(** Lower-case hexadecimal letters made upper case; every other character
    is left alone. *)
Definition upper_hex (c : ascii) : ascii :=
  let n := nat_of_ascii c in
  if ((97 <=? n) && (n <=? 102))%nat then ascii_of_nat (n - 32) else c.

Fixpoint map_string (f : ascii -> ascii) (s : string) : string :=
  match s with
  | EmptyString => EmptyString
  | String c r => String (f c) (map_string f r)
  end.

(** How many characters of the payload the layout of a device code reads:
    four chunks for CZ, three for MZ, SZ, GZ and HZ, none otherwise. *)
Definition consumed (deviceCode : JsValue) : nat :=
  match deviceCode with
  | JStr d =>
      if starts_with "CZ" d then 16%nat
      else if known_family d then 12%nat
      else 0%nat
  | _ => 0%nat
  end.

(** The properties of a decoded record, each with the divisor its layout
    applies. *)
Definition fields_within (r : Decoded.t) : Prop :=
  field_within (Decoded.ph r) 100 /\
  field_within (Decoded.moisture r) 10 /\
  field_within (Decoded.ec r) 100 /\
  field_within (Decoded.temperature r) 10 /\
  field_within (Decoded.humidity r) 10 /\
  field_within (Decoded.light r) 1 /\
  field_within (Decoded.tdsLevel r) 10.

(** What [fetchLatestReading] leaves alone: everything but the count of
    requests and the clock. *)
Definition same_but_network (s s' : State) : Prop :=
  lastExternalFetchTime s' = lastExternalFetchTime s /\
  databaseAvailable s' = databaseAvailable s /\
  fallbackData s' = fallbackData s /\
  _db s' = _db s /\
  _databaseAvailable s' = _databaseAvailable s /\
  tables s' = tables s /\
  dbOps s' = dbOps s.

(** An upstream answer for a greenhouse device: 24.0 degrees, 65.0 % of
    humidity, 1000 lux. *)
Definition greenhouse_envelope : JsValue :=
  JObj [("id", JNum (17 # 1)%Q);
        ("device_code", JStr "GZ1");
        ("reading", JObj [("encoded_data", JStr "00F0028A03E8")])].

Definition greenhouse : Env.t :=
  Env.mk (Some "postgres://db") (Some "production") false (fun _ _ => false)
         (fun _ => Responded (Response.mk true (Some "application/json")
                                (Some greenhouse_envelope)))
         Scenario.clock.

(** A computation that lets no exception out (it may still need more
    fuel). *)
Definition never_throws {A} (m : M A) : Prop :=
  forall s e, fst (m s) <> Throw e.

(** The reading carries the three submitted values. *)
Definition carries_values (r : SensorReading.t) (v : InsertSensorReading.t)
  : Prop :=
  SensorReading.temperature r = InsertSensorReading.temperature v /\
  SensorReading.ph r = InsertSensorReading.ph v /\
  SensorReading.tdsLevel r = InsertSensorReading.tdsLevel v.

(** The in-memory list of readings. *)
Definition memory_readings (s : State) : list SensorReading.t :=
  FallbackData.sensorReadings (fallbackData s).

(** The persisted readings. *)
Definition stored_readings (s : State) : list SensorReading.t :=
  Tables.sensorReadings (tables s).


(** The statements on the settings row are accepted, from the [k]-th
    statement on. *)
Definition alerts_accepted (E : Env.t) (k : nat) : Prop :=
  forall j, (k <= j)%nat ->
    Env.db_fails E j SelectAlerts = false /\
    Env.db_fails E j InsertAlerts = false /\
    Env.db_fails E j UpdateAlerts = false.

(** Two settings objects with the same three switches. *)
Definition same_switches (a b : AlertSettings.t) : Prop :=
  AlertSettings.temperatureAlerts a = AlertSettings.temperatureAlerts b /\
  AlertSettings.phAlerts a = AlertSettings.phAlerts b /\
  AlertSettings.tdsLevelAlerts a = AlertSettings.tdsLevelAlerts b.

(** Every property the update gives, [lastUpdate] apart, is the one the
    status has. *)
Definition carries_update (st : SystemStatus.t) (u : PartialSystemStatus.t)
  : Prop :=
  (forall v, PartialSystemStatus.id u = Some v -> SystemStatus.id st = v) /\
  (forall v, PartialSystemStatus.connectionStatus u = Some v ->
             SystemStatus.connectionStatus st = v) /\
  (forall v, PartialSystemStatus.dataPoints u = Some v ->
             SystemStatus.dataPoints st = v) /\
  (forall v, PartialSystemStatus.cpuUsage u = Some v ->
             SystemStatus.cpuUsage st = v) /\
  (forall v, PartialSystemStatus.memoryUsage u = Some v ->
             SystemStatus.memoryUsage st = v) /\
  (forall v, PartialSystemStatus.storageUsage u = Some v ->
             SystemStatus.storageUsage st = v) /\
  (forall v, PartialSystemStatus.uptime u = Some v ->
             SystemStatus.uptime st = v).

(** The same for the two properties held in text columns. *)
Definition carries_text (st : SystemStatus.t) (u : PartialSystemStatus.t)
  : Prop :=
  (forall v, PartialSystemStatus.connectionStatus u = Some v ->
             SystemStatus.connectionStatus st = v) /\
  (forall v, PartialSystemStatus.uptime u = Some v ->
             SystemStatus.uptime st = v).

(** Inserts of readings are accepted, from the [k]-th statement on. *)
Definition inserts_accepted (E : Env.t) (k : nat) : Prop :=
  forall j, (k <= j)%nat -> Env.db_fails E j InsertReading = false.

(** The rows [initializeDefaults] creates. *)
Definition default_status_row (i : Ident) (t : Z) : SystemStatus.t :=
  SystemStatus.mk i connected t 0 (23 # 1)%Q (30 # 1)%Q (26 # 1)%Q "3d 14h 22m".

Definition default_alerts_row (i : Ident) : AlertSettings.t :=
  AlertSettings.mk i true true false.

(** At most one status row and at most one settings row. *)
Definition single_rows (s : State) : Prop :=
  (length (Tables.systemStatus (tables s)) <= 1)%nat /\
  (length (Tables.alertSettings (tables s)) <= 1)%nat.

(** No statement was sent and the tables are as they were. *)
Definition store_untouched (s s' : State) : Prop :=
  dbOps s' = dbOps s /\ tables s' = tables s.

(** A store that rejects the count query and accepts everything else; the
    upstream always answers. *)
Definition count_rejected : Env.t :=
  Env.mk (Some "postgres://db") (Some "production") false
         (fun _ op => match op with
                      | CountReadings => true
                      | _ => false
                      end)
         (fun _ => Scenario.answers) Scenario.clock.

(** The queries on the readings are rejected, always. *)
Definition reads_always_rejected (E : Env.t) : Prop :=
  forall k, Env.db_fails E k SelectLatest = true /\
            Env.db_fails E k SelectReadings = true.

(** Whenever it is asked, the external service gives a reading. *)
Definition upstream_always_answers (E : Env.t) : Prop :=
  forall s, exists x s1, fetchLatestReading E s = (Ok (Some x), s1).

(* ===================================================================== *)
(** ** Antares fetcher: [AntaresService.fetchLatestData] *)
(* ===================================================================== *)

(** What [parseFloat] gives: [NaN], an infinity or a finite number. *)
Inductive ParsedNumber :=
| PNaN
| PInfinity (negative : bool)
| PFin (q : Q).

(** [x || 0] on a number: [NaN] and zero give 0. *)
Definition or_zero (x : ParsedNumber) : ParsedNumber :=
  match x with
  | PNaN => PFin 0
  | PInfinity b => PInfinity b
  | PFin q => if Qnum q =? 0 then PFin 0 else PFin q
  end.

Module AntaresData.
Record t := mk {
  temperature : ParsedNumber;
  ph : ParsedNumber;
  tdsLevel : ParsedNumber
}.
End AntaresData.

Section Antares.
Variable E : Env.t.
(** [JSON.parse] and [parseFloat] belong to the runtime: the service is
    modelled over any two such functions.  [JSON_parse c] is [None] when
    [JSON.parse(c)] throws a SyntaxError; [parseFloat v] is [None] when
    [parseFloat(v)] throws a TypeError, which it does when [v] cannot be
    converted to a string (an object whose [toString] and [valueOf] give
    no primitive). *)
Variable JSON_parse : string -> option JsValue.
Variable parseFloat : JsValue -> option ParsedNumber.

(** [parseFloat(v.k) || 0] *)
Definition antares_field (v : JsValue) (k : string) : Result ParsedNumber :=
  (x <- js_get v k ;;
   match parseFloat x with
   | Some n => Ok (or_zero n)
   | None => Throw TypeError
   end)%pure.

(** [{ temperature: parseFloat(v.temperature) || 0,
       ph: parseFloat(v.ph) || 0,
       tdsLevel: parseFloat(v.tdsLevel) || 0 }], the properties being
    evaluated in this order. *)
Definition antares_fields (v : JsValue) : Result AntaresData.t :=
  (t <- antares_field v "temperature" ;;
   p <- antares_field v "ph" ;;
   d <- antares_field v "tdsLevel" ;;
   Ok (AntaresData.mk t p d))%pure.

(** [data["m2m:cin"]?.con] *)
Definition antares_content (data : JsValue) : Result JsValue :=
  (cin <- js_get data "m2m:cin" ;; js_get_opt cin "con")%pure.

(** The errors thrown are [ApiError] for "Antares API error: ..." and
    [FormatError] for "Invalid response format from Antares API"; the
    outer [catch] logs the error and throws it again. *)
Definition fetchLatestData : M (option AntaresData.t) :=
  (try_catch
     (response <- http_fetch E ;;
      if negb (Response.ok response) then throw ApiError
      else
      data <- lift (match Response.json response with
                    | Some d => Ok d
                    | None => Throw SyntaxError
                    end) ;;
      content <- lift (antares_content data) ;;
      if negb (truthy content) then throw FormatError
      else
      match content with
      | JStr c =>
          try_catch
            (parsed <- lift (match JSON_parse c with
                             | Some p => Ok p
                             | None => Throw SyntaxError
                             end) ;;
             r <- lift (antares_fields parsed) ;;
             ret (Some r))
            (fun _ => ret None)
      | _ =>
          r <- lift (antares_fields content) ;;
          ret (Some r)
      end)
     (fun err => throw err))%server.

(** What the string branch of [fetchLatestData] gives: the inner [try]
    with its [catch]. *)
Definition parsed_result (c : string) : Result (option AntaresData.t) :=
  match JSON_parse c with
  | None => Ok None
  | Some p =>
      match antares_fields p with
      | Ok r => Ok (Some r)
      | Throw _ => Ok None
      | OutOfFuel => OutOfFuel
      end
  end.

(** One of the three properties of [v] is a value that [parseFloat]
    cannot convert. *)
Definition unreadable_field (v : JsValue) : Prop :=
  exists k x,
    (k = "temperature" \/ k = "ph" \/ k = "tdsLevel") /\
    js_get v k = Ok x /\ parseFloat x = None.

End Antares.

(* PROPERTIES *)

(* ===================================================================== *)
(** ** Hex decoder *)
(* ===================================================================== *)

Section DecoderFacts.

Lemma hex_digit_range c d : hex_digit c = Some d -> 0 <= d <= 15.
Proof.
  unfold hex_digit.
  repeat match goal with
         | |- context [if ?b then _ else _] => destruct b eqn:?
         end; intros [= <-]; lia.
Qed.

Lemma is_hex_plain c :
  is_hex c = true ->
  is_js_whitespace c = false /\
  c <> "-"%char /\ c <> "+"%char /\ c <> "x"%char /\ c <> "X"%char.
Proof.
  destruct c as [[] [] [] [] [] [] [] []]; vm_compute;
    solve [ discriminate | intuition discriminate ].
Qed.

Lemma trim_start_hex c r :
  is_hex c = true -> trim_start (String c r) = String c r.
Proof.
  intros H. apply is_hex_plain in H as (W & _). simpl. now rewrite W.
Qed.

Lemma strip_sign_hex c r :
  is_hex c = true -> strip_sign (String c r) = (1, String c r).
Proof.
  intros H. apply is_hex_plain in H as (_ & M & P & _).
  destruct c as [[] [] [] [] [] [] [] []]; try reflexivity; congruence.
Qed.

Lemma strip_0x_hex s : all_hex s = true -> strip_0x s = s.
Proof.
  destruct s as [|c [|c' r]];
    [ reflexivity
    | destruct c as [[] [] [] [] [] [] [] []]; reflexivity
    | ].
  simpl. intros H.
  apply andb_true_iff in H as (_ & H).
  apply andb_true_iff in H as (H & _).
  apply is_hex_plain in H as (_ & _ & _ & X & X').
  destruct c as [[] [] [] [] [] [] [] []]; try reflexivity;
    destruct c' as [[] [] [] [] [] [] [] []]; try reflexivity; congruence.
Qed.

Lemma parse_digits_hex s a :
  all_hex s = true ->
  parse_digits s (Some a) = Some (hex_value_from a s).
Proof.
  revert a. induction s as [|c r IH]; intros a H; [reflexivity|].
  simpl in *. apply andb_true_iff in H as (Hc & Hr).
  unfold is_hex in Hc. destruct (hex_digit c) as [d|]; [|discriminate].
  simpl. now apply IH.
Qed.

(** On a non-empty run of hexadecimal digits [parseInt(_, 16)] is the
    plain positional value. *)
Lemma parseInt16_hex s :
  all_hex s = true -> s <> EmptyString ->
  parseInt16 s = Fin (hex_value s # 1).
Proof.
  intros H Hne. destruct s as [|c r]; [congruence|].
  pose proof H as H'. simpl in H'. apply andb_true_iff in H' as (Hc & Hr).
  unfold parseInt16. rewrite trim_start_hex, strip_sign_hex by assumption.
  rewrite strip_0x_hex by assumption.
  simpl. unfold is_hex in Hc.
  destruct (hex_digit c) as [d|] eqn:Hd; [|discriminate].
  rewrite parse_digits_hex by assumption.
  unfold hex_value. simpl. rewrite Hd. simpl.
  now rewrite Z.mul_1_l.
Qed.

Lemma all_hex_substring s : forall n m,
  all_hex s = true -> all_hex (String.substring n m s) = true.
Proof.
  induction s as [|c r IH]; intros n m H.
  - destruct n, m; reflexivity.
  - simpl in H. apply andb_true_iff in H as (Hc & Hr).
    destruct n, m; simpl; auto. rewrite Hc. simpl. auto.
Qed.

Lemma length_substring s : forall n m,
  (n + m <= String.length s)%nat ->
  String.length (String.substring n m s) = m.
Proof.
  induction s as [|c r IH]; intros n m H; simpl in H.
  - destruct n, m; simpl in *; try lia; reflexivity.
  - destruct n, m; simpl; try reflexivity.
    + f_equal. apply IH. simpl. lia.
    + apply IH. lia.
    + apply IH. lia.
Qed.

Lemma hex_value_from_bound s : forall a,
  all_hex s = true -> 0 <= a ->
  0 <= hex_value_from a s < (a + 1) * 16 ^ Z.of_nat (String.length s).
Proof.
  induction s as [|c r IH]; intros a H Ha.
  - simpl. lia.
  - simpl in H. apply andb_true_iff in H as (Hc & Hr).
    unfold is_hex in Hc. destruct (hex_digit c) as [d|] eqn:Hd; [|discriminate].
    apply hex_digit_range in Hd as Hd'.
    cbn [hex_value_from String.length]. rewrite Hd. cbn [default].
    specialize (IH (16 * a + d) Hr ltac:(lia)).
    rewrite Nat2Z.inj_succ, Z.pow_succ_r by lia.
    set (P := 16 ^ Z.of_nat (String.length r)) in *.
    assert (0 < P) by (apply Z.pow_pos_nonneg; lia).
    assert ((16 * a + d + 1) * P <= (16 * (a + 1)) * P)
      by (apply Z.mul_le_mono_nonneg_r; lia).
    clearbody P. unfold id. lia.
Qed.

(** A chunk of four hexadecimal digits is a 16-bit unsigned integer. *)
Lemma chunk_hex h off :
  all_hex h = true -> (off + 4 <= String.length h)%nat ->
  chunk (JStr h) off = Ok (Fin (hex_value (substr h off 4) # 1)) /\
  0 <= hex_value (substr h off 4) < 65536.
Proof.
  intros H L. unfold chunk, substr.
  pose proof (all_hex_substring h off 4 H) as Hs.
  pose proof (length_substring h off 4 L) as Ls.
  split.
  - rewrite parseInt16_hex; auto.
    intros Heq. rewrite Heq in Ls. discriminate.
  - pose proof (hex_value_from_bound _ 0 Hs ltac:(lia)) as B.
    rewrite Ls in B. unfold hex_value. simpl in B. lia.
Qed.

Lemma starts_with_HZ d :
  starts_with "HZ" d = true ->
  starts_with "CZ" d = false /\ starts_with "MZ" d = false /\
  starts_with "SZ" d = false /\ starts_with "GZ" d = false.
Proof.
  destruct d as [|a r]; cbn [starts_with]; [discriminate|].
  intros H. apply andb_true_iff in H as (H & _).
  apply Ascii.eqb_eq in H as <-. repeat split; reflexivity.
Qed.

End DecoderFacts.

(** C6.  For every payload made of hexadecimal digits and at least twelve
    characters long, and every device code that starts with [HZ], the
    decoder returns the record with exactly the three properties ph,
    tdsLevel and temperature, computed from the 4-character chunks at
    offsets 0, 4 and 8: each chunk is read as an unsigned 16-bit integer,
    and ph is chunk0/100, tdsLevel chunk1/10, temperature chunk2/10. *)
Theorem decodeHexData_HZ (h d : string) :
  all_hex h = true ->
  (12 <= String.length h)%nat ->
  starts_with "HZ" d = true ->
  let c0 := hex_value (substr h 0 4) in
  let c1 := hex_value (substr h 4 4) in
  let c2 := hex_value (substr h 8 4) in
  decodeHexData (JStr h) (JStr d) =
    Ok (Some {| Decoded.ph := Some (Fin (c0 # 100));
                Decoded.moisture := None;
                Decoded.ec := None;
                Decoded.temperature := Some (Fin (c2 # 10));
                Decoded.humidity := None;
                Decoded.light := None;
                Decoded.tdsLevel := Some (Fin (c1 # 10)) |}) /\
  0 <= c0 < 65536 /\ 0 <= c1 < 65536 /\ 0 <= c2 < 65536.
Proof.
  intros H L P c0 c1 c2.
  destruct (starts_with_HZ d P) as (C & Mz & Sz & G).
  destruct (chunk_hex h 0 H ltac:(lia)) as (E0 & B0).
  destruct (chunk_hex h 4 H ltac:(lia)) as (E1 & B1).
  destruct (chunk_hex h 8 H ltac:(lia)) as (E2 & B2).
  split; [|now repeat split].
  unfold decodeHexData, decodeHexData_try, js_startsWith.
  rewrite C, Mz, Sz, G, P. cbn [Pure.bind].
  rewrite E0, E1, E2. reflexivity.
Qed.

Lemma decodeHexData_HZ_witness :
  decodeHexData (JStr "02BC07D000F0") (JStr "HZ1") =
    Ok (Some {| Decoded.ph := Some (Fin (700 # 100));
                Decoded.moisture := None;
                Decoded.ec := None;
                Decoded.temperature := Some (Fin (240 # 10));
                Decoded.humidity := None;
                Decoded.light := None;
                Decoded.tdsLevel := Some (Fin (2000 # 10)) |}).
Proof.
  exact (proj1 (decodeHexData_HZ "02BC07D000F0" "HZ1"
                  eq_refl ltac:(simpl; lia) eq_refl)).
Defined.

Lemma decodeHexData_returns hv dv : exists r, decodeHexData hv dv = Ok r.
Proof.
  unfold decodeHexData, decodeHexData_try, js_startsWith, chunk.
  destruct dv; simpl; eauto.
  repeat match goal with
         | |- context [if ?b then _ else _] => destruct b; simpl
         end;
    destruct hv; simpl; eauto.
Qed.

Lemma decodeHexData_null_iff (h d : string) :
  decodeHexData (JStr h) (JStr d) = Ok None <-> known_family d = false.
Proof.
  unfold decodeHexData, decodeHexData_try, js_startsWith, chunk, known_family.
  cbn [Pure.bind].
  destruct (starts_with "CZ" d); cbn [Pure.bind Pure.try_catch orb];
    [split; discriminate|].
  destruct (starts_with "MZ" d); cbn [Pure.bind Pure.try_catch orb];
    [split; discriminate|].
  destruct (starts_with "SZ" d); cbn [Pure.bind Pure.try_catch orb];
    [split; discriminate|].
  destruct (starts_with "GZ" d); cbn [Pure.bind Pure.try_catch orb];
    [split; discriminate|].
  destruct (starts_with "HZ" d); cbn [Pure.bind Pure.try_catch orb];
    [split; discriminate|].
  split; reflexivity.
Qed.

(** C7 (as the code has it).  The decoder never throws, whatever it is
    given.  On strings it returns null exactly when the device code starts
    with none of CZ, MZ, SZ, GZ, HZ; for a known family it returns a
    record for every payload, well-formed or not: the payload is not
    validated. *)
Theorem decodeHexData_total_null_iff_unknown_family :
  (forall hv dv : JsValue, exists r, decodeHexData hv dv = Ok r) /\
  (forall h d : string,
      decodeHexData (JStr h) (JStr d) = Ok None <-> known_family d = false) /\
  (forall h d : string,
      known_family d = true ->
      exists r, decodeHexData (JStr h) (JStr d) = Ok (Some r)) /\
  decodeHexData (JStr "02BC07D000F0") (JStr "XX1") = Ok None.
Proof.
  split; [exact decodeHexData_returns|].
  split; [exact decodeHexData_null_iff|].
  split; [|reflexivity].
  intros h d K.
  destruct (decodeHexData_returns (JStr h) (JStr d)) as ([r|] & H);
    [now exists r|].
  apply decodeHexData_null_iff in H. congruence.
Qed.

(** C7, counterexample.  A payload of non-hexadecimal characters and a
    payload shorter than three chunks, both for the HZ family: the decoder
    returns a record (here with NaN in the fields whose chunk holds no
    hexadecimal digit), not null. *)
Lemma decodeHexData_malformed_not_null :
  decodeHexData (JStr "ZZZZ") (JStr "HZ1") =
    Ok (Some {| Decoded.ph := Some NaN;
                Decoded.moisture := None;
                Decoded.ec := None;
                Decoded.temperature := Some NaN;
                Decoded.humidity := None;
                Decoded.light := None;
                Decoded.tdsLevel := Some NaN |}) /\
  decodeHexData (JStr "02BC") (JStr "HZ1") =
    Ok (Some {| Decoded.ph := Some (Fin (700 # 100));
                Decoded.moisture := None;
                Decoded.ec := None;
                Decoded.temperature := Some NaN;
                Decoded.humidity := None;
                Decoded.light := None;
                Decoded.tdsLevel := Some NaN |}) /\
  decodeHexData (JStr "ZZZZ") (JStr "HZ1") <> Ok None /\
  decodeHexData (JStr "02BC") (JStr "HZ1") <> Ok None.
Proof. repeat split; discriminate. Qed.

(* ===================================================================== *)
(** ** Termination and absence of exceptions, compositionally *)
(* ===================================================================== *)

Section MonadFacts.
Context {A B : Type}.

Lemma total_halts (m : M A) : total m -> halts m.
Proof. intros T s. destruct (T s) as (a & s' & ->). discriminate. Qed.

Lemma total_ret (a : A) : total (ret a).
Proof. intros s. now exists a, s. Qed.

Lemma total_gets (f : State -> A) : total (gets f).
Proof. intros s. now exists (f s), s. Qed.

Lemma total_bind (m : M A) (k : A -> M B) :
  total m -> (forall a, total (k a)) -> total (bind m k).
Proof.
  intros Tm Tk s. unfold bind. destruct (Tm s) as (a & s' & ->). apply Tk.
Qed.

Lemma halts_throw (e : Exn) : halts (throw e : M A).
Proof. intros s. discriminate. Qed.

Lemma halts_lift (r : Result A) : r <> OutOfFuel -> halts (lift r).
Proof. intros H s. exact H. Qed.

Lemma halts_bind (m : M A) (k : A -> M B) :
  halts m -> (forall a, halts (k a)) -> halts (bind m k).
Proof.
  intros Hm Hk s. unfold bind. specialize (Hm s).
  destruct (m s) as [[a|e|] s']; simpl in *;
    [apply Hk | discriminate | congruence].
Qed.

Lemma halts_try_catch (m : M A) (h : Exn -> M A) :
  halts m -> (forall e, halts (h e)) -> halts (try_catch m h).
Proof.
  intros Hm Hh s. unfold try_catch. specialize (Hm s).
  destruct (m s) as [[a|e|] s']; simpl in *;
    [discriminate | apply Hh | congruence].
Qed.

(** A [try] whose handler cannot fail absorbs every exception. *)
Lemma total_try_catch (m : M A) (h : Exn -> M A) :
  halts m -> (forall e, total (h e)) -> total (try_catch m h).
Proof.
  intros Hm Hh s. unfold try_catch. specialize (Hm s).
  destruct (m s) as [[a|e|] s']; simpl in *;
    [eauto | apply Hh | congruence].
Qed.

End MonadFacts.

Lemma total_modify (f : State -> State) : total (modify f).
Proof. intros s. now exists tt, (f s). Qed.

Lemma total_date_now E : total (date_now E).
Proof. intros s. unfold date_now. eauto. Qed.

Lemma halts_http_fetch E : halts (http_fetch E).
Proof. intros s. unfold http_fetch. destruct (Env.net E _); discriminate. Qed.

Lemma halts_db_send E op : halts (db_send E op).
Proof. intros s. unfold db_send. destruct (Env.db_fails E _ _); discriminate. Qed.

Lemma js_get_halts v k : js_get v k <> OutOfFuel.
Proof. destruct v; discriminate. Qed.

Lemma js_get_opt_halts v k : js_get_opt v k <> OutOfFuel.
Proof. destruct v; discriminate. Qed.

Lemma first_truthy_halts data keys : first_truthy data keys <> OutOfFuel.
Proof.
  induction keys as [|k keys IH]; simpl; [discriminate|].
  destruct data; simpl; try discriminate; try assumption.
  destruct (truthy _); [discriminate | assumption].
Qed.

Lemma decodeHexData_halts hv dv : decodeHexData hv dv <> OutOfFuel.
Proof. destruct (decodeHexData_returns hv dv) as (r & ->). discriminate. Qed.

Create HintDb server discriminated.
#[export] Hint Resolve total_ret total_gets total_modify total_date_now
  halts_throw halts_http_fetch halts_db_send js_get_halts js_get_opt_halts
  first_truthy_halts decodeHexData_halts : server.

(** Decompose a goal [total m] or [halts m] along the structure of [m]. *)
Ltac step_structure :=
  match goal with
  | |- total (bind _ _) => apply total_bind; [|intros ?]
  | |- total (try_catch _ _) => apply total_try_catch; [|intros ?]
  | |- halts (bind _ _) => apply halts_bind; [|intros ?]
  | |- halts (try_catch _ _) => apply halts_try_catch; [|intros ?]
  | |- halts (lift _) => apply halts_lift
  | |- halts (ret _) => apply total_halts
  | |- halts (gets _) => apply total_halts
  | |- halts (modify _) => apply total_halts
  | |- halts (date_now _) => apply total_halts
  | |- _ (if ?b then _ else _) => destruct b
  | |- _ (match ?x with _ => _ end) => destruct x
  | |- _ (let '(_, _) := ?x in _) => destruct x
  | |- (match ?x with _ => _ end) <> OutOfFuel => destruct x
  | |- (if ?b then _ else _) <> OutOfFuel => destruct b
  | |- Ok _ <> OutOfFuel => discriminate
  | |- Throw _ <> OutOfFuel => discriminate
  | |- total (fun _ => _) => intros ?; eauto
  | |- halts (fun _ => _) => intros ?; simpl; discriminate
  end.

#[export] Hint Extern 5 (halts _) => apply total_halts : server.

Ltac structure := repeat first [ solve [auto with server] | step_structure ].

Lemma total_fetchLatestReading E : total (fetchLatestReading E).
Proof. unfold fetchLatestReading. structure. Qed.

(** C8.  [fetchLatestReading] never lets an exception out: whatever the
    network call, the status, the content type, the body, the envelope and
    the decoder give, it returns a reading or null.  It is null when the
    request is rejected (network failure or the 10-second abort), when the
    status is not OK, when the content type does not declare JSON, when the
    body does not parse, when encoded_data is missing, and when the decoder
    returns null. *)
Theorem fetchLatestReading_never_throws (E : Env.t) (s : State) :
  exists r s',
    fetchLatestReading E s = (Ok r, s') /\
    (Env.net E (netCalls s) = Rejected -> r = None) /\
    (forall resp, Env.net E (netCalls s) = Responded resp ->
       (Response.ok resp = false -> r = None) /\
       (declares_json resp = false -> r = None) /\
       (Response.json resp = None -> r = None) /\
       (forall data, Response.json resp = Some data ->
          (forall v, encoded_data_of data = Ok v -> truthy v = false ->
                     r = None) /\
          (forall v dc, encoded_data_of data = Ok v ->
                        device_code_of data = Ok dc ->
                        decodeHexData v dc = Ok None -> r = None))).
Proof.
  destruct (total_fetchLatestReading E s) as (r & s' & Hrun).
  exists r, s'. split; [exact Hrun|].
  revert Hrun.
  unfold fetchLatestReading, try_catch, bind, http_fetch, throw, lift, ret.
  destruct (Env.net E (netCalls s)) as [|resp] eqn:N.
  - intros [= <- _]. split; [reflexivity|]. intros; discriminate.
  - split; [discriminate|]. intros resp' [= <-].
    revert Hrun. unfold declares_json, encoded_data_of, device_code_of.
    destruct resp as [ok ct js].
    cbn [Response.ok Response.content_type Response.json].
    destruct ok; cbn [negb]; [|intros [= <- _]; repeat split; reflexivity].
    destruct ct as [c|]; [|intros [= <- _]; repeat split; reflexivity].
    destruct (includes "application/json" c); cbn [negb];
      [|intros [= <- _]; repeat split; reflexivity].
    destruct js as [data|]; [|intros [= <- _]; repeat split; reflexivity].
    destruct (js_get data "device_code") as [dc| |] eqn:D;
      [|intros [= <- _]; repeat split; reflexivity|discriminate].
    destruct (js_get data "reading") as [rd| |] eqn:R;
      [|intros [= <- _]; repeat split; reflexivity|discriminate].
    destruct (js_get_opt rd "encoded_data") as [enc| |] eqn:En;
      [|intros [= <- _]; repeat split; reflexivity|discriminate].
    destruct (truthy enc) eqn:T; cbn [negb];
      [|intros [= <- _]; repeat split; reflexivity].
    destruct (decodeHexData enc (js_or dc (JStr "UNKNOWN"))) as [[d|]| |] eqn:Dc;
      [|intros [= <- _]; repeat split; reflexivity
       |intros [= <- _]; repeat split; reflexivity|discriminate].
    intros _.
    split; [discriminate|]. split; [discriminate|]. split; [discriminate|].
    intros data' [= <-]. rewrite R, D. cbn [Pure.bind]. rewrite En.
    split.
    + intros v [= <-]. congruence.
    + intros v dc' [= <-] [= <-]. congruence.
Qed.

(* ===================================================================== *)
(** ** Invariants, compositionally *)
(* ===================================================================== *)

Section KeepsFacts.
Context {A B : Type} (P : State -> Prop).

Lemma keeps_ret (a : A) : keeps P (ret a).
Proof. intros s H. exact H. Qed.

Lemma keeps_gets (f : State -> A) : keeps P (gets f).
Proof. intros s H. exact H. Qed.

Lemma keeps_throw (e : Exn) : keeps P (throw e : M A).
Proof. intros s H. exact H. Qed.

Lemma keeps_lift (r : Result A) : keeps P (lift r).
Proof. intros s H. exact H. Qed.

Lemma hoare_bind (Q : State -> Prop) (m : M A) (k : A -> M B) :
  hoare Q m P -> (forall a, keeps P (k a)) -> hoare Q (bind m k) P.
Proof.
  intros Hm Hk s H. unfold bind. specialize (Hm s H).
  destruct (m s) as [[a|e|] s']; simpl in *; auto. now apply Hk.
Qed.

Lemma hoare_try_catch (Q : State -> Prop) (m : M A) (h : Exn -> M A) :
  hoare Q m P -> (forall e, keeps P (h e)) -> hoare Q (try_catch m h) P.
Proof.
  intros Hm Hh s H. unfold try_catch. specialize (Hm s H).
  destruct (m s) as [[a|e|] s']; simpl in *; auto. now apply Hh.
Qed.

Lemma keeps_bind (m : M A) (k : A -> M B) :
  keeps P m -> (forall a, keeps P (k a)) -> keeps P (bind m k).
Proof. apply hoare_bind. Qed.

Lemma keeps_try_catch (m : M A) (h : Exn -> M A) :
  keeps P m -> (forall e, keeps P (h e)) -> keeps P (try_catch m h).
Proof. apply hoare_try_catch. Qed.

End KeepsFacts.

Ltac keeps_step :=
  match goal with
  | |- keeps _ (bind _ _) => apply keeps_bind; [|intros ?]
  | |- keeps _ (try_catch _ _) => apply keeps_try_catch; [|intros ?]
  | |- keeps _ (ret _) => apply keeps_ret
  | |- keeps _ (gets _) => apply keeps_gets
  | |- keeps _ (throw _) => apply keeps_throw
  | |- keeps _ (lift _) => apply keeps_lift
  | |- keeps _ (if ?b then _ else _) => destruct b
  | |- keeps _ (match ?x with _ => _ end) => destruct x
  end.

(** A primitive, run on a symbolic state. *)
Ltac keeps_leaf :=
  let s := fresh "s" in
  let H := fresh "H" in
  intros s H;
  unfold modify, date_now, db_send, http_fetch, fresh_uuid,
         getDatabaseConnection, initializeDatabase;
  repeat match goal with
         | |- context [if ?b then _ else _] => destruct b eqn:?
         | |- context [match ?x with _ => _ end] => destruct x eqn:?
         end;
  cbn in *;
  try solve [ assumption | reflexivity | congruence
            | intuition congruence | lia ].

Ltac unfold_statements :=
  unfold db_insert_reading, db_select_latest, db_select_readings,
         db_select_range, db_count_readings, db_select_status,
         db_insert_status, db_update_status, db_select_alerts,
         db_insert_alerts, db_update_alerts,
         put_sensorReadings, put_systemStatus, put_alertSettings.

Ltac unfold_methods :=
  repeat progress unfold fetchFromExternalDatabase, read_cached, fetch_external,
         store_external, fetchLatestReading, createSensorReading,
         remember_in_memory, getSensorReadingsByTimeRange, query_readings,
         fallback_readings, in_memory_reading, getSystemStatus,
         default_status, getAlertSettings, updateAlertSettings,
         update_fallback_alerts, updateSystemStatus, update_fallback_status,
         initializeDefaults, setAvailable, get_fallback,
         put_fallback_systemStatus, put_fallback_alertSettings,
         put_fallback_sensorReadings.

(** For predicates on fields that the statements do not touch. *)
Ltac keeps_frame :=
  unfold_methods; unfold_statements;
  repeat keeps_step; try keeps_leaf.

Section Frames.
Variable E : Env.t.

(** **** Totality of the orchestrator's methods *)

Lemma total_getDatabaseConnection : total (getDatabaseConnection E).
Proof.
  intros s. unfold getDatabaseConnection, initializeDatabase.
  repeat match goal with
         | |- context [if ?b then _ else _] => destruct b
         | |- context [match ?x with _ => _ end] => destruct x
         end; eauto.
Qed.
Hint Resolve total_getDatabaseConnection total_fetchLatestReading : server.

Ltac total_methods :=
  unfold_methods; unfold_statements; unfold fresh_uuid, modify;
  structure.

Lemma total_updateSystemStatus u : total (updateSystemStatus E u).
Proof. total_methods. Qed.

Lemma total_store_external db av v : total (store_external E db av v).
Proof. total_methods. Qed.

Lemma total_fetch_external db av now : total (fetch_external E db av now).
Proof. total_methods. Qed.

Lemma total_fetchFromExternalDatabase : total (fetchFromExternalDatabase E).
Proof. total_methods. Qed.

Lemma total_createSensorReading v : total (createSensorReading E v).
Proof. total_methods. Qed.

Lemma total_getSystemStatus : total (getSystemStatus E).
Proof. total_methods. Qed.

Lemma total_getAlertSettings : total (getAlertSettings E).
Proof. total_methods. Qed.

Lemma total_updateAlertSettings v : total (updateAlertSettings E v).
Proof. total_methods. Qed.

Lemma total_getSensorReadingsByTimeRange a b :
  total (getSensorReadingsByTimeRange E a b).
Proof. total_methods. Qed.

Lemma total_fallback_readings limit : total (fallback_readings E limit).
Proof. total_methods. Qed.

Lemma halts_query_readings limit : halts (query_readings E limit).
Proof. total_methods. Qed.

(** **** Running a sequence step by step *)

Lemma bind_ok {A B} (m : M A) (k : A -> M B) s a s1 :
  m s = (Ok a, s1) -> bind m k s = k a s1.
Proof. intros H. unfold bind. now rewrite H. Qed.

Lemma bind_throw {A B} (m : M A) (k : A -> M B) s e s1 :
  m s = (Throw e, s1) -> bind m k s = (Throw e, s1).
Proof. intros H. unfold bind. now rewrite H. Qed.

Lemma bind_modify {B} f (k : unit -> M B) s :
  bind (modify f) k s = k tt (f s).
Proof. reflexivity. Qed.

Lemma bind_gets {A B} (f : State -> A) (k : A -> M B) s :
  bind (gets f) k s = k (f s) s.
Proof. reflexivity. Qed.

Lemma bind_ret {A B} (a : A) (k : A -> M B) s : bind (ret a) k s = k a s.
Proof. reflexivity. Qed.

Lemma bind_date_now {B} (k : Z -> M B) s :
  bind (date_now E) k s = k (Env.clock E (ticks s)) (next_tick s).
Proof. reflexivity. Qed.

Lemma try_ok {A} (m : M A) h s a s1 :
  m s = (Ok a, s1) -> try_catch m h s = (Ok a, s1).
Proof. intros H. unfold try_catch. now rewrite H. Qed.

Lemma try_throw {A} (m : M A) h s e s1 :
  m s = (Throw e, s1) -> try_catch m h s = h e s1.
Proof. intros H. unfold try_catch. now rewrite H. Qed.

Lemma db_send_ok op s :
  Env.db_fails E (dbOps s) op = false -> db_send E op s = (Ok tt, next_dbOp s).
Proof. intros H. unfold db_send. now rewrite H. Qed.

Lemma db_send_fails op s :
  Env.db_fails E (dbOps s) op = true ->
  db_send E op s = (Throw DbError, next_dbOp s).
Proof. intros H. unfold db_send. now rewrite H. Qed.

(** **** The gateway *)

Lemma getDatabaseConnection_run s :
  exists db av s',
    getDatabaseConnection E s = (Ok (db, av), s') /\
    av && db = gateway_available E s /\
    gateway_available E s' = gateway_available E s /\
    same_but_gateway s s'.
Proof.
  unfold getDatabaseConnection, initializeDatabase, gateway_available,
    url_configured, same_but_gateway.
  destruct (_db s) eqn:D.
  - exists true, (_databaseAvailable s), s. rewrite D, andb_true_r. tauto.
  - destruct (Env.DATABASE_URL E) as [url|]; cbn [negb andb].
    + destruct (String.eqb url EmptyString); cbn [negb andb].
      * exists false, false, (set_gateway false false s). cbn. tauto.
      * destruct (Env.pool_init_throws E); cbn [negb andb].
        -- exists false, false, (set_gateway false false s). cbn. tauto.
        -- exists true, true, (set_gateway true true s). cbn. tauto.
    + exists false, false, (set_gateway false false s). cbn. tauto.
Qed.

Lemma getDatabaseConnection_connected s :
  gateway_connected s -> getDatabaseConnection E s = (Ok (true, true), s).
Proof.
  intros (D & A). unfold getDatabaseConnection, initializeDatabase.
  now rewrite D, A.
Qed.

(** **** Calls to the external service *)

Lemma hoare_netCalls_fetchLatestReading n :
  hoare (fun s => netCalls s = n) (fetchLatestReading E)
        (fun s => netCalls s = S n).
Proof.
  unfold fetchLatestReading.
  apply hoare_try_catch; [|intros ?; keeps_frame].
  apply hoare_bind; [|intros ?; keeps_frame].
  intros s <-. unfold http_fetch. now destruct (Env.net E (netCalls s)).
Qed.

Lemma netCalls_fetch_external db av now s :
  netCalls (snd (fetch_external E db av now s)) = S (netCalls s).
Proof.
  enough (H : hoare (fun s' => netCalls s' = netCalls s)
                    (fetch_external E db av now)
                    (fun s' => netCalls s' = S (netCalls s)))
    by now apply H.
  unfold fetch_external.
  apply hoare_try_catch; [|intros ?; keeps_frame].
  apply hoare_bind; [apply hoare_netCalls_fetchLatestReading|].
  intros ?; keeps_frame.
Qed.

Lemma head_newest_nil (rows : list SensorReading.t) :
  head (take 1 (merge_sort newest_first rows)) = None <-> rows = [].
Proof.
  pose proof (merge_sort_Permutation newest_first rows) as HP.
  destruct (merge_sort newest_first rows) as [|x l] eqn:Hm.
  - apply Permutation_nil_l in HP. subst. tauto.
  - split; [discriminate|]. intros ->.
    apply Permutation_nil_r in HP. discriminate.
Qed.

(** What the first block of [fetchFromExternalDatabase] does. *)
Lemma read_cached_run db av now s :
  read_cached E db av now s =
    if av && db && (now - lastExternalFetchTime s <? cacheTimeout) then
      if Env.db_fails E (dbOps s) SelectLatest
      then (Ok None, set_databaseAvailable false (next_dbOp s))
      else (Ok (head (take 1 (merge_sort newest_first
                                 (Tables.sensorReadings (tables s))))),
            next_dbOp s)
    else (Ok None, s).
Proof.
  unfold read_cached, bind at 1, gets.
  destruct (av && db && (now - lastExternalFetchTime s <? cacheTimeout));
    [|reflexivity].
  unfold try_catch, db_select_latest, bind, db_send, gets, ret, setAvailable,
    modify.
  now destruct (Env.db_fails E (dbOps s) SelectLatest).
Qed.

(** The priming step calls the external service once, unless it answers
    from the store. *)
Lemma netCalls_fetchFromExternalDatabase s :
  netCalls (snd (fetchFromExternalDatabase E s)) =
    (netCalls s + (if served_from_cache E s then 0 else 1))%nat.
Proof.
  unfold fetchFromExternalDatabase, served_from_cache.
  rewrite (bind_ok _ _ s _ (next_tick s) eq_refl).
  destruct (getDatabaseConnection_run (next_tick s))
    as (db & av & s0 & Hc & Hav & _ & HL & HF & _ & HT & HD & HN & _).
  rewrite (bind_ok _ _ _ _ _ Hc).
  change (gateway_available E (next_tick s)) with (gateway_available E s) in Hav.
  cbn in HL, HT, HD, HN.
  unfold bind. rewrite read_cached_run, Hav, HL, HD, HT.
  destruct (gateway_available E s); cbn [andb];
    [|rewrite netCalls_fetch_external; lia].
  destruct (_ <? cacheTimeout); cbn [andb];
    [|rewrite netCalls_fetch_external; lia].
  destruct (Env.db_fails E (dbOps s) SelectLatest); cbn [andb negb].
  - rewrite netCalls_fetch_external. cbn. lia.
  - destruct (Tables.sensorReadings (tables s)) as [|x l] eqn:R.
    + cbn. rewrite netCalls_fetch_external. cbn. lia.
    + destruct (head _) eqn:Hh.
      * cbn. lia.
      * apply head_newest_nil in Hh. discriminate.
Qed.

(** What the second block does to the freshness timestamp: it is moved,
    to [now], exactly when the external service gave a reading. *)
Lemma fetch_external_run db av now s :
  exists ext s1,
    fetchLatestReading E s = (Ok ext, s1) /\
    lastExternalFetchTime s1 = lastExternalFetchTime s /\
    match ext with
    | None => fetch_external E db av now s = (Ok None, s1)
    | Some x =>
        exists row s2,
          fetch_external E db av now s = (Ok (Some row), s2) /\
          lastExternalFetchTime s2 = now
    end.
Proof.
  destruct (total_fetchLatestReading E s) as (ext & s1 & Hext).
  exists ext, s1. split; [exact Hext|]. split.
  { assert (K : keeps (fun s' => lastExternalFetchTime s' = lastExternalFetchTime s)
                      (fetchLatestReading E)) by keeps_frame.
    specialize (K s eq_refl). now rewrite Hext in K. }
  destruct ext as [x|].
  - set (k := fun _ : unit =>
           bind (store_external E db av
                   (InsertSensorReading.mk (ExternalDatabaseReading.temperature x)
                      (ExternalDatabaseReading.ph x)
                      (ExternalDatabaseReading.tdsLevel x)))
                (fun stored =>
                   match stored with
                   | Some newReading => ret (Some newReading)
                   | None =>
                       bind (date_now E) (fun t1 =>
                       bind (date_now E) (fun t2 =>
                       ret (Some (SensorReading.mk (Stamped "external" now) t1
                                    (ExternalDatabaseReading.temperature x)
                                    (ExternalDatabaseReading.ph x)
                                    (ExternalDatabaseReading.tdsLevel x) t2))))
                   end)).
    assert (Hk : exists row s2,
               k tt (set_lastExternalFetchTime now s1) = (Ok (Some row), s2) /\
               lastExternalFetchTime s2 = now).
    { unfold k.
      destruct (total_store_external db av
                  (InsertSensorReading.mk (ExternalDatabaseReading.temperature x)
                     (ExternalDatabaseReading.ph x)
                     (ExternalDatabaseReading.tdsLevel x))
                  (set_lastExternalFetchTime now s1)) as (st & s2 & Hst).
      assert (K : keeps (fun s' => lastExternalFetchTime s' = now)
                        (store_external E db av
                           (InsertSensorReading.mk (ExternalDatabaseReading.temperature x)
                             (ExternalDatabaseReading.ph x)
                             (ExternalDatabaseReading.tdsLevel x))))
        by keeps_frame.
      specialize (K _ (eq_refl : lastExternalFetchTime
                                   (set_lastExternalFetchTime now s1) = now)).
      rewrite Hst in K. cbn in K.
      rewrite (bind_ok _ _ _ _ _ Hst).
      destruct st as [row|].
      - exists row, s2. now split.
      - cbn. eexists _, _. split; [reflexivity|]. exact K. }
    destruct Hk as (row & s2 & Hk & HL).
    exists row, s2. split; [|exact HL].
    unfold fetch_external. apply try_ok.
    rewrite (bind_ok _ _ _ _ _ Hext). exact Hk.
  - unfold fetch_external. apply try_ok.
    now rewrite (bind_ok _ _ _ _ _ Hext).
Qed.

(** The priming step, as a whole: either it answers from the store, or
    it runs the second block from a state that differs from the initial
    one in the counters and, after a failed cache read, in the flag. *)
Lemma fetchFromExternalDatabase_run s :
  exists db av s0,
    av && db = gateway_available E s /\
    gateway_available E s0 = gateway_available E s /\
    lastExternalFetchTime s0 = lastExternalFetchTime s /\
    netCalls s0 = netCalls s /\
    tables s0 = tables s /\
    fallbackData s0 = fallbackData s /\
    (dbOps s <= dbOps s0)%nat /\
    (if served_from_cache E s
     then (exists row, fetchFromExternalDatabase E s = (Ok (Some row), s0)) /\
          databaseAvailable s0 = databaseAvailable s
     else fetchFromExternalDatabase E s =
            fetch_external E db av (Env.clock E (ticks s)) s0).
Proof.
  unfold fetchFromExternalDatabase, served_from_cache.
  rewrite (bind_ok _ _ s _ (next_tick s) eq_refl).
  destruct (getDatabaseConnection_run (next_tick s))
    as (db & av & s0 & Hc & Hav & Hg & HL & HF & HB & HT & HD & HN & _).
  rewrite (bind_ok _ _ _ _ _ Hc).
  change (gateway_available E (next_tick s)) with (gateway_available E s) in *.
  cbn in HL, HT, HD, HN, HF, HB.
  exists db, av.
  unfold bind. rewrite read_cached_run, Hav, HL, HD, HT.
  destruct (gateway_available E s) eqn:G; cbn [andb];
    [|exists s0; repeat split; assumption || lia].
  destruct (_ <? cacheTimeout); cbn [andb];
    [|exists s0; repeat split; assumption || lia].
  destruct (Env.db_fails E (dbOps s) SelectLatest); cbn [andb negb].
  - exists (set_databaseAvailable false (next_dbOp s0)).
    repeat split; assumption || (cbn; lia).
  - destruct (Tables.sensorReadings (tables s)) as [|x l] eqn:R.
    + exists (next_dbOp s0). repeat split; assumption || (cbn; lia).
    + destruct (head _) as [row|] eqn:Hh.
      * exists (next_dbOp s0).
        repeat split; try assumption; try (cbn; lia). now exists row.
      * apply head_newest_nil in Hh. discriminate.
Qed.

(** The freshness timestamp after the priming step. *)
Lemma last_fetchFromExternalDatabase s r s' :
  fetchFromExternalDatabase E s = (r, s') ->
  (r = Ok None /\ served_from_cache E s = false /\
   lastExternalFetchTime s' = lastExternalFetchTime s) \/
  (exists row, r = Ok (Some row) /\
     (lastExternalFetchTime s' = lastExternalFetchTime s \/
      (served_from_cache E s = false /\
       lastExternalFetchTime s' = Env.clock E (ticks s)))).
Proof.
  intros Hrun.
  destruct (fetchFromExternalDatabase_run s)
    as (db & av & s0 & _ & _ & HL & _ & _ & _ & _ & Hcase).
  destruct (served_from_cache E s).
  - destruct Hcase as ((row & Hrow) & _). rewrite Hrow in Hrun.
    injection Hrun as <- <-. right. exists row. split; [reflexivity|].
    left. exact HL.
  - rewrite Hcase in Hrun.
    destruct (fetch_external_run db av (Env.clock E (ticks s)) s0)
      as (ext & s1 & _ & HL1 & Hext).
    destruct ext as [x|].
    + destruct Hext as (row & s2 & Hrow & HL2). rewrite Hrow in Hrun.
      injection Hrun as <- <-. right. exists row. split; [reflexivity|].
      right. now split.
    + rewrite Hext in Hrun. injection Hrun as <- <-. left.
      repeat split; congruence.
Qed.

Lemma keeps_netCalls_lower_bound n fuel limit :
  keeps (fun s => (n <= netCalls s)%nat) (getSensorReadings E fuel limit).
Proof.
  induction fuel as [|fuel IH]; cbn [getSensorReadings];
    [apply keeps_lift|].
  unfold_methods; unfold_statements.
  repeat keeps_step; try exact IH; keeps_leaf.
Qed.

End Frames.

(* ===================================================================== *)
(** ** When the external service is called *)
(* ===================================================================== *)

(** C3 (as the code has it).  The priming step of a read,
    [fetchFromExternalDatabase], skips the external service exactly when
    the gateway is available, the read falls inside the 10-second
    freshness window, and the query for the newest stored row succeeds and
    finds one.  In every other case (window elapsed, gateway unavailable,
    cache query failed or empty) it calls the service exactly once.
    [getSensorReadingsByTimeRange] runs this step once and makes no other
    call; [getSensorReadings] runs it once per attempt, so it makes at
    least as many calls. *)
Theorem external_fetch_unless_served_from_cache (E : Env.t) (s : State) :
  let calls := (netCalls s + (if served_from_cache E s then 0 else 1))%nat in
  netCalls (snd (fetchFromExternalDatabase E s)) = calls /\
  (forall start end_,
      netCalls (snd (getSensorReadingsByTimeRange E start end_ s)) = calls) /\
  (forall fuel limit,
      (calls <= netCalls (snd (getSensorReadings E (S fuel) limit s)))%nat).
Proof.
  intros calls.
  pose proof (netCalls_fetchFromExternalDatabase E s) as H.
  fold calls in H.
  split; [exact H|]. split.
  - intros start end_.
    enough (K : hoare (eq s) (getSensorReadingsByTimeRange E start end_)
                      (fun s' => netCalls s' = calls)) by now apply K.
    unfold getSensorReadingsByTimeRange.
    apply hoare_bind; [now intros ? <-|].
    intros ?. keeps_frame.
  - intros fuel limit.
    enough (K : hoare (eq s) (getSensorReadings E (S fuel) limit)
                      (fun s' => (calls <= netCalls s')%nat)) by now apply K.
    cbn [getSensorReadings].
    apply hoare_bind; [intros ? <-; now rewrite H|].
    intros ?. unfold_methods; unfold_statements.
    repeat keeps_step; try apply keeps_netCalls_lower_bound; keeps_leaf.
Qed.

(** C3, counterexample.  With no store configured the gateway is
    unavailable, and the read still calls the external service; and with
    the gateway available a read 400 ms after a successful fetch, whose
    cache query fails, calls it again. *)
Lemma external_fetch_despite_gateway_or_window :
  (let s := Scenario.boot Scenario.no_store in
   gateway_available Scenario.no_store s = false /\
   netCalls (snd (getSensorReadings Scenario.no_store 1 50 s)) = S (netCalls s)) /\
  (let s := snd (getSensorReadings Scenario.flaky 1 50
                   (Scenario.boot Scenario.flaky)) in
   gateway_available Scenario.flaky s = true /\
   Env.clock Scenario.flaky (ticks s) - lastExternalFetchTime s = 400 /\
   netCalls (snd (getSensorReadings Scenario.flaky 1 50 s)) = S (netCalls s)).
Proof. vm_compute. repeat split; reflexivity. Qed.

(** C10 (as the code has it).  A null result of
    [fetchFromExternalDatabase] means that it called the external service
    and got nothing.  The freshness timestamp moves only in a step that
    called the service and got a reading, and then to that step's clock
    value; a failed fetch leaves it as it was.  Hence, when the failed
    fetch was made with the
    window elapsed or with the gateway unavailable, every later read calls
    the service again, however soon it comes.  A failed fetch made inside
    the window of an earlier success, after a failed or empty cache query,
    leaves that window in force: a later priming step that falls inside
    it, with the gateway available and a cache query that is accepted and
    finds a row, answers from the store and does not call the service. *)
Theorem failed_fetch_does_not_advance_window
    (E : Env.t) (s : State) (r : Result (option SensorReading.t)) (s' : State) :
  fetchFromExternalDatabase E s = (r, s') ->
  (lastExternalFetchTime s' <> lastExternalFetchTime s ->
     lastExternalFetchTime s' = Env.clock E (ticks s) /\
     netCalls s' = S (netCalls s) /\
     exists row, r = Ok (Some row)) /\
  (r = Ok None ->
     lastExternalFetchTime s' = lastExternalFetchTime s /\
     netCalls s' = S (netCalls s) /\
     (cacheTimeout <= Env.clock E (ticks s) - lastExternalFetchTime s \/
      gateway_available E s = false ->
      forall s2,
        lastExternalFetchTime s2 = lastExternalFetchTime s' ->
        gateway_available E s2 = gateway_available E s ->
        Env.clock E (ticks s) <= Env.clock E (ticks s2) ->
        netCalls (snd (fetchFromExternalDatabase E s2)) = S (netCalls s2)) /\
     (forall s2,
        lastExternalFetchTime s2 = lastExternalFetchTime s' ->
        gateway_available E s2 = true ->
        Env.clock E (ticks s2) - lastExternalFetchTime s < cacheTimeout ->
        Env.db_fails E (dbOps s2) SelectLatest = false ->
        Tables.sensorReadings (tables s2) <> [] ->
        netCalls (snd (fetchFromExternalDatabase E s2)) = netCalls s2)).
Proof.
  intros Hrun.
  pose proof (netCalls_fetchFromExternalDatabase E s) as HN.
  rewrite Hrun in HN. cbn [snd] in HN.
  destruct (last_fetchFromExternalDatabase E s r s' Hrun)
    as [(-> & Hsv & HL) | (row & -> & [HL | (Hsv & HL)])].
  - rewrite Hsv in HN. split; [congruence|]. intros _.
    split; [exact HL|]. split; [lia|]. split.
    + intros Hwhy s2 HL2 HG2 Hclock.
      rewrite netCalls_fetchFromExternalDatabase.
      replace (served_from_cache E s2) with false; [lia|].
      unfold served_from_cache. rewrite HG2, HL2, HL.
      destruct Hwhy as [Hwin | ->]; [|reflexivity].
      destruct (gateway_available E s); [|reflexivity].
      replace (_ <? cacheTimeout) with false; [reflexivity|].
      symmetry. apply Z.ltb_ge. lia.
    + intros s2 HL2 HG2 Hwin HF Hrows.
      rewrite netCalls_fetchFromExternalDatabase.
      replace (served_from_cache E s2) with true; [lia|].
      unfold served_from_cache. rewrite HG2, HL2, HL, HF.
      apply Z.ltb_lt in Hwin. rewrite Hwin.
      destruct (Tables.sensorReadings (tables s2)); [congruence|reflexivity].
  - split; [congruence | discriminate].
  - rewrite Hsv in HN. split; [|discriminate]. intros _.
    split; [exact HL|]. split; [lia|]. now exists row.
Qed.

Lemma failed_fetch_does_not_advance_window_witness :
  let E := Scenario.upstream_down "production" in
  let s := Scenario.boot E in
  let s' := snd (fetchFromExternalDatabase E s) in
  lastExternalFetchTime s' = lastExternalFetchTime s /\
  netCalls s' = S (netCalls s) /\
  netCalls (snd (fetchFromExternalDatabase E s')) = S (netCalls s').
Proof.
  intros E s s'.
  destruct (failed_fetch_does_not_advance_window E s (Ok None) s' eq_refl)
    as (_ & H).
  destruct (H eq_refl) as (HL & HN & Hnext & _).
  split; [exact HL|]. split; [exact HN|].
  apply Hnext.
  - left. vm_compute. discriminate.
  - exact HL.
  - reflexivity.
  - vm_compute. discriminate.
Defined.

(** C10, counterexample.  The first read fetches and stores a reading.
    The second read, 400 ms later, finds its cache query failing, calls the
    external service and gets nothing: the freshness timestamp stays.  The
    third read, the very next one, is still inside the window of the
    first: its priming step is answered from the store, and the read makes
    no external call. *)
Lemma failed_fetch_then_no_external_call :
  let E := Scenario.flaky in
  let s1 := snd (getSensorReadings E 1 50 (Scenario.boot E)) in
  let s2 := snd (getSensorReadings E 1 50 s1) in
  let s3 := snd (getSensorReadings E 1 50 s2) in
  fst (fetchFromExternalDatabase E s1) = Ok None /\
  netCalls s2 = S (netCalls s1) /\
  lastExternalFetchTime s2 = lastExternalFetchTime s1 /\
  Env.clock E (ticks s2) - lastExternalFetchTime s2 = 800 /\
  netCalls s3 = netCalls s2 /\
  exists row,
    Tables.sensorReadings (tables s2) = [row] /\
    fst (fetchFromExternalDatabase E s2) = Ok (Some row).
Proof.
  vm_compute.
  split; [reflexivity|]. split; [reflexivity|]. split; [reflexivity|].
  split; [reflexivity|]. split; [reflexivity|].
  eexists. split; reflexivity.
Qed.

(* ===================================================================== *)
(** ** Reads against a live store *)
(* ===================================================================== *)

#[global] Instance oldest_first_total : Total oldest_first.
Proof. intros a b. unfold oldest_first. lia. Qed.

Section LiveReads.
Variable E : Env.t.

Lemma fetch_returns s r1 s1 :
  fetchFromExternalDatabase E s = (r1, s1) -> exists a, r1 = Ok a.
Proof.
  intros H. destruct (total_fetchFromExternalDatabase E s) as (a & s' & H').
  rewrite H in H'. injection H' as -> _. now exists a.
Qed.

(** **** Statements, accepted or rejected *)

Lemma db_insert_reading_ok v s :
  Env.db_fails E (dbOps s) InsertReading = false ->
  db_insert_reading E v s = (Ok (inserted_row E v s), after_insert_reading E v s).
Proof.
  intros H. unfold db_insert_reading, bind, db_send, fresh_uuid, date_now,
    gets, put_sensorReadings, modify, ret.
  now rewrite H.
Qed.

Lemma db_insert_reading_fails v s :
  Env.db_fails E (dbOps s) InsertReading = true ->
  db_insert_reading E v s = (Throw DbError, next_dbOp s).
Proof.
  intros H. unfold db_insert_reading, bind, db_send. now rewrite H.
Qed.

Lemma sql_limit_nil {A} limit : sql_limit limit (@nil A) = [].
Proof. unfold sql_limit. destruct (limit <? 0); [reflexivity|apply take_nil]. Qed.

Lemma sql_limit_nonneg {A} limit (rows : list A) :
  0 <= limit -> sql_limit limit rows = take (Z.to_nat limit) rows.
Proof.
  intros H. unfold sql_limit.
  destruct (limit <? 0) eqn:L; [apply Z.ltb_lt in L; lia|reflexivity].
Qed.

Lemma db_select_readings_ok limit s :
  Env.db_fails E (dbOps s) SelectReadings = false ->
  db_select_readings E limit s =
    (Ok (sql_limit limit
           (merge_sort newest_first (Tables.sensorReadings (tables s)))),
     next_dbOp s).
Proof.
  intros H. unfold db_select_readings, bind, db_send, gets, ret.
  now rewrite H.
Qed.

Lemma db_select_range_ok a b s :
  Env.db_fails E (dbOps s) SelectRange = false ->
  db_select_range E a b s =
    (Ok (merge_sort oldest_first
           (List.filter (in_range a b) (Tables.sensorReadings (tables s)))),
     next_dbOp s).
Proof.
  intros H. unfold db_select_range, bind, db_send, gets, ret.
  now rewrite H.
Qed.

Lemma db_count_readings_ok s :
  Env.db_fails E (dbOps s) CountReadings = false ->
  db_count_readings E s =
    (Ok (Z.of_nat (length (Tables.sensorReadings (tables s)))), next_dbOp s).
Proof.
  intros H. unfold db_count_readings, bind, db_send, gets, ret.
  now rewrite H.
Qed.

Lemma db_select_status_ok s :
  Env.db_fails E (dbOps s) SelectStatus = false ->
  db_select_status E s = (Ok (head (Tables.systemStatus (tables s))), next_dbOp s).
Proof.
  intros H. unfold db_select_status, bind, db_send, gets, ret.
  now rewrite H.
Qed.

Lemma db_select_status_fails s :
  Env.db_fails E (dbOps s) SelectStatus = true ->
  db_select_status E s = (Throw DbError, next_dbOp s).
Proof.
  intros H. unfold db_select_status, bind, db_send. now rewrite H.
Qed.

(** The [try] block of [getSensorReadings] on an empty store, in a
    development environment. *)
Lemma query_readings_empty_dev limit s :
  gateway_connected s ->
  Tables.sensorReadings (tables s) = [] ->
  Env.db_fails E (dbOps s) SelectReadings = false ->
  Env.db_fails E (S (dbOps s)) InsertReading = false ->
  is_development E = true ->
  exists seed s',
    query_readings E limit s = (Ok [seed], s') /\
    Tables.sensorReadings (tables s') = [seed] /\
    is_sample seed /\
    fallbackData s' = fallbackData s /\
    databaseAvailable s' = true.
Proof.
  intros G HT HS HI HD. unfold query_readings.
  rewrite (bind_ok _ _ _ _ _ (getDatabaseConnection_connected E s G)).
  cbn [negb orb].
  rewrite (bind_ok _ _ _ _ _ (db_select_readings_ok limit s HS)).
  rewrite HT. cbn [merge_sort merge_sort_aux merge_stack].
  rewrite sql_limit_nil.
  unfold setAvailable. rewrite bind_modify, HD.
  erewrite bind_ok by (apply db_insert_reading_ok; exact HI).
  eexists _, _. split; [reflexivity|]. cbn. rewrite HT.
  repeat split; reflexivity.
Qed.

(** The same, outside development. *)
Lemma query_readings_empty_prod limit s :
  gateway_connected s ->
  Tables.sensorReadings (tables s) = [] ->
  Env.db_fails E (dbOps s) SelectReadings = false ->
  is_development E = false ->
  exists synth s',
    query_readings E limit s = (Ok [synth], s') /\
    tables s' = tables s /\
    dbOps s' = S (dbOps s) /\
    is_sample synth /\
    FallbackData.sensorReadings (fallbackData s') = [synth] /\
    databaseAvailable s' = true.
Proof.
  intros G HT HS HD. unfold query_readings.
  rewrite (bind_ok _ _ _ _ _ (getDatabaseConnection_connected E s G)).
  cbn [negb orb].
  rewrite (bind_ok _ _ _ _ _ (db_select_readings_ok limit s HS)).
  rewrite HT. cbn [merge_sort merge_sort_aux merge_stack].
  rewrite sql_limit_nil.
  unfold setAvailable. rewrite bind_modify, HD.
  unfold in_memory_reading, put_fallback_sensorReadings, bind, date_now,
    modify, ret. cbn.
  eexists _, _. split; [reflexivity|]. cbn. repeat split; reflexivity.
Qed.

End LiveReads.

(** C4.  A [getSensorReadings] call that reaches its query in the LIVE
    state (flag set, gateway connected, after the priming step) and finds
    the store empty, the statements it sends being accepted:
    in development it inserts exactly one seed reading (25.5 / 6.8 / 450)
    and returns that row, the store then holding this one row;
    otherwise it returns exactly one reading made up in memory, with the
    same values, and sends no insert: the tables are unchanged and the
    query was the only statement. *)
Theorem empty_store_seed_policy
    (E : Env.t) (fuel : nat) (limit : Z) (s s1 : State)
    (r1 : Result (option SensorReading.t)) :
  fetchFromExternalDatabase E s = (r1, s1) ->
  databaseAvailable s1 = true ->
  gateway_connected s1 ->
  Tables.sensorReadings (tables s1) = [] ->
  Env.db_fails E (dbOps s1) SelectReadings = false ->
  (is_development E = true ->
   Env.db_fails E (S (dbOps s1)) InsertReading = false ->
   exists seed s2,
     getSensorReadings E (S fuel) limit s = (Ok [seed], s2) /\
     Tables.sensorReadings (tables s2) = [seed] /\
     is_sample seed /\
     fallbackData s2 = fallbackData s1) /\
  (is_development E = false ->
   exists synth s2,
     getSensorReadings E (S fuel) limit s = (Ok [synth], s2) /\
     tables s2 = tables s1 /\
     dbOps s2 = S (dbOps s1) /\
     is_sample synth /\
     FallbackData.sensorReadings (fallbackData s2) = [synth]).
Proof.
  intros Hrun HA G HT HS.
  destruct (fetch_returns E s r1 s1 Hrun) as (a & ->).
  assert (Hunfold :
            getSensorReadings E (S fuel) limit s =
              try_catch (query_readings E limit)
                (fun _ => bind (setAvailable false)
                            (fun _ => getSensorReadings E fuel limit)) s1).
  { cbn [getSensorReadings].
    rewrite (bind_ok _ _ _ _ _ Hrun).
    rewrite bind_gets. now rewrite HA. }
  split.
  - intros HD HI.
    destruct (query_readings_empty_dev E limit s1 G HT HS HI HD)
      as (seed & s2 & Hq & Hrows & Hval & Hfb & _).
    exists seed, s2. rewrite Hunfold.
    rewrite (try_ok _ _ _ _ _ Hq). auto.
  - intros HD.
    destruct (query_readings_empty_prod E limit s1 G HT HS HD)
      as (synth & s2 & Hq & Htb & Hops & Hval & Hfb & _).
    exists synth, s2. rewrite Hunfold.
    rewrite (try_ok _ _ _ _ _ Hq). auto.
Qed.


Lemma empty_store_seed_policy_witness :
  (let E := Scenario.upstream_down "development" in
   exists seed s2,
     getSensorReadings E 1 50 (Scenario.boot E) = (Ok [seed], s2) /\
     Tables.sensorReadings (tables s2) = [seed] /\
     is_sample seed) /\
  (let E := Scenario.upstream_down "production" in
   exists synth s2,
     getSensorReadings E 1 50 (Scenario.boot E) = (Ok [synth], s2) /\
     Tables.sensorReadings (tables s2) = [] /\
     is_sample synth).
Proof.
  split; intros E;
    pose (s1 := snd (fetchFromExternalDatabase E (Scenario.boot E)));
    assert (Hrun : fetchFromExternalDatabase E (Scenario.boot E) = (Ok None, s1))
      by (vm_compute; reflexivity);
    assert (HA : databaseAvailable s1 = true) by (vm_compute; reflexivity);
    assert (HG : gateway_connected s1) by (vm_compute; split; reflexivity);
    assert (HT : Tables.sensorReadings (tables s1) = [])
      by (vm_compute; reflexivity);
    assert (HS : Env.db_fails E (dbOps s1) SelectReadings = false)
      by (vm_compute; reflexivity);
    destruct (empty_store_seed_policy E 0 50 (Scenario.boot E) s1 (Ok None)
                Hrun HA HG HT HS) as (Hdev & Hprod).
  - destruct (Hdev ltac:(vm_compute; reflexivity) ltac:(vm_compute; reflexivity))
      as (seed & s2 & H1 & H2 & H3 & _).
    exists seed, s2. split; [exact H1|]. split; [exact H2|exact H3].
  - destruct (Hprod ltac:(vm_compute; reflexivity))
      as (synth & s2 & H1 & H2 & _ & H3 & _).
    exists synth, s2. split; [exact H1|]. split; [|exact H3].
    rewrite H2. exact HT.
Defined.

(** C9.  When the gateway is connected and the range query is accepted,
    [getSensorReadingsByTimeRange] returns exactly the persisted readings
    (as the store holds them once the priming step is over) whose
    timestamp lies in the closed interval from start to end, in ascending
    timestamp order; when start is after end the result is empty.  The
    method decides on the gateway's availability, not on the
    orchestrator's flag, so this holds in the LIVE state in particular. *)
Theorem time_range_query_inclusive_sorted
    (E : Env.t) (start end_ : Z) (s s1 : State)
    (r1 : Result (option SensorReading.t)) :
  fetchFromExternalDatabase E s = (r1, s1) ->
  gateway_connected s1 ->
  Env.db_fails E (dbOps s1) SelectRange = false ->
  exists rows,
    getSensorReadingsByTimeRange E start end_ s = (Ok rows, next_dbOp s1) /\
    rows ≡ₚ List.filter (in_range start end_) (Tables.sensorReadings (tables s1)) /\
    (forall x, x ∈ rows <->
               x ∈ Tables.sensorReadings (tables s1) /\
               start <= SensorReading.timestamp x <= end_) /\
    Sorted oldest_first rows /\
    (end_ < start -> rows = []).
Proof.
  intros Hrun G HS.
  destruct (fetch_returns E s r1 s1 Hrun) as (a & ->).
  set (hits := List.filter (in_range start end_)
                 (Tables.sensorReadings (tables s1))).
  exists (merge_sort oldest_first hits).
  assert (Hperm : merge_sort oldest_first hits ≡ₚ hits)
    by apply merge_sort_Permutation.
  assert (Hin : forall x, x ∈ hits <->
                  x ∈ Tables.sensorReadings (tables s1) /\
                  start <= SensorReading.timestamp x <= end_).
  { intros x. unfold hits. rewrite !list_elem_of_In, filter_In.
    unfold in_range. rewrite andb_true_iff, !Z.leb_le. tauto. }
  split; [|split; [exact Hperm|split; [|split]]].
  - unfold getSensorReadingsByTimeRange.
    rewrite (bind_ok _ _ _ _ _ Hrun).
    rewrite (bind_ok _ _ _ _ _ (getDatabaseConnection_connected E s1 G)).
    cbn [negb orb].
    apply try_ok. now apply db_select_range_ok.
  - intros x. rewrite Hperm. apply Hin.
  - apply Sorted_merge_sort. typeclasses eauto.
  - intros Hlt.
    assert (hits = []) as ->; [|reflexivity].
    destruct hits as [|x l]; [reflexivity|].
    assert (Hx : x ∈ x :: l) by (left).
    apply Hin in Hx. lia.
Qed.


Lemma time_range_query_inclusive_sorted_witness :
  let E := Scenario.healthy "production" in
  let s1 := snd (fetchFromExternalDatabase E (Scenario.boot E)) in
  exists rows,
    getSensorReadingsByTimeRange E 1700000000000 1700000001000
      (Scenario.boot E) = (Ok rows, next_dbOp s1) /\
    Sorted oldest_first rows /\
    (forall x, x ∈ rows <->
               x ∈ Tables.sensorReadings (tables s1) /\
               1700000000000 <= SensorReading.timestamp x <= 1700000001000).
Proof.
  intros E s1.
  pose (r1 := fst (fetchFromExternalDatabase E (Scenario.boot E))).
  assert (Hrun : fetchFromExternalDatabase E (Scenario.boot E) = (r1, s1))
    by (vm_compute; reflexivity).
  assert (HG : gateway_connected s1) by (vm_compute; split; reflexivity).
  assert (HS : Env.db_fails E (dbOps s1) SelectRange = false)
    by (vm_compute; reflexivity).
  destruct (time_range_query_inclusive_sorted E 1700000000000 1700000001000
              (Scenario.boot E) s1 r1 Hrun HG HS)
    as (rows & H1 & _ & H2 & H3 & _).
  exists rows. 
  split; [exact H1|]. 
  split; [exact H3|exact H2].
Defined.

(* ===================================================================== *)
(** ** The recount of dataPoints *)
(* ===================================================================== *)

Section Recount.
Variable E : Env.t.

Lemma ident_eqb_refl i : ident_eqb i i = true.
Proof.
  destruct i; simpl.
  - apply Nat.eqb_refl.
  - now rewrite String.eqb_refl, Z.eqb_refl.
  - apply String.eqb_refl.
Qed.

Lemma getDatabaseConnection_available s :
  gateway_available E s = true ->
  exists s0,
    getDatabaseConnection E s = (Ok (true, true), s0) /\
    gateway_connected s0 /\
    same_but_gateway s s0.
Proof.
  unfold getDatabaseConnection, initializeDatabase, gateway_available,
    url_configured, gateway_connected, same_but_gateway.
  destruct (_db s) eqn:D.
  - intros A. exists s. rewrite A. tauto.
  - destruct (Env.DATABASE_URL E) as [url|]; [|discriminate].
    destruct (String.eqb url EmptyString); [discriminate|].
    destruct (Env.pool_init_throws E); [discriminate|].
    intros _. exists (set_gateway true true s). cbn. tauto.
Qed.

(** [updateSystemStatus({ dataPoints: cnt })] on an available gateway whose
    statements are accepted: the first status row then carries [cnt],
    whatever it carried before, and the readings are untouched. *)
Lemma updateSystemStatus_recount cnt s :
  gateway_available E s = true ->
  recount_accepted E (dbOps s) ->
  let s' := snd (updateSystemStatus E (PartialSystemStatus.only_dataPoints cnt) s) in
  Tables.sensorReadings (tables s') = Tables.sensorReadings (tables s) /\
  exists st,
    head (Tables.systemStatus (tables s')) = Some st /\
    SystemStatus.dataPoints st = cnt.
Proof.
  intros G R.
  destruct (getDatabaseConnection_available s G)
    as (s0 & Hc & _ & _ & _ & _ & HT & HD & _).
  destruct (R (dbOps s0) ltac:(lia)) as (_ & HS & _).
  destruct (R (S (dbOps s0)) ltac:(lia)) as (_ & _ & HI & HU).
  unfold updateSystemStatus.
  rewrite (bind_ok _ _ _ _ _ Hc). cbn [negb orb].
  rewrite <- HT.
  unfold try_catch.
  rewrite (bind_ok _ _ _ _ _ (db_select_status_ok E s0 HS)).
  destruct (Tables.systemStatus (tables s0)) as [|cur rest] eqn:Rows; cbn [head].
  - unfold db_insert_status, bind, db_send, fresh_uuid, date_now, gets,
      put_systemStatus, modify, ret.
    cbn. rewrite HI. cbn. rewrite Rows. cbn. eauto.
  - unfold db_update_status, bind, db_send, date_now, gets,
      put_systemStatus, modify, ret.
    cbn. rewrite HU. cbn. rewrite Rows. cbn.
    rewrite ident_eqb_refl. cbn. eauto.
Qed.

Lemma recount_accepted_mono k k' :
  (k <= k')%nat -> recount_accepted E k -> recount_accepted E k'.
Proof. intros L R j Hj. apply R. lia. Qed.

Lemma keeps_tables_remember tb v :
  keeps (fun s => tables s = tb)
        (bind (setAvailable false) (fun _ => remember_in_memory E v)).
Proof. keeps_frame. Qed.

(** The write path. *)
Lemma createSensorReading_recount v s :
  recount_accepted E (dbOps s) ->
  let s' := snd (createSensorReading E v s) in
  Tables.sensorReadings (tables s') <> Tables.sensorReadings (tables s) ->
  dataPoints_in_sync (tables s').
Proof.
  intros R s'. unfold s'. clear s'. unfold createSensorReading.
  destruct (gateway_available E s) eqn:G.
  - destruct (getDatabaseConnection_available s G)
      as (s0 & Hc & G0 & _ & _ & _ & HT & HD & _).
    rewrite (bind_ok _ _ _ _ _ Hc). cbn [negb orb]. rewrite <- HT.
    destruct (Env.db_fails E (dbOps s0) InsertReading) eqn:I.
    + rewrite (try_throw _ _ _ _ _
                 (bind_throw _ _ _ _ _ (db_insert_reading_fails E v s0 I))).
      pose proof (keeps_tables_remember (tables s0) v (next_dbOp s0) eq_refl) as K.
      intros Hchg. now rewrite K in Hchg.
    + intros _.
      set (s1 := after_insert_reading E v s0).
      assert (R1 : recount_accepted E (dbOps s1))
        by (apply (recount_accepted_mono (dbOps s)); [unfold s1; cbn; lia | exact R]).
      destruct (R1 (dbOps s1) ltac:(lia)) as (HC & _).
      assert (G2 : gateway_available E (next_dbOp s1) = true).
      { destruct G0 as (D & A). unfold gateway_available. cbn. now rewrite D, A. }
      pose proof (updateSystemStatus_recount
                    (Z.of_nat (length (Tables.sensorReadings (tables s1))))
                    (next_dbOp s1) G2
                    (recount_accepted_mono (dbOps s1) (dbOps (next_dbOp s1))
                                           ltac:(cbn; lia) R1)) as (HR & st & Hst & Hdp).
      destruct (total_updateSystemStatus E
                  (PartialSystemStatus.only_dataPoints
                     (Z.of_nat (length (Tables.sensorReadings (tables s1)))))
                  (next_dbOp s1)) as (u & s3 & Hu).
      rewrite Hu in HR, Hst. cbn [snd] in HR, Hst.
      erewrite try_ok.
      2:{ rewrite (bind_ok _ _ _ _ _ (db_insert_reading_ok E v s0 I)).
          rewrite (bind_ok _ _ _ _ _ (db_count_readings_ok E s1 HC)).
          rewrite (bind_ok _ _ _ _ _ Hu). reflexivity. }
      cbn [snd]. exists st. split; [exact Hst|]. now rewrite Hdp, HR.
  - destruct (getDatabaseConnection_run E s)
      as (db & av & s0 & Hc & Hav & _ & _ & _ & _ & HT & _).
    rewrite (bind_ok _ _ _ _ _ Hc). rewrite G in Hav.
    replace (negb av || negb db) with true
      by (destruct av, db; try reflexivity; discriminate).
    assert (K : keeps (fun s => tables s = tables s0) (remember_in_memory E v))
      by keeps_frame.
    specialize (K s0 eq_refl). cbn beta in K. rewrite K, HT. congruence.
Qed.

(** The block of the fetch-and-persist path that stores the reading. *)
Lemma store_external_recount db av v s :
  av && db = gateway_available E s ->
  recount_accepted E (dbOps s) ->
  let s' := snd (store_external E db av v s) in
  Tables.sensorReadings (tables s') <> Tables.sensorReadings (tables s) ->
  dataPoints_in_sync (tables s').
Proof.
  intros Hav R s'. unfold s'. clear s'. unfold store_external.
  destruct (av && db); [|cbn; congruence].
  symmetry in Hav.
  destruct (Env.db_fails E (dbOps s) InsertReading) eqn:I.
  - rewrite (try_throw _ _ _ _ _
               (bind_throw _ _ _ _ _ (db_insert_reading_fails E v s I))).
    cbn. congruence.
  - intros _.
    set (s1 := set_databaseAvailable true (after_insert_reading E v s)).
    assert (R1 : recount_accepted E (dbOps s1))
      by (apply (recount_accepted_mono (dbOps s)); [unfold s1; cbn; lia | exact R]).
    destruct (R1 (dbOps s1) ltac:(lia)) as (HC & _).
    assert (G2 : gateway_available E (next_dbOp s1) = true) by exact Hav.
    pose proof (updateSystemStatus_recount
                  (Z.of_nat (length (Tables.sensorReadings (tables s1))))
                  (next_dbOp s1) G2
                  (recount_accepted_mono (dbOps s1) (dbOps (next_dbOp s1))
                                         ltac:(cbn; lia) R1))
      as (HR & st & Hst & Hdp).
    destruct (total_updateSystemStatus E
                (PartialSystemStatus.only_dataPoints
                   (Z.of_nat (length (Tables.sensorReadings (tables s1)))))
                (next_dbOp s1)) as (u & s3 & Hu).
    rewrite Hu in HR, Hst. cbn [snd] in HR, Hst.
    erewrite try_ok.
    2:{ rewrite (bind_ok _ _ _ _ _ (db_insert_reading_ok E v s I)).
        unfold setAvailable. rewrite bind_modify. fold s1.
        rewrite (bind_ok _ _ _ _ _ (db_count_readings_ok E s1 HC)).
        rewrite (bind_ok _ _ _ _ _ Hu). reflexivity. }
    cbn [snd]. exists st. split; [exact Hst|]. now rewrite Hdp, HR.
Qed.

Lemma fetchLatestReading_frame s :
  let s1 := snd (fetchLatestReading E s) in
  tables s1 = tables s /\ dbOps s1 = dbOps s /\
  gateway_available E s1 = gateway_available E s.
Proof.
  assert (K1 : keeps (fun st => tables st = tables s) (fetchLatestReading E))
    by keeps_frame.
  assert (K2 : keeps (fun st => dbOps st = dbOps s) (fetchLatestReading E))
    by keeps_frame.
  assert (K3 : keeps (fun st => _db st = _db s /\
                              _databaseAvailable st = _databaseAvailable s)
                     (fetchLatestReading E))
    by keeps_frame.
  specialize (K1 s eq_refl). specialize (K2 s eq_refl).
  destruct (K3 s (conj eq_refl eq_refl)) as (D & A).
  cbn beta in *. repeat split; try assumption.
  unfold gateway_available. now rewrite D, A.
Qed.

(** The second block of the priming step. *)
Lemma fetch_external_recount db av now s :
  av && db = gateway_available E s ->
  recount_accepted E (dbOps s) ->
  let s' := snd (fetch_external E db av now s) in
  Tables.sensorReadings (tables s') <> Tables.sensorReadings (tables s) ->
  dataPoints_in_sync (tables s').
Proof.
  intros Hav R s'. unfold s'. clear s'.
  destruct (total_fetchLatestReading E s) as (ext & s1 & Hext).
  destruct (fetchLatestReading_frame s) as (HT & HD & HG).
  rewrite Hext in HT, HD, HG. cbn [snd] in HT, HD, HG.
  unfold fetch_external.
  destruct ext as [x|].
  - set (v := InsertSensorReading.mk (ExternalDatabaseReading.temperature x)
                (ExternalDatabaseReading.ph x)
                (ExternalDatabaseReading.tdsLevel x)).
    set (s2 := set_lastExternalFetchTime now s1).
    pose proof (store_external_recount db av v s2) as HS.
    destruct (total_store_external E db av v s2) as (stored & s3 & Hst).
    rewrite Hst in HS. cbn [snd] in HS.
    assert (Hfinal : exists r s4,
               try_catch
                 (bind (fetchLatestReading E)
                    (fun externalData =>
                       match externalData with
                       | None => ret None
                       | Some x0 =>
                           bind (modify (set_lastExternalFetchTime now))
                             (fun _ =>
                                bind (store_external E db av
                                        (InsertSensorReading.mk
                                           (ExternalDatabaseReading.temperature x0)
                                           (ExternalDatabaseReading.ph x0)
                                           (ExternalDatabaseReading.tdsLevel x0)))
                                  (fun stored0 =>
                                     match stored0 with
                                     | Some newReading => ret (Some newReading)
                                     | None =>
                                         bind (date_now E) (fun t1 =>
                                         bind (date_now E) (fun t2 =>
                                         ret (Some (SensorReading.mk
                                                      (Stamped "external" now) t1
                                                      (ExternalDatabaseReading.temperature x0)
                                                      (ExternalDatabaseReading.ph x0)
                                                      (ExternalDatabaseReading.tdsLevel x0)
                                                      t2))))
                                     end))
                       end))
                 (fun _ => ret None) s = (r, s4) /\ tables s4 = tables s3).
    { destruct stored as [row|]; eexists _, _; (split;
        [ apply try_ok; rewrite (bind_ok _ _ _ _ _ Hext);
          rewrite bind_modify; fold v s2;
          rewrite (bind_ok _ _ _ _ _ Hst); reflexivity
        | reflexivity ]). }
    destruct Hfinal as (r & s4 & -> & HT4). cbn [snd]. rewrite HT4.
    intros Hchg. apply HS.
    + rewrite Hav. unfold s2. cbn. symmetry. exact HG.
    + unfold s2. cbn. rewrite HD. exact R.
    + unfold s2. cbn. now rewrite HT.
  - erewrite try_ok by (rewrite (bind_ok _ _ _ _ _ Hext); reflexivity).
    cbn [snd]. now rewrite HT.
Qed.

(** The fetch-and-persist path. *)
Lemma fetchFromExternalDatabase_recount s :
  recount_accepted E (dbOps s) ->
  let s' := snd (fetchFromExternalDatabase E s) in
  Tables.sensorReadings (tables s') <> Tables.sensorReadings (tables s) ->
  dataPoints_in_sync (tables s').
Proof.
  intros R s'. unfold s'. clear s'.
  destruct (fetchFromExternalDatabase_run E s)
    as (db & av & s0 & Hav & HG & _ & _ & HT & _ & HD & Hcase).
  destruct (served_from_cache E s).
  - destruct Hcase as ((row & ->) & _). cbn [snd]. now rewrite HT.
  - rewrite Hcase. rewrite <- HT.
    apply fetch_external_recount.
    + now rewrite HG.
    + apply (recount_accepted_mono (dbOps s)); assumption.
Qed.

End Recount.

(** C5 (as the code has it).  Whenever a reading has been inserted by
    [createSensorReading] or by the fetch-and-persist path of
    [fetchFromExternalDatabase], and the count query and the statements on
    the status row that follow are accepted, the persisted status row
    carries dataPoints equal to the number of persisted readings.  The
    value written is the result of the count query: it does not depend on
    what dataPoints was before. *)
Theorem dataPoints_recounted_after_insert (E : Env.t) (s : State) :
  recount_accepted E (dbOps s) ->
  (forall v,
      let s' := snd (createSensorReading E v s) in
      Tables.sensorReadings (tables s') <> Tables.sensorReadings (tables s) ->
      dataPoints_in_sync (tables s')) /\
  (let s' := snd (fetchFromExternalDatabase E s) in
   Tables.sensorReadings (tables s') <> Tables.sensorReadings (tables s) ->
   dataPoints_in_sync (tables s')).
Proof.
  intros R. split.
  - intros v. now apply createSensorReading_recount.
  - now apply fetchFromExternalDatabase_recount.
Qed.

Lemma dataPoints_recounted_after_insert_witness :
  let E := Scenario.healthy "production" in
  let s := Scenario.stale_count in
  (exists st, head (Tables.systemStatus (tables s)) = Some st /\
              SystemStatus.dataPoints st = 41) /\
  Tables.sensorReadings (tables s) = [] /\
  dataPoints_in_sync (tables (snd (createSensorReading E sample_values s))) /\
  dataPoints_in_sync (tables (snd (fetchFromExternalDatabase E s))).
Proof.
  intros E s.
  assert (R : recount_accepted E (dbOps s))
    by (intros j _; repeat split; reflexivity).
  destruct (dataPoints_recounted_after_insert E s R) as (Hc & Hf).
  split; [vm_compute; eexists; split; reflexivity|].
  split; [vm_compute; reflexivity|].
  split.
  - apply Hc. vm_compute. discriminate.
  - apply Hf. vm_compute. discriminate.
Defined.

(** C5, counterexample.  An insert is not always followed by a recount
    that lands.  When the store accepts the insert of [createSensorReading]
    and rejects the count query that follows, one reading is stored and
    dataPoints is still 0.  And the insert of the sample reading that
    [getSensorReadings] makes on an empty store in development is followed
    by no count at all: one reading is stored, dataPoints is still 0. *)
Lemma dataPoints_stale_after_accepted_insert :
  (let E := count_rejected in
   let s' := snd (createSensorReading E sample_values (Scenario.boot E)) in
   length (Tables.sensorReadings (tables s')) = 1%nat /\
   (exists st, head (Tables.systemStatus (tables s')) = Some st /\
               SystemStatus.dataPoints st = 0) /\
   ~ dataPoints_in_sync (tables s')) /\
  (let E := Scenario.upstream_down "development" in
   let out := getSensorReadings E 1 50 (Scenario.boot E) in
   (exists seed, fst out = Ok [seed] /\
                 Tables.sensorReadings (tables (snd out)) = [seed]) /\
   (exists st, head (Tables.systemStatus (tables (snd out))) = Some st /\
               SystemStatus.dataPoints st = 0) /\
   ~ dataPoints_in_sync (tables (snd out))).
Proof.
  split.
  - intros E s'.
    split; [vm_compute; reflexivity|].
    split; [vm_compute; eexists; split; reflexivity|].
    intros (st & H1 & H2). vm_compute in H1. injection H1 as <-.
    vm_compute in H2. discriminate.
  - intros E out.
    split; [vm_compute; eexists; split; reflexivity|].
    split; [vm_compute; eexists; split; reflexivity|].
    intros (st & H1 & H2). vm_compute in H1. injection H1 as <-.
    vm_compute in H2. discriminate.
Qed.

(* ===================================================================== *)
(** ** The availability flag *)
(* ===================================================================== *)

Section Flag.
Variable E : Env.t.

(** No path of [createSensorReading] sets the flag: once DEGRADED, it stays
    DEGRADED through the call, whatever the store answers.  The same holds
    of the two update methods. *)
Lemma createSensorReading_keeps_degraded v :
  keeps (fun s => databaseAvailable s = false) (createSensorReading E v).
Proof. keeps_frame. Qed.

Lemma updateSystemStatus_keeps_degraded u :
  keeps (fun s => databaseAvailable s = false) (updateSystemStatus E u).
Proof. keeps_frame. Qed.

Lemma updateAlertSettings_keeps_degraded v :
  keeps (fun s => databaseAvailable s = false) (updateAlertSettings E v).
Proof. keeps_frame. Qed.

(** A rejected statement leaves the flag DEGRADED: the status and settings
    queries. *)
Lemma getSystemStatus_failure_degrades s :
  gateway_connected s ->
  Env.db_fails E (dbOps s) SelectStatus = true ->
  databaseAvailable (snd (getSystemStatus E s)) = false.
Proof.
  intros G F. unfold getSystemStatus.
  rewrite (bind_ok _ _ _ _ _ (getDatabaseConnection_connected E s G)).
  cbn [negb orb].
  rewrite (try_throw _ _ _ _ _
             (bind_throw _ _ _ _ _ (db_select_status_fails E s F))).
  reflexivity.
Qed.

(** An accepted status query sets it LIVE. *)
Lemma getSystemStatus_success_restores s :
  gateway_connected s ->
  Env.db_fails E (dbOps s) SelectStatus = false ->
  databaseAvailable (snd (getSystemStatus E s)) = true.
Proof.
  intros G F. unfold getSystemStatus.
  rewrite (bind_ok _ _ _ _ _ (getDatabaseConnection_connected E s G)).
  cbn [negb orb]. unfold try_catch.
  rewrite (bind_ok _ _ _ _ _ (db_select_status_ok E s F)).
  unfold setAvailable. rewrite bind_modify.
  destruct (head _); reflexivity.
Qed.

(** Every [catch] block of the orchestrator has the same shape: clear the
    flag, then serve from memory. *)
Lemma catch_degrades {A} (m rest : M A) s e s1 :
  m s = (Throw e, s1) ->
  keeps (fun s => databaseAvailable s = false) rest ->
  databaseAvailable
    (snd (try_catch m (fun _ => bind (setAvailable false) (fun _ => rest)) s))
  = false.
Proof.
  intros Hm K. rewrite (try_throw _ _ _ _ _ Hm).
  unfold setAvailable. rewrite bind_modify. now apply K.
Qed.

Lemma db_select_alerts_fails s :
  Env.db_fails E (dbOps s) SelectAlerts = true ->
  db_select_alerts E s = (Throw DbError, next_dbOp s).
Proof.
  intros H. unfold db_select_alerts, bind, db_send. now rewrite H.
Qed.

Lemma db_select_range_fails a b s :
  Env.db_fails E (dbOps s) SelectRange = true ->
  db_select_range E a b s = (Throw DbError, next_dbOp s).
Proof.
  intros H. unfold db_select_range, bind, db_send. now rewrite H.
Qed.

(** A rejected statement leaves the orchestrator DEGRADED, in every
    method. *)
Lemma createSensorReading_failure_degrades v s :
  gateway_connected s ->
  Env.db_fails E (dbOps s) InsertReading = true ->
  databaseAvailable (snd (createSensorReading E v s)) = false.
Proof.
  intros G F. unfold createSensorReading.
  rewrite (bind_ok _ _ _ _ _ (getDatabaseConnection_connected E s G)).
  cbn [negb orb].
  eapply catch_degrades.
  - apply bind_throw. now apply db_insert_reading_fails.
  - keeps_frame.
Qed.

Lemma updateSystemStatus_failure_degrades u s :
  gateway_connected s ->
  Env.db_fails E (dbOps s) SelectStatus = true ->
  databaseAvailable (snd (updateSystemStatus E u s)) = false.
Proof.
  intros G F. unfold updateSystemStatus.
  rewrite (bind_ok _ _ _ _ _ (getDatabaseConnection_connected E s G)).
  cbn [negb orb].
  eapply catch_degrades.
  - apply bind_throw. now apply db_select_status_fails.
  - keeps_frame.
Qed.

Lemma getAlertSettings_failure_degrades s :
  gateway_connected s ->
  Env.db_fails E (dbOps s) SelectAlerts = true ->
  databaseAvailable (snd (getAlertSettings E s)) = false.
Proof.
  intros G F. unfold getAlertSettings.
  rewrite (bind_ok _ _ _ _ _ (getDatabaseConnection_connected E s G)).
  cbn [negb orb].
  eapply catch_degrades.
  - apply bind_throw. now apply db_select_alerts_fails.
  - keeps_frame.
Qed.

Lemma updateAlertSettings_failure_degrades v s :
  gateway_connected s ->
  Env.db_fails E (dbOps s) SelectAlerts = true ->
  databaseAvailable (snd (updateAlertSettings E v s)) = false.
Proof.
  intros G F. unfold updateAlertSettings.
  rewrite (bind_ok _ _ _ _ _ (getDatabaseConnection_connected E s G)).
  cbn [negb orb].
  eapply catch_degrades.
  - apply bind_throw. now apply db_select_alerts_fails.
  - keeps_frame.
Qed.

Lemma getSensorReadingsByTimeRange_failure_degrades a b s r1 s1 :
  fetchFromExternalDatabase E s = (r1, s1) ->
  gateway_connected s1 ->
  Env.db_fails E (dbOps s1) SelectRange = true ->
  databaseAvailable (snd (getSensorReadingsByTimeRange E a b s)) = false.
Proof.
  intros Hrun G F.
  destruct (fetch_returns E s r1 s1 Hrun) as (x & ->).
  unfold getSensorReadingsByTimeRange.
  rewrite (bind_ok _ _ _ _ _ Hrun).
  rewrite (bind_ok _ _ _ _ _ (getDatabaseConnection_connected E s1 G)).
  cbn [negb orb].
  eapply catch_degrades.
  - now apply db_select_range_fails.
  - keeps_frame.
Qed.

End Flag.

(** C1, the code at the failing input.  The store rejects one status query,
    which leaves the orchestrator DEGRADED, and accepts everything after.
    [createSensorReading] then inserts its row and recounts dataPoints,
    all statements succeeding, and the flag is still DEGRADED; the insert
    of the fetch-and-persist path, from the same state, sets it LIVE.
    In general no path of [createSensorReading] sets the flag. *)
Theorem createSensorReading_success_stays_degraded :
  (let E := Scenario.hiccup in
   let s := snd (getSystemStatus E (Scenario.boot E)) in
   let out := createSensorReading E sample_values s in
   databaseAvailable s = false /\
   (exists row, fst out = Ok row /\
                Tables.sensorReadings (tables (snd out)) = [row]) /\
   dataPoints_in_sync (tables (snd out)) /\
   databaseAvailable (snd out) = false /\
   databaseAvailable (snd (fetchFromExternalDatabase E s)) = true) /\
  (forall E v s,
      databaseAvailable s = false ->
      databaseAvailable (snd (createSensorReading E v s)) = false).
Proof.
  split.
  - vm_compute. split; [reflexivity|].
    split; [eexists; split; reflexivity|].
    split; [eexists; split; reflexivity|].
    split; reflexivity.
  - intros E v s. apply createSensorReading_keeps_degraded.
Qed.

(* ===================================================================== *)
(** ** The retry of [getSensorReadings] *)
(* ===================================================================== *)

Section Retry.

Lemma updateSystemStatus_recount_flag E cnt s :
  gateway_connected s ->
  recount_accepted E (dbOps s) ->
  let s' := snd (updateSystemStatus E (PartialSystemStatus.only_dataPoints cnt) s) in
  databaseAvailable s' = databaseAvailable s /\ gateway_connected s'.
Proof.
  intros G R.
  destruct (R (dbOps s) ltac:(lia)) as (_ & HS & _).
  destruct (R (S (dbOps s)) ltac:(lia)) as (_ & _ & HI & HU).
  unfold updateSystemStatus.
  rewrite (bind_ok _ _ _ _ _ (getDatabaseConnection_connected E s G)).
  cbn [negb orb]. unfold try_catch.
  rewrite (bind_ok _ _ _ _ _ (db_select_status_ok E s HS)).
  destruct (Tables.systemStatus (tables s)) as [|cur rest] eqn:Rows; cbn [head].
  - unfold db_insert_status, bind, db_send, fresh_uuid, date_now, gets,
      put_systemStatus, modify, ret.
    cbn. rewrite HI. cbn. split; [reflexivity|exact G].
  - unfold db_update_status, bind, db_send, date_now, gets,
      put_systemStatus, modify, ret.
    cbn. rewrite HU. cbn. split; [reflexivity|exact G].
Qed.


Lemma reads_rejected_recount k : recount_accepted Scenario.reads_rejected k.
Proof. intros j _. repeat split; reflexivity. Qed.

Lemma reads_rejected_fetch s :
  exists x, fetchLatestReading Scenario.reads_rejected s = (Ok (Some x), next_tick (next_netCall s)).
Proof.
  unfold fetchLatestReading, try_catch, bind, http_fetch. cbn.
  eexists. reflexivity.
Qed.

Lemma reads_rejected_fetch_external now s :
  gateway_connected s ->
  exists row s1,
    fetch_external Scenario.reads_rejected true true now s = (Ok (Some row), s1) /\
    databaseAvailable s1 = true /\
    gateway_connected s1.
Proof.
  intros G.
  destruct (reads_rejected_fetch s) as (x & Hx).
  set (v := InsertSensorReading.mk (ExternalDatabaseReading.temperature x)
              (ExternalDatabaseReading.ph x) (ExternalDatabaseReading.tdsLevel x)).
  set (s1 := set_lastExternalFetchTime now (next_tick (next_netCall s))).
  set (s2 := set_databaseAvailable true (after_insert_reading Scenario.reads_rejected v s1)).
  set (cnt := Z.of_nat (length (Tables.sensorReadings (tables s2)))).
  assert (G2 : gateway_connected (next_dbOp s2)) by exact G.
  destruct (updateSystemStatus_recount_flag Scenario.reads_rejected cnt (next_dbOp s2) G2
              (reads_rejected_recount _)) as (HA & HG).
  destruct (total_updateSystemStatus Scenario.reads_rejected (PartialSystemStatus.only_dataPoints cnt)
              (next_dbOp s2)) as (u & s3 & Hu).
  rewrite Hu in HA, HG. cbn [snd] in HA, HG.
  assert (Hst : store_external Scenario.reads_rejected true true v s1 =
                  (Ok (Some (inserted_row Scenario.reads_rejected v s1)), s3)).
  { unfold store_external. cbn [andb]. apply try_ok.
    rewrite (bind_ok _ _ _ _ _ (db_insert_reading_ok Scenario.reads_rejected v s1 eq_refl)).
    unfold setAvailable. rewrite bind_modify. fold s2.
    rewrite (bind_ok _ _ _ _ _ (db_count_readings_ok Scenario.reads_rejected s2 eq_refl)). fold cnt.
    rewrite (bind_ok _ _ _ _ _ Hu). reflexivity. }
  exists (inserted_row Scenario.reads_rejected v s1), s3. split; [|split; [exact HA|exact HG]].
  unfold fetch_external. apply try_ok.
  rewrite (bind_ok _ _ _ _ _ Hx), bind_modify. fold v s1.
  rewrite (bind_ok _ _ _ _ _ Hst). reflexivity.
Qed.

Lemma reads_rejected_priming s :
  gateway_connected s ->
  exists row s1,
    fetchFromExternalDatabase Scenario.reads_rejected s = (Ok (Some row), s1) /\
    databaseAvailable s1 = true /\
    gateway_connected s1.
Proof.
  intros G. unfold fetchFromExternalDatabase.
  rewrite bind_date_now.
  rewrite (bind_ok _ _ _ _ _ (getDatabaseConnection_connected Scenario.reads_rejected (next_tick s) G)).
  unfold bind at 1. rewrite read_cached_run. cbn [andb].
  change (Env.db_fails Scenario.reads_rejected (dbOps (next_tick s)) SelectLatest) with true.
  destruct (_ <? cacheTimeout); cbn iota; now apply reads_rejected_fetch_external.
Qed.

(** When the store accepts inserts and rejects the queries on the
    readings, each attempt of [getSensorReadings] stores the fetched
    reading (which sets the flag LIVE), has its query rejected, and runs
    the method again: no amount of fuel lets the call return. *)
Lemma retry_outlasts_any_fuel fuel limit : forall s,
  gateway_connected s ->
  fst (getSensorReadings Scenario.reads_rejected fuel limit s) = OutOfFuel.
Proof.
  induction fuel as [|fuel IH]; intros s G; [reflexivity|].
  destruct (reads_rejected_priming s G) as (row & s1 & Hrun & HA & G1).
  cbn [getSensorReadings].
  rewrite (bind_ok _ _ _ _ _ Hrun), bind_gets, HA. cbn [negb].
  erewrite try_throw.
  2:{ unfold query_readings.
      rewrite (bind_ok _ _ _ _ _ (getDatabaseConnection_connected Scenario.reads_rejected s1 G1)).
      cbn [negb orb]. apply bind_throw.
      unfold db_select_readings. apply bind_throw. now apply db_send_fails. }
  unfold setAvailable. rewrite bind_modify. apply IH. exact G1.
Qed.

End Retry.

(* ===================================================================== *)
(** ** Degraded reads and the reported connection status *)
(* ===================================================================== *)

Section Degraded.
Variable E : Env.t.

(** The fallback branch of [getSensorReadings]: no statement, no request;
    an empty fallback list is seeded with one sample first. *)
Lemma fallback_readings_run limit s :
  exists s2,
    fallback_readings E limit s =
      (Ok (slice0 (FallbackData.sensorReadings (fallbackData s2)) limit), s2) /\
    FallbackData.sensorReadings (fallbackData s2) <> [] /\
    tables s2 = tables s /\ dbOps s2 = dbOps s /\ netCalls s2 = netCalls s /\
    databaseAvailable s2 = databaseAvailable s /\
    match FallbackData.sensorReadings (fallbackData s) with
    | [] => exists sample,
              FallbackData.sensorReadings (fallbackData s2) = [sample] /\
              is_sample sample
    | _ :: _ => s2 = s
    end.
Proof.
  unfold fallback_readings, get_fallback. rewrite bind_gets.
  destruct (FallbackData.sensorReadings (fallbackData s)) as [|x l] eqn:F.
  - unfold in_memory_reading, put_fallback_sensorReadings, bind, date_now,
      modify, gets, ret. cbn.
    match goal with |- exists _, (_, ?st) = _ /\ _ => exists st end.
    cbn. split; [reflexivity|].
    repeat split; try reflexivity; try discriminate.
    eexists. split; [reflexivity|]. repeat split; reflexivity.
  - rewrite bind_ret, bind_gets. exists s. rewrite F.
    repeat split; try reflexivity. discriminate.
Qed.

(** The priming step does not touch the in-memory list of readings. *)
Lemma fetchFromExternalDatabase_keeps_fallback_readings l :
  keeps (fun s => FallbackData.sensorReadings (fallbackData s) = l)
        (fetchFromExternalDatabase E).
Proof. keeps_frame. Qed.

Lemma assign_status_connectionStatus st u t :
  PartialSystemStatus.connectionStatus u = None ->
  SystemStatus.connectionStatus (assign_status st u t) =
    SystemStatus.connectionStatus st.
Proof. intros H. unfold assign_status. cbn. now rewrite H. Qed.

Lemma keeps_connected_insert_status u :
  PartialSystemStatus.connectionStatus u = None ->
  keeps status_connected (db_insert_status E u).
Proof.
  intros Hu s (HF & HR). unfold status_connected.
  unfold db_insert_status, bind, db_send, fresh_uuid, date_now, gets,
    put_systemStatus, modify, ret.
  destruct (Env.db_fails E (dbOps s) InsertStatus); cbn; [now split|].
  split; [exact HF|].
  apply Forall_app. split; [exact HR|].
  constructor; [|constructor]. cbn. now rewrite Hu.
Qed.

Lemma keeps_connected_update_status key u t :
  PartialSystemStatus.connectionStatus u = None ->
  keeps status_connected (db_update_status E key u t).
Proof.
  intros Hu s (HF & HR). unfold status_connected.
  unfold db_update_status, bind, db_send, gets, put_systemStatus, modify, ret.
  destruct (Env.db_fails E (dbOps s) UpdateStatus); cbn -[assign_status];
    [now split|].
  split; [exact HF|].
  induction HR as [|st rows Hst _ IH]; cbn -[assign_status]; constructor;
    [|exact IH].
  destruct (ident_eqb _ _); [|exact Hst].
  now rewrite assign_status_connectionStatus.
Qed.

Lemma keeps_connected_update_fallback u :
  PartialSystemStatus.connectionStatus u = None ->
  keeps status_connected (update_fallback_status E u).
Proof.
  intros Hu s (HF & HR). unfold status_connected.
  unfold update_fallback_status, get_fallback, put_fallback_systemStatus,
    bind, date_now, gets, modify, ret. cbn -[assign_status].
  split; [|exact HR]. now rewrite assign_status_connectionStatus.
Qed.

Ltac keeps_connected_leaf :=
  first [ apply keeps_connected_insert_status; reflexivity
        | apply keeps_connected_update_status; reflexivity
        | apply keeps_connected_update_fallback; reflexivity
        | unfold status_connected; keeps_leaf ].

Ltac keeps_connected :=
  repeat progress
    unfold fetchFromExternalDatabase, read_cached, fetch_external,
      store_external, fetchLatestReading, createSensorReading,
      remember_in_memory, getSensorReadingsByTimeRange, query_readings,
      fallback_readings, in_memory_reading, getSystemStatus, default_status,
      getAlertSettings, updateAlertSettings, update_fallback_alerts,
      updateSystemStatus, initializeDefaults, setAvailable, get_fallback,
      put_fallback_alertSettings, put_fallback_sensorReadings;
  unfold db_insert_reading, db_select_latest, db_select_readings,
    db_select_range, db_count_readings, db_select_status, db_select_alerts,
    db_insert_alerts, db_update_alerts, put_sensorReadings, put_alertSettings;
  repeat keeps_step; try keeps_connected_leaf.

Lemma keeps_connected_updateSystemStatus u :
  PartialSystemStatus.connectionStatus u = None ->
  keeps status_connected (updateSystemStatus E u).
Proof.
  intros Hu. unfold updateSystemStatus.
  repeat keeps_step;
    first [ now apply keeps_connected_insert_status
          | now apply keeps_connected_update_status
          | now apply keeps_connected_update_fallback
          | unfold status_connected, setAvailable, db_select_status;
            repeat keeps_step; keeps_leaf ].
Qed.

Lemma keeps_connected_fetchFromExternalDatabase :
  keeps status_connected (fetchFromExternalDatabase E).
Proof. keeps_connected. Qed.

Lemma keeps_connected_createSensorReading v :
  keeps status_connected (createSensorReading E v).
Proof. keeps_connected. Qed.

Lemma keeps_connected_getSystemStatus :
  keeps status_connected (getSystemStatus E).
Proof. keeps_connected. Qed.

Lemma keeps_connected_getAlertSettings :
  keeps status_connected (getAlertSettings E).
Proof. keeps_connected. Qed.

Lemma keeps_connected_updateAlertSettings v :
  keeps status_connected (updateAlertSettings E v).
Proof. keeps_connected. Qed.

Lemma keeps_connected_getSensorReadingsByTimeRange a b :
  keeps status_connected (getSensorReadingsByTimeRange E a b).
Proof. keeps_connected. Qed.

Lemma keeps_connected_initializeDefaults :
  keeps status_connected (initializeDefaults E).
Proof. keeps_connected. Qed.

Lemma keeps_connected_getSensorReadings fuel limit :
  keeps status_connected (getSensorReadings E fuel limit).
Proof.
  induction fuel as [|fuel IH]; cbn [getSensorReadings];
    [apply keeps_lift|].
  apply keeps_bind; [apply keeps_connected_fetchFromExternalDatabase|intros ?].
  apply keeps_bind; [apply keeps_gets|intros flag].
  destruct (negb flag); [keeps_connected|].
  apply keeps_try_catch; [keeps_connected|intros ?].
  apply keeps_bind; [keeps_connected|intros ?]. exact IH.
Qed.

(** [getSystemStatus] hands out the persisted row, a default, or the
    fallback object; it never looks at the flag. *)
Lemma getSystemStatus_reports_connected s :
  status_connected s ->
  exists st s',
    getSystemStatus E s = (Ok st, s') /\
    SystemStatus.connectionStatus st = connected.
Proof.
  intros (HF & HR).
  destruct (getDatabaseConnection_run E s)
    as (db & av & s0 & Hc & _ & _ & _ & _ & HB & HT & _).
  unfold getSystemStatus. rewrite (bind_ok _ _ _ _ _ Hc).
  destruct (negb av || negb db).
  - eexists _, _. split; [reflexivity|]. cbn. now rewrite HB.
  - destruct (Env.db_fails E (dbOps s0) SelectStatus) eqn:F.
    + rewrite (try_throw _ _ _ _ _
                 (bind_throw _ _ _ _ _ (db_select_status_fails E s0 F))).
      eexists _, _. split; [reflexivity|]. cbn. now rewrite HB.
    + unfold try_catch.
      rewrite (bind_ok _ _ _ _ _ (db_select_status_ok E s0 F)).
      unfold setAvailable. rewrite bind_modify.
      rewrite HT.
      destruct (Tables.systemStatus (tables s)) as [|st rows]; cbn [head].
      * eexists _, _. split; [reflexivity|]. reflexivity.
      * eexists _, _. split; [reflexivity|]. now inversion HR.
Qed.

End Degraded.

(** C2 (as the code has it).
    (1) A [getSensorReadings] call whose priming step leaves the flag
        DEGRADED returns within that call, without a store query, a
        further request or a retry (one unit of fuel suffices): the
        result is the in-memory fallback list cut at [limit]; that list
        is the one the orchestrator held before the call or, if it held
        none, one sample reading (25.5 / 6.8 / 450) made up by the
        call.
    (2) [getSystemStatus] does not derive connectionStatus from the flag:
        it hands out the persisted row, a default, or the fallback object,
        and no write of the orchestrator changes a connectionStatus.  So
        as long as callers pass none to [updateSystemStatus], every
        status it reports says 'connected', in LIVE and DEGRADED alike. *)
Theorem degraded_read_serves_fallback_status_stays_connected (E : Env.t) :
  (forall fuel limit s r1 s1,
      fetchFromExternalDatabase E s = (r1, s1) ->
      databaseAvailable s1 = false ->
      exists rows s2,
        getSensorReadings E (S fuel) limit s = (Ok rows, s2) /\
        rows = slice0 (FallbackData.sensorReadings (fallbackData s2)) limit /\
        FallbackData.sensorReadings (fallbackData s2) <> [] /\
        match FallbackData.sensorReadings (fallbackData s) with
        | [] => exists sample,
                  FallbackData.sensorReadings (fallbackData s2) = [sample] /\
                  is_sample sample
        | _ :: _ => FallbackData.sensorReadings (fallbackData s2) =
                    FallbackData.sensorReadings (fallbackData s)
        end /\
        tables s2 = tables s1 /\ dbOps s2 = dbOps s1 /\
        netCalls s2 = netCalls s1 /\ databaseAvailable s2 = false) /\
  (forall s, status_connected s ->
      exists st s',
        getSystemStatus E s = (Ok st, s') /\
        SystemStatus.connectionStatus st = connected /\
        status_connected s') /\
  (forall fuel limit, keeps status_connected (getSensorReadings E fuel limit)) /\
  (forall start end_,
      keeps status_connected (getSensorReadingsByTimeRange E start end_)) /\
  (forall v, keeps status_connected (createSensorReading E v)) /\
  (forall u, PartialSystemStatus.connectionStatus u = None ->
             keeps status_connected (updateSystemStatus E u)) /\
  keeps status_connected (getAlertSettings E) /\
  (forall v, keeps status_connected (updateAlertSettings E v)) /\
  keeps status_connected (initializeDefaults E).
Proof.
  split; [|split; [|split; [|split; [|split; [|split; [|split; [|split]]]]]]].
  - intros fuel limit s r1 s1 Hrun HA.
    destruct (fetch_returns E s r1 s1 Hrun) as (a & ->).
    destruct (fallback_readings_run E limit s1)
      as (s2 & Hfb & Hne & HT & HD & HN & HA2 & Hm).
    pose proof (fetchFromExternalDatabase_keeps_fallback_readings E _ s eq_refl)
      as Hkeep.
    cbn beta in Hkeep. rewrite Hrun in Hkeep. cbn [snd] in Hkeep.
    rewrite Hkeep in Hm.
    exists (slice0 (FallbackData.sensorReadings (fallbackData s2)) limit), s2.
    split.
    { cbn [getSensorReadings].
      rewrite (bind_ok _ _ _ _ _ Hrun), bind_gets, HA. exact Hfb. }
    split; [reflexivity|]. split; [exact Hne|].
    split; [|repeat split; congruence].
    destruct (FallbackData.sensorReadings (fallbackData s)) eqn:Hl;
      [exact Hm|].
    subst s2. exact Hkeep.
  - intros s H.
    destruct (getSystemStatus_reports_connected E s H) as (st & s' & Hrun & Hst).
    exists st, s'. split; [exact Hrun|]. split; [exact Hst|].
    pose proof (keeps_connected_getSystemStatus E s H) as K.
    now rewrite Hrun in K.
  - apply keeps_connected_getSensorReadings.
  - apply keeps_connected_getSensorReadingsByTimeRange.
  - apply keeps_connected_createSensorReading.
  - apply keeps_connected_updateSystemStatus.
  - apply keeps_connected_getAlertSettings.
  - apply keeps_connected_updateAlertSettings.
  - apply keeps_connected_initializeDefaults.
Qed.

Lemma degraded_read_serves_fallback_status_stays_connected_witness :
  let E := Scenario.outage in
  let s := snd (getSystemStatus E (Scenario.boot E)) in
  (exists rows s2,
      getSensorReadings E 1 50 s = (Ok rows, s2) /\
      rows = slice0 (FallbackData.sensorReadings (fallbackData s2)) 50 /\
      databaseAvailable s2 = false) /\
  (exists st s',
      getSystemStatus E s = (Ok st, s') /\
      SystemStatus.connectionStatus st = connected).
Proof.
  intros E s.
  destruct (degraded_read_serves_fallback_status_stays_connected E)
    as (Hread & Hstatus & _).
  pose (s1 := snd (fetchFromExternalDatabase E s)).
  assert (Hrun : fetchFromExternalDatabase E s = (Ok None, s1))
    by (vm_compute; reflexivity).
  assert (HA : databaseAvailable s1 = false) by (vm_compute; reflexivity).
  destruct (Hread 0%nat 50 s (Ok None) s1 Hrun HA)
    as (rows & s2 & H1 & H2 & _ & _ & _ & _ & _ & H3).
  assert (HC : status_connected s)
    by (vm_compute; split; [reflexivity | repeat constructor]).
  destruct (Hstatus s HC) as (st & s' & H4 & H5 & _).
  split.
  - exists rows, s2. split; [exact H1|]. split; [exact H2|exact H3].
  - exists st, s'. split; [exact H4|exact H5].
Defined.

(** C2, counterexample.  The store goes down after start-up and a status
    query is rejected: the orchestrator is DEGRADED.  The next read is
    served from the fallback set.  The status read after it still says
    'connected', neither 'error' nor 'disconnected'.
    And when the store recovers, the next read after a rejected status
    query stores the fetched reading and answers from the store, not from
    the fallback set (which is still empty). *)
Lemma degraded_status_still_reports_connected :
  (let E := Scenario.outage in
   let s1 := snd (getSystemStatus E (Scenario.boot E)) in
   let read := getSensorReadings E 1 50 s1 in
   let status := fst (getSystemStatus E (snd read)) in
   databaseAvailable s1 = false /\
   (exists sample,
       fst read = Ok [sample] /\
       FallbackData.sensorReadings (fallbackData (snd read)) = [sample]) /\
   databaseAvailable (snd read) = false /\
   exists st,
     status = Ok st /\
     SystemStatus.connectionStatus st = connected /\
     SystemStatus.connectionStatus st <> error /\
     SystemStatus.connectionStatus st <> disconnected) /\
  (let E := Scenario.hiccup in
   let s1 := snd (getSystemStatus E (Scenario.boot E)) in
   let read := getSensorReadings E 1 50 s1 in
   databaseAvailable s1 = false /\
   exists row,
     fst read = Ok [row] /\
     Tables.sensorReadings (tables (snd read)) = [row] /\
     FallbackData.sensorReadings (fallbackData (snd read)) = []).
Proof.
  split.
  - vm_compute. split; [reflexivity|].
    split; [eexists; split; reflexivity|].
    split; [reflexivity|].
    eexists. split; [reflexivity|]. repeat split; discriminate.
  - vm_compute. split; [reflexivity|].
    eexists. repeat split; reflexivity.
Qed.

(* ===================================================================== *)
(** ** Hex decoder: the other families, and what the decoder ignores *)
(* ===================================================================== *)

Section DecoderLayouts.

Lemma starts_with_two a b d :
  starts_with (String a (String b EmptyString)) d = true ->
  exists r, d = String a (String b r).
Proof.
  destruct d as [|a' [|b' r]]; cbn [starts_with]; try discriminate.
  - rewrite andb_false_r. discriminate.
  - rewrite andb_true_r. intros H. apply andb_true_iff in H as (Ha & Hb).
    apply Ascii.eqb_eq in Ha, Hb. subst. now exists r.
Qed.

End DecoderLayouts.

(** X1.  Cabai family: for a payload of hexadecimal digits, at least
    sixteen characters long, and a device code that starts with [CZ], the
    decoder returns exactly ph, moisture, ec and temperature, read from the
    chunks at offsets 0, 4, 8 and 12 and divided by 100, 10, 100 and 10. *)
Theorem decodeHexData_CZ (h d : string) :
  all_hex h = true ->
  (16 <= String.length h)%nat ->
  starts_with "CZ" d = true ->
  decodeHexData (JStr h) (JStr d) =
    Ok (Some {| Decoded.ph := Some (Fin (hex_value (substr h 0 4) # 100));
                Decoded.moisture := Some (Fin (hex_value (substr h 4 4) # 10));
                Decoded.ec := Some (Fin (hex_value (substr h 8 4) # 100));
                Decoded.temperature := Some (Fin (hex_value (substr h 12 4) # 10));
                Decoded.humidity := None;
                Decoded.light := None;
                Decoded.tdsLevel := None |}).
Proof.
  intros H L P.
  destruct (starts_with_two _ _ _ P) as (r & ->).
  destruct (chunk_hex h 0 H ltac:(lia)) as (E0 & _).
  destruct (chunk_hex h 4 H ltac:(lia)) as (E1 & _).
  destruct (chunk_hex h 8 H ltac:(lia)) as (E2 & _).
  destruct (chunk_hex h 12 H ltac:(lia)) as (E3 & _).
  unfold decodeHexData, decodeHexData_try, js_startsWith.
  cbn [starts_with Ascii.eqb Bool.eqb andb Pure.bind].
  rewrite E0, E1, E2, E3. reflexivity.
Qed.

Lemma decodeHexData_CZ_witness :
  decodeHexData (JStr "02BC01F4006400F0") (JStr "CZ7") =
    Ok (Some {| Decoded.ph := Some (Fin (700 # 100));
                Decoded.moisture := Some (Fin (500 # 10));
                Decoded.ec := Some (Fin (100 # 100));
                Decoded.temperature := Some (Fin (240 # 10));
                Decoded.humidity := None;
                Decoded.light := None;
                Decoded.tdsLevel := None |}).
Proof.
  exact (decodeHexData_CZ "02BC01F4006400F0" "CZ7"
           eq_refl ltac:(simpl; lia) eq_refl).
Defined.

(** X2.  Melon and Selada families: for a payload of hexadecimal digits, at
    least twelve characters long, and a device code that starts with [MZ]
    or [SZ], the decoder returns exactly ph, ec and temperature, read from
    the chunks at offsets 0, 4 and 8 and divided by 100, 100 and 10. *)
Theorem decodeHexData_MZ_SZ (h d : string) :
  all_hex h = true ->
  (12 <= String.length h)%nat ->
  starts_with "MZ" d = true \/ starts_with "SZ" d = true ->
  decodeHexData (JStr h) (JStr d) =
    Ok (Some {| Decoded.ph := Some (Fin (hex_value (substr h 0 4) # 100));
                Decoded.moisture := None;
                Decoded.ec := Some (Fin (hex_value (substr h 4 4) # 100));
                Decoded.temperature := Some (Fin (hex_value (substr h 8 4) # 10));
                Decoded.humidity := None;
                Decoded.light := None;
                Decoded.tdsLevel := None |}).
Proof.
  intros H L P.
  destruct (chunk_hex h 0 H ltac:(lia)) as (E0 & _).
  destruct (chunk_hex h 4 H ltac:(lia)) as (E1 & _).
  destruct (chunk_hex h 8 H ltac:(lia)) as (E2 & _).
  destruct P as [P|P]; destruct (starts_with_two _ _ _ P) as (r & ->);
    unfold decodeHexData, decodeHexData_try, js_startsWith;
    cbn [starts_with Ascii.eqb Bool.eqb andb Pure.bind];
    rewrite E0, E1, E2; reflexivity.
Qed.

Lemma decodeHexData_MZ_SZ_witness :
  decodeHexData (JStr "02BC006400F0") (JStr "SZ2") =
    Ok (Some {| Decoded.ph := Some (Fin (700 # 100));
                Decoded.moisture := None;
                Decoded.ec := Some (Fin (100 # 100));
                Decoded.temperature := Some (Fin (240 # 10));
                Decoded.humidity := None;
                Decoded.light := None;
                Decoded.tdsLevel := None |}).
Proof.
  exact (decodeHexData_MZ_SZ "02BC006400F0" "SZ2"
           eq_refl ltac:(simpl; lia) (or_intror eq_refl)).
Defined.

(** X3.  Greenhouse family: for a payload of hexadecimal digits, at least
    twelve characters long, and a device code that starts with [GZ], the
    decoder returns exactly temperature, humidity and light, read from the
    chunks at offsets 0, 4 and 8; temperature and humidity are divided by
    10, light is the chunk's integer itself. *)
Theorem decodeHexData_GZ (h d : string) :
  all_hex h = true ->
  (12 <= String.length h)%nat ->
  starts_with "GZ" d = true ->
  decodeHexData (JStr h) (JStr d) =
    Ok (Some {| Decoded.ph := None;
                Decoded.moisture := None;
                Decoded.ec := None;
                Decoded.temperature := Some (Fin (hex_value (substr h 0 4) # 10));
                Decoded.humidity := Some (Fin (hex_value (substr h 4 4) # 10));
                Decoded.light := Some (Fin (hex_value (substr h 8 4) # 1));
                Decoded.tdsLevel := None |}).
Proof.
  intros H L P.
  destruct (starts_with_two _ _ _ P) as (r & ->).
  destruct (chunk_hex h 0 H ltac:(lia)) as (E0 & _).
  destruct (chunk_hex h 4 H ltac:(lia)) as (E1 & _).
  destruct (chunk_hex h 8 H ltac:(lia)) as (E2 & _).
  unfold decodeHexData, decodeHexData_try, js_startsWith.
  cbn [starts_with Ascii.eqb Bool.eqb andb Pure.bind].
  rewrite E0, E1, E2. reflexivity.
Qed.

Lemma decodeHexData_GZ_witness :
  decodeHexData (JStr "00F0028A03E8") (JStr "GZ1") =
    Ok (Some {| Decoded.ph := None;
                Decoded.moisture := None;
                Decoded.ec := None;
                Decoded.temperature := Some (Fin (240 # 10));
                Decoded.humidity := Some (Fin (650 # 10));
                Decoded.light := Some (Fin (1000 # 1));
                Decoded.tdsLevel := None |}).
Proof.
  exact (decodeHexData_GZ "00F0028A03E8" "GZ1"
           eq_refl ltac:(simpl; lia) eq_refl).
Defined.

Section DecoderInputs.

Lemma substring_app s : forall t n m,
  (n + m <= String.length s)%nat ->
  String.substring n m (s ++ t) = String.substring n m s.
Proof.
  induction s as [|c r IH]; intros t n m H; simpl in H.
  - assert (n = 0%nat) by lia. assert (m = 0%nat) by lia. subst.
    destruct t; reflexivity.
  - destruct n, m; cbn [String.append String.substring]; try reflexivity.
    + f_equal. apply IH. simpl. lia.
    + apply IH. lia.
    + apply IH. lia.
Qed.

Lemma chunk_app h t off :
  (off + 4 <= String.length h)%nat ->
  chunk (JStr (h ++ t)) off = chunk (JStr h) off.
Proof. intros H. unfold chunk, substr. now rewrite substring_app. Qed.

End DecoderInputs.

(** X4.  Characters of the payload beyond those the layout reads are
    ignored: when the payload has at least the sixteen (CZ) or twelve (MZ,
    SZ, GZ, HZ) characters of the layout, appending anything to it does
    not change what the decoder returns. *)
Theorem decodeHexData_ignores_trailing (h t : string) (dv : JsValue) :
  (consumed dv <= String.length h)%nat ->
  decodeHexData (JStr (h ++ t)) dv = decodeHexData (JStr h) dv.
Proof.
  destruct dv as [| | | |d| |]; try reflexivity.
  unfold consumed, known_family, decodeHexData, decodeHexData_try, js_startsWith.
  cbn [Pure.bind].
  destruct (starts_with "CZ" d); cbn [orb].
  - intros L. rewrite !chunk_app by lia. reflexivity.
  - destruct (starts_with "MZ" d); cbn [orb Pure.bind];
      [intros L; rewrite !chunk_app by lia; reflexivity|].
    destruct (starts_with "SZ" d); cbn [orb Pure.bind];
      [intros L; rewrite !chunk_app by lia; reflexivity|].
    destruct (starts_with "GZ" d); cbn [orb Pure.bind];
      [intros L; rewrite !chunk_app by lia; reflexivity|].
    destruct (starts_with "HZ" d); cbn [orb Pure.bind];
      [intros L; rewrite !chunk_app by lia; reflexivity|].
    reflexivity.
Qed.

Lemma decodeHexData_ignores_trailing_witness :
  decodeHexData (JStr ("02BC07D000F0" ++ "FFFF-checksum")) (JStr "HZ1") =
  decodeHexData (JStr "02BC07D000F0") (JStr "HZ1").
Proof.
  apply (decodeHexData_ignores_trailing "02BC07D000F0" "FFFF-checksum"
           (JStr "HZ1")).
  vm_compute. lia.
Defined.

(** X5.  Of a device code only the first two characters matter: two codes
    that agree on them are decoded alike, whatever follows and whatever
    the payload is. *)
Theorem decodeHexData_family_prefix (hv : JsValue) (a b : ascii) (r r' : string) :
  decodeHexData hv (JStr (String a (String b r))) =
  decodeHexData hv (JStr (String a (String b r'))).
Proof.
  unfold decodeHexData, decodeHexData_try, js_startsWith.
  cbn [starts_with]. reflexivity.
Qed.

Section DecoderBounds.

Lemma parse_digits_bound s : forall acc v,
  parse_digits s acc = Some v ->
  0 <= default 0 acc ->
  0 <= v < (default 0 acc + 1) * 16 ^ Z.of_nat (String.length s).
Proof.
  induction s as [|c r IH]; intros acc v H Ha.
  - cbn in *. subst acc. cbn in *. lia.
  - cbn [parse_digits] in H. cbn [String.length].
    rewrite Nat2Z.inj_succ, Z.pow_succ_r by lia.
    set (P := 16 ^ Z.of_nat (String.length r)) in *.
    assert (0 < P) by (apply Z.pow_pos_nonneg; lia).
    destruct (hex_digit c) as [d|] eqn:Hd.
    + apply hex_digit_range in Hd.
      apply IH in H; cbn [default] in *; [|unfold id in *; lia].
      fold P in H.
      assert ((16 * default 0 acc + d + 1) * P <= (16 * (default 0 acc + 1)) * P)
        by (apply Z.mul_le_mono_nonneg_r; unfold id in *; lia).
      unfold id in *. lia.
    + subst acc. cbn [default] in *. unfold id in *. nia.
Qed.

Lemma length_trim_start s :
  (String.length (trim_start s) <= String.length s)%nat.
Proof.
  induction s as [|c r IH]; cbn [trim_start]; [lia|].
  destruct (is_js_whitespace c); cbn [String.length]; lia.
Qed.

Lemma strip_sign_bound s :
  (fst (strip_sign s) = 1 \/ fst (strip_sign s) = -1) /\
  (String.length (snd (strip_sign s)) <= String.length s)%nat.
Proof.
  destruct s as [|c r]; [cbn; auto|].
  destruct c as [[] [] [] [] [] [] [] []]; cbn; auto.
Qed.

Lemma length_strip_0x s :
  (String.length (strip_0x s) <= String.length s)%nat.
Proof.
  destruct s as [|c [|c' r]]; [cbn; lia| |].
  - destruct c as [[] [] [] [] [] [] [] []]; cbn; lia.
  - destruct c as [[] [] [] [] [] [] [] []]; try (cbn; lia);
      destruct c' as [[] [] [] [] [] [] [] []]; cbn; lia.
Qed.

(** [parseInt(s, 16)] is [NaN] or an integer below [16 ^ length s] in
    absolute value. *)
Lemma parseInt16_bound s q :
  parseInt16 s = Fin q ->
  Qden q = 1%positive /\ Z.abs (Qnum q) < 16 ^ Z.of_nat (String.length s).
Proof.
  unfold parseInt16.
  pose proof (length_trim_start s) as L1.
  pose proof (strip_sign_bound (trim_start s)) as (Hs & L2).
  destruct (strip_sign (trim_start s)) as [sign s1]. cbn [fst snd] in *.
  pose proof (length_strip_0x s1) as L3.
  destruct (parse_digits (strip_0x s1) None) as [v|] eqn:Hp; [|discriminate].
  intros [= <-]. cbn [Qden Qnum]. split; [reflexivity|].
  apply parse_digits_bound in Hp; [|cbn; lia]. cbn [default] in Hp.
  assert (16 ^ Z.of_nat (String.length (strip_0x s1))
          <= 16 ^ Z.of_nat (String.length s))
    by (apply Z.pow_le_mono_r; lia).
  destruct Hs as [-> | ->]; lia.
Qed.

Lemma length_substring_le s : forall n m,
  (String.length (String.substring n m s) <= m)%nat.
Proof.
  induction s as [|c r IH]; intros n m.
  - destruct n, m; cbn; lia.
  - destruct n, m; cbn [String.substring String.length]; try lia.
    + specialize (IH 0%nat m). lia.
    + apply IH.
    + apply IH.
Qed.

Lemma chunk_within h off (k : positive) c :
  chunk (JStr h) off = Ok c ->
  field_within (Some (js_div c k)) k /\ field_within (Some c) 1.
Proof.
  unfold chunk. intros [= <-].
  destruct (parseInt16 (substr h off 4)) as [|q] eqn:Hq; [now split|].
  apply parseInt16_bound in Hq as (Hd & Hn).
  pose proof (length_substring_le h off 4) as L. unfold substr in Hn.
  assert (16 ^ Z.of_nat (String.length (String.substring off 4 h)) <= 16 ^ 4)
    by (apply Z.pow_le_mono_r; lia).
  change (16 ^ 4) with 65536 in *.
  cbn [js_div field_within Qden Qnum]. rewrite Hd. split; (split; [reflexivity|lia]).
Qed.

End DecoderBounds.

(** X6.  Whatever the strings given as payload and device code, every
    property of the record the decoder returns is NaN or a fraction n / k
    with k the divisor of its layout (100 for ph and ec, 10 for moisture,
    temperature, humidity and tdsLevel, 1 for light) and n an integer
    between -65535 and 65535. *)
Theorem decodeHexData_fields_bounded (h d : string) (r : Decoded.t) :
  decodeHexData (JStr h) (JStr d) = Ok (Some r) ->
  fields_within r.
Proof.
  pose proof (fun off k => chunk_within h off k) as W.
  unfold decodeHexData, decodeHexData_try, js_startsWith.
  cbn [Pure.bind].
  assert (C : forall off, chunk (JStr h) off = Ok (parseInt16 (substr h off 4)))
    by reflexivity.
  unfold fields_within.
  destruct (starts_with "CZ" d); cbn [Pure.bind].
  { rewrite !C. cbn [Pure.bind Pure.try_catch]. intros [= <-].
    cbn [Decoded.ph Decoded.moisture Decoded.ec Decoded.temperature
         Decoded.humidity Decoded.light Decoded.tdsLevel].
    repeat split; try exact I; try (apply (W _ _ _ (C _))). }
  destruct (starts_with "MZ" d); cbn [Pure.bind].
  { rewrite !C. cbn [Pure.bind Pure.try_catch]. intros [= <-].
    cbn [Decoded.ph Decoded.moisture Decoded.ec Decoded.temperature
         Decoded.humidity Decoded.light Decoded.tdsLevel].
    repeat split; try exact I; try (apply (W _ _ _ (C _))). }
  destruct (starts_with "SZ" d); cbn [Pure.bind].
  { rewrite !C. cbn [Pure.bind Pure.try_catch]. intros [= <-].
    cbn [Decoded.ph Decoded.moisture Decoded.ec Decoded.temperature
         Decoded.humidity Decoded.light Decoded.tdsLevel].
    repeat split; try exact I; try (apply (W _ _ _ (C _))). }
  destruct (starts_with "GZ" d); cbn [Pure.bind].
  { rewrite !C. cbn [Pure.bind Pure.try_catch]. intros [= <-].
    cbn [Decoded.ph Decoded.moisture Decoded.ec Decoded.temperature
         Decoded.humidity Decoded.light Decoded.tdsLevel].
    repeat split; try exact I; try (apply (W _ _ _ (C _)));
      apply (W 8%nat 1%positive _ (C _)). }
  destruct (starts_with "HZ" d); cbn [Pure.bind].
  { rewrite !C. cbn [Pure.bind Pure.try_catch]. intros [= <-].
    cbn [Decoded.ph Decoded.moisture Decoded.ec Decoded.temperature
         Decoded.humidity Decoded.light Decoded.tdsLevel].
    repeat split; try exact I; try (apply (W _ _ _ (C _))). }
  discriminate.
Qed.

Lemma decodeHexData_fields_bounded_witness :
  exists r,
    decodeHexData (JStr "-FFF 0x9zzzz~") (JStr "GZ-04") = Ok (Some r) /\
    Decoded.temperature r = Some (Fin (-4095 # 10)) /\
    fields_within r.
Proof.
  eexists. split; [reflexivity|]. split; [reflexivity|].
  apply (decodeHexData_fields_bounded "-FFF 0x9zzzz~" "GZ-04"). reflexivity.
Defined.

Section DecoderCase.

Lemma hex_digit_upper c : hex_digit (upper_hex c) = hex_digit c.
Proof. destruct c as [[] [] [] [] [] [] [] []]; reflexivity. Qed.

Lemma is_js_whitespace_upper c :
  is_js_whitespace (upper_hex c) = is_js_whitespace c.
Proof. destruct c as [[] [] [] [] [] [] [] []]; reflexivity. Qed.

Lemma trim_start_upper s :
  trim_start (map_string upper_hex s) = map_string upper_hex (trim_start s).
Proof.
  induction s as [|c r IH]; [reflexivity|].
  cbn [map_string trim_start]. rewrite is_js_whitespace_upper.
  destruct (is_js_whitespace c); [exact IH|reflexivity].
Qed.

Lemma strip_sign_upper s :
  strip_sign (map_string upper_hex s) =
    (fst (strip_sign s), map_string upper_hex (snd (strip_sign s))).
Proof.
  destruct s as [|c r]; [reflexivity|].
  destruct c as [[] [] [] [] [] [] [] []]; reflexivity.
Qed.

Lemma strip_0x_upper s :
  strip_0x (map_string upper_hex s) = map_string upper_hex (strip_0x s).
Proof.
  destruct s as [|c [|c' r]]; [reflexivity| |].
  - destruct c as [[] [] [] [] [] [] [] []]; reflexivity.
  - destruct c as [[] [] [] [] [] [] [] []]; try reflexivity;
      destruct c' as [[] [] [] [] [] [] [] []]; reflexivity.
Qed.

Lemma parse_digits_upper s : forall acc,
  parse_digits (map_string upper_hex s) acc = parse_digits s acc.
Proof.
  induction s as [|c r IH]; intros acc; [reflexivity|].
  cbn [map_string parse_digits]. rewrite hex_digit_upper.
  destruct (hex_digit c); [apply IH|reflexivity].
Qed.

Lemma parseInt16_upper s :
  parseInt16 (map_string upper_hex s) = parseInt16 s.
Proof.
  unfold parseInt16. rewrite trim_start_upper, strip_sign_upper.
  destruct (strip_sign (trim_start s)) as [sign s1]. cbn [fst snd].
  now rewrite strip_0x_upper, parse_digits_upper.
Qed.

Lemma substring_map f s : forall n m,
  String.substring n m (map_string f s) = map_string f (String.substring n m s).
Proof.
  induction s as [|c r IH]; intros n m.
  - destruct n, m; reflexivity.
  - destruct n, m; cbn [map_string String.substring]; try reflexivity.
    + f_equal. apply IH.
    + apply IH.
    + apply IH.
Qed.

Lemma chunk_upper h off :
  chunk (JStr (map_string upper_hex h)) off = chunk (JStr h) off.
Proof.
  unfold chunk, substr. now rewrite substring_map, parseInt16_upper.
Qed.

End DecoderCase.

(** X7.  The decoder does not tell the hexadecimal letters a-f from A-F:
    a payload and the same payload with these letters in upper case are
    decoded alike, for every device code. *)
Theorem decodeHexData_case_insensitive (h : string) (dv : JsValue) :
  decodeHexData (JStr (map_string upper_hex h)) dv = decodeHexData (JStr h) dv.
Proof.
  unfold decodeHexData, decodeHexData_try.
  now rewrite !chunk_upper.
Qed.

(* ===================================================================== *)
(** ** External fetcher: what a successful fetch hands over *)
(* ===================================================================== *)

Section Fetcher.
Variable E : Env.t.

Lemma js_get_defined data k v :
  js_get data k = Ok v -> forall k', exists v', js_get data k' = Ok v'.
Proof. destruct data; cbn; try discriminate; eauto. Qed.

Lemma js_get_opt_returns v k : exists v', js_get_opt v k = Ok v'.
Proof. destruct v; cbn; eauto. Qed.

Lemma first_truthy_returns data keys :
  (forall k, exists v, js_get data k = Ok v) ->
  exists v, first_truthy data keys = Ok v.
Proof.
  intros H. induction keys as [|k rest IH]; cbn; [eauto|].
  destruct (H k) as (v & ->). cbn. destruct (truthy v); eauto.
Qed.

(** The part of [fetchLatestReading] that follows a successful decoding. *)
Lemma fetchLatestReading_adapt resp data dc0 rd ev d s :
  Env.net E (netCalls s) = Responded resp ->
  Response.ok resp = true ->
  declares_json resp = true ->
  Response.json resp = Some data ->
  js_get data "device_code" = Ok dc0 ->
  js_get data "reading" = Ok rd ->
  js_get_opt rd "encoded_data" = Ok ev ->
  truthy ev = true ->
  decodeHexData ev (js_or dc0 (JStr "UNKNOWN")) = Ok (Some d) ->
  exists i ts s',
    fetchLatestReading E s =
      (Ok (Some (ExternalDatabaseReading.mk i
                   (num_or (Decoded.temperature d) 0)
                   (num_or (Decoded.ph d) 0)
                   (num_or (Decoded.tdsLevel d) (num_or (Decoded.ec d) 0))
                   ts)), s').
Proof.
  intros N Hok Hct Hjs D R En T Dc.
  destruct resp as [ok ct js]. unfold declares_json in Hct. cbn in Hok, Hct, Hjs.
  subst ok js. destruct ct as [c|]; [|discriminate].
  destruct (first_truthy_returns data ["id"; "_id"; "reading_id"]
              (js_get_defined _ _ _ D)) as (gid & Hgid).
  destruct (first_truthy_returns data ["timestamp"; "created_at"; "time"]
              (js_get_defined _ _ _ D)) as (gts & Hgts).
  destruct (js_get_opt_returns rd "timestamp") as (ts0 & Hts0).
  unfold fetchLatestReading, try_catch, bind, http_fetch, throw, lift, ret,
    date_now.
  rewrite N. cbn [Response.ok Response.content_type Response.json negb].
  rewrite Hct. cbn [negb]. rewrite D, R, En, T. cbn [negb]. rewrite Dc, Hgid.
  destruct (truthy gid); rewrite Hts0;
    destruct (truthy ts0) eqn:T0; rewrite ?Hgts; cbn -[num_or first_truthy];
    rewrite ?T0; try destruct (truthy gts); cbn -[num_or]; eauto.
Qed.

End Fetcher.

Lemma fetchLatestReading_adapts_decoded_run
    (E : Env.t) (s : State) (resp : Response.t) (data ev dc : JsValue)
    (d : Decoded.t) :
  Env.net E (netCalls s) = Responded resp ->
  Response.ok resp = true ->
  declares_json resp = true ->
  Response.json resp = Some data ->
  device_code_of data = Ok dc ->
  encoded_data_of data = Ok ev ->
  truthy ev = true ->
  decodeHexData ev dc = Ok (Some d) ->
  exists x s',
    fetchLatestReading E s = (Ok (Some x), s') /\
    ExternalDatabaseReading.temperature x = num_or (Decoded.temperature d) 0 /\
    ExternalDatabaseReading.ph x = num_or (Decoded.ph d) 0 /\
    ExternalDatabaseReading.tdsLevel x =
      num_or (Decoded.tdsLevel d) (num_or (Decoded.ec d) 0).
Proof.
  intros N Hok Hct Hjs Hdc Hev T Dc.
  unfold device_code_of in Hdc. unfold encoded_data_of in Hev.
  destruct (js_get data "device_code") as [dc0| |] eqn:D; try discriminate.
  destruct (js_get data "reading") as [rd| |] eqn:R; try discriminate.
  cbn [Pure.bind] in Hdc, Hev. injection Hdc as <-.
  destruct (fetchLatestReading_adapt E resp data dc0 rd ev d s
              N Hok Hct Hjs D R Hev T Dc) as (i & ts & s' & Hrun).
  eexists _, s'. split; [exact Hrun|]. repeat split; reflexivity.
Qed.

(** X8.  A fetch from the external service that passes every check (the
    response is OK and declares JSON, the body parses, encoded_data is
    present and the decoder knows the device) returns a reading whose
    temperature and ph are the decoded ones and whose tdsLevel is the
    decoded tdsLevel or, failing that, the decoded ec; a decoded value
    that is missing, NaN or zero becomes 0. *)
Theorem fetchLatestReading_adapts_decoded
    (E : Env.t) (s : State) (resp : Response.t) (data ev dc : JsValue)
    (d : Decoded.t) :
  Env.net E (netCalls s) = Responded resp ->
  Response.ok resp = true ->
  declares_json resp = true ->
  Response.json resp = Some data ->
  device_code_of data = Ok dc ->
  encoded_data_of data = Ok ev ->
  truthy ev = true ->
  decodeHexData ev dc = Ok (Some d) ->
  exists x s',
    fetchLatestReading E s = (Ok (Some x), s') /\
    ExternalDatabaseReading.temperature x = num_or (Decoded.temperature d) 0 /\
    ExternalDatabaseReading.ph x = num_or (Decoded.ph d) 0 /\
    ExternalDatabaseReading.tdsLevel x =
      num_or (Decoded.tdsLevel d) (num_or (Decoded.ec d) 0).
Proof. apply fetchLatestReading_adapts_decoded_run. Qed.

Lemma fetchLatestReading_adapts_decoded_witness :
  exists x s',
    fetchLatestReading (Scenario.healthy "production")
      (Scenario.boot (Scenario.healthy "production")) = (Ok (Some x), s') /\
    ExternalDatabaseReading.temperature x = (240 # 10)%Q /\
    ExternalDatabaseReading.ph x = (700 # 100)%Q /\
    ExternalDatabaseReading.tdsLevel x = (2000 # 10)%Q.
Proof.
  apply (fetchLatestReading_adapts_decoded (Scenario.healthy "production")
           (Scenario.boot (Scenario.healthy "production"))
           (Response.mk true (Some "application/json; charset=utf-8")
                        (Some Scenario.envelope))
           Scenario.envelope (JStr "02BC07D000F0") (JStr "HZ1")
           {| Decoded.ph := Some (Fin (700 # 100));
              Decoded.moisture := None;
              Decoded.ec := None;
              Decoded.temperature := Some (Fin (240 # 10));
              Decoded.humidity := None;
              Decoded.light := None;
              Decoded.tdsLevel := Some (Fin (2000 # 10)) |});
    reflexivity.
Defined.

(** X9.  For a greenhouse device (a device code that starts with [GZ])
    the reading handed over has ph 0 and tdsLevel 0, whatever the payload
    says: the greenhouse layout has neither ph, tdsLevel nor ec. *)
Theorem fetchLatestReading_greenhouse_zero_ph_tds
    (E : Env.t) (s : State) (resp : Response.t) (data : JsValue)
    (h d : string) :
  Env.net E (netCalls s) = Responded resp ->
  Response.ok resp = true ->
  declares_json resp = true ->
  Response.json resp = Some data ->
  js_get data "device_code" = Ok (JStr d) ->
  starts_with "GZ" d = true ->
  encoded_data_of data = Ok (JStr h) ->
  h <> EmptyString ->
  exists x s',
    fetchLatestReading E s = (Ok (Some x), s') /\
    ExternalDatabaseReading.ph x = 0%Q /\
    ExternalDatabaseReading.tdsLevel x = 0%Q.
Proof.
  intros N Hok Hct Hjs D G Hev Hne.
  unfold encoded_data_of in Hev.
  destruct (js_get data "reading") as [rd| |] eqn:R; try discriminate.
  cbn [Pure.bind] in Hev.
  assert (T : truthy (JStr h) = true) by (destruct h; [congruence|reflexivity]).
  assert (Hd : js_or (JStr d) (JStr "UNKNOWN") = JStr d).
  { unfold js_or. destruct d; [discriminate|reflexivity]. }
  assert (exists dd, decodeHexData (JStr h) (JStr d) = Ok (Some dd) /\
                     Decoded.ph dd = None /\ Decoded.tdsLevel dd = None /\
                     Decoded.ec dd = None) as (dd & Dc & H1 & H2 & H3).
  { destruct d as [|a [|b r]]; try discriminate.
    - cbn [starts_with] in G. rewrite andb_false_r in G. discriminate.
    - cbn [starts_with] in G. rewrite andb_true_r in G.
      apply andb_true_iff in G as (Ha & Hb).
      apply Ascii.eqb_eq in Ha, Hb. subst a b.
      eexists. split; [reflexivity|]. repeat split; reflexivity. }
  rewrite <- Hd in Dc.
  destruct (fetchLatestReading_adapt E resp data (JStr d) rd (JStr h) dd s
              N Hok Hct Hjs D R Hev T Dc) as (i & ts & s' & Hrun).
  eexists _, s'. split; [exact Hrun|].
  cbn [ExternalDatabaseReading.ph ExternalDatabaseReading.tdsLevel].
  rewrite H1, H2, H3. split; reflexivity.
Qed.

Lemma fetchLatestReading_greenhouse_zero_ph_tds_witness :
  exists x s',
    fetchLatestReading greenhouse (Scenario.boot greenhouse) = (Ok (Some x), s') /\
    ExternalDatabaseReading.ph x = 0%Q /\
    ExternalDatabaseReading.tdsLevel x = 0%Q.
Proof.
  apply (fetchLatestReading_greenhouse_zero_ph_tds greenhouse
           (Scenario.boot greenhouse)
           (Response.mk true (Some "application/json") (Some greenhouse_envelope))
           greenhouse_envelope "00F0028A03E8" "GZ1");
    try reflexivity.
  discriminate.
Defined.

(** X10.  [fetchLatestReading] makes exactly one request, whatever comes
    back, and touches nothing else: it sends no statement to the store and
    leaves the tables, the in-memory fallback data, the availability flag,
    the freshness timestamp and the gateway as they were. *)
Theorem fetchLatestReading_one_request_nothing_else (E : Env.t) (s : State) :
  let s' := snd (fetchLatestReading E s) in
  netCalls s' = S (netCalls s) /\ same_but_network s s'.
Proof.
  intros s'. subst s'. split.
  - now apply (hoare_netCalls_fetchLatestReading E (netCalls s) s).
  - unfold same_but_network.
    assert (K1 : keeps (fun st => lastExternalFetchTime st = lastExternalFetchTime s)
                   (fetchLatestReading E)) by keeps_frame.
    assert (K2 : keeps (fun st => databaseAvailable st = databaseAvailable s)
                   (fetchLatestReading E)) by keeps_frame.
    assert (K3 : keeps (fun st => fallbackData st = fallbackData s)
                   (fetchLatestReading E)) by keeps_frame.
    assert (K4 : keeps (fun st => _db st = _db s) (fetchLatestReading E))
      by keeps_frame.
    assert (K5 : keeps (fun st => _databaseAvailable st = _databaseAvailable s)
                   (fetchLatestReading E)) by keeps_frame.
    assert (K6 : keeps (fun st => tables st = tables s) (fetchLatestReading E))
      by keeps_frame.
    assert (K7 : keeps (fun st => dbOps st = dbOps s) (fetchLatestReading E))
      by keeps_frame.
    repeat split;
      [apply K1|apply K2|apply K3|apply K4|apply K5|apply K6|apply K7];
      reflexivity.
Qed.

(* ===================================================================== *)
(** ** The orchestrator never lets an exception out *)
(* ===================================================================== *)

Section NeverThrows.
Variable E : Env.t.

Lemma total_never_throws {A} (m : M A) : total m -> never_throws m.
Proof. intros H s e. destruct (H s) as (a & s' & ->). discriminate. Qed.

Lemma never_throws_bind {A B} (m : M A) (k : A -> M B) :
  never_throws m -> (forall a, never_throws (k a)) -> never_throws (bind m k).
Proof.
  intros Hm Hk s e. unfold bind. specialize (Hm s).
  destruct (m s) as [[a| |] s']; cbn in *.
  - apply Hk.
  - now destruct (Hm e0).
  - discriminate.
Qed.

Lemma never_throws_try_catch {A} (m : M A) (h : Exn -> M A) :
  (forall e, never_throws (h e)) -> never_throws (try_catch m h).
Proof.
  intros Hh s e. unfold try_catch.
  destruct (m s) as [[a|e0|] s']; cbn; try discriminate. apply Hh.
Qed.

Lemma total_initializeDefaults : total (initializeDefaults E).
Proof.
  unfold_methods; unfold_statements; unfold fresh_uuid, modify.
  assert (H := total_getDatabaseConnection E).
  structure.
Qed.

Lemma never_throws_getSensorReadings fuel limit :
  never_throws (getSensorReadings E fuel limit).
Proof.
  induction fuel as [|fuel IH]; cbn [getSensorReadings].
  - intros s e. discriminate.
  - apply never_throws_bind;
      [apply total_never_throws, total_fetchFromExternalDatabase|intros _].
    apply never_throws_bind; [apply total_never_throws, total_gets|intros flag].
    destruct (negb flag);
      [apply total_never_throws, total_fallback_readings|].
    apply never_throws_try_catch. intros _.
    apply never_throws_bind; [|intros _; exact IH].
    apply total_never_throws, total_modify.
Qed.

End NeverThrows.

(** X11.  No method of the storage orchestrator lets an exception out,
    whatever the store, the network and the environment do: the two
    writes, the two status methods, the two settings methods, the
    time-range read and the start-up initialisation always return;
    [getSensorReadings] returns or retries, and never throws. *)
Theorem storage_never_throws (E : Env.t) :
  (forall v, total (createSensorReading E v)) /\
  total (getSystemStatus E) /\
  (forall u, total (updateSystemStatus E u)) /\
  total (getAlertSettings E) /\
  (forall v, total (updateAlertSettings E v)) /\
  (forall start end_, total (getSensorReadingsByTimeRange E start end_)) /\
  total (initializeDefaults E) /\
  (forall fuel limit, never_throws (getSensorReadings E fuel limit)).
Proof.
  repeat split.
  - apply total_createSensorReading.
  - apply total_getSystemStatus.
  - apply total_updateSystemStatus.
  - apply total_getAlertSettings.
  - apply total_updateAlertSettings.
  - apply total_getSensorReadingsByTimeRange.
  - apply total_initializeDefaults.
  - apply never_throws_getSensorReadings.
Qed.

(* ===================================================================== *)
(** ** Writes: where a created reading ends up *)
(* ===================================================================== *)

Section Writes.
Variable E : Env.t.

Lemma remember_in_memory_run v s :
  exists r,
    remember_in_memory E v s =
      (Ok r, set_fallbackData
               (FallbackData.mk
                  (FallbackData.systemStatus (fallbackData s))
                  (FallbackData.alertSettings (fallbackData s))
                  (r :: memory_readings s))
               (next_tick (next_tick (next_tick s)))) /\
    carries_values r v /\
    SensorReading.id r = Stamped "memory" (Env.clock E (ticks s)).
Proof.
  unfold remember_in_memory, in_memory_reading, get_fallback,
    put_fallback_sensorReadings, bind, date_now, gets, modify, ret.
  eexists. split; [reflexivity|]. repeat split; reflexivity.
Qed.

Lemma getDatabaseConnection_unavailable s :
  gateway_available E s = false ->
  exists db av s0,
    getDatabaseConnection E s = (Ok (db, av), s0) /\
    av && db = false /\
    negb av || negb db = true /\
    gateway_available E s0 = false /\
    same_but_gateway s s0.
Proof.
  intros G.
  destruct (getDatabaseConnection_run E s) as (db & av & s0 & Hc & Hav & Hg & Hs).
  exists db, av, s0. rewrite G in *.
  repeat split; try assumption; try apply Hs.
  destruct av, db; try reflexivity; discriminate.
Qed.

(** **** What a status update leaves alone *)

Lemma updateSystemStatus_keeps_readings l m u :
  keeps (fun s => stored_readings s = l /\ memory_readings s = m)
        (updateSystemStatus E u).
Proof. unfold stored_readings, memory_readings. keeps_frame. Qed.

Lemma createSensorReading_run v s :
  exists r s',
    createSensorReading E v s = (Ok r, s') /\
    ((stored_readings s' = (stored_readings s ++ [r])%list /\
      memory_readings s' = memory_readings s) \/
     (memory_readings s' = r :: memory_readings s /\
      carries_values r v)).
Proof.
  destruct (getDatabaseConnection_run E s)
    as (db & av & s0 & Hc & _ & _ & _ & _ & HB & HT & _).
  unfold createSensorReading. rewrite (bind_ok _ _ _ _ _ Hc).
  destruct (negb av || negb db).
  { destruct (remember_in_memory_run v s0) as (r & Hr & Hv & _).
    exists r. eexists. split; [exact Hr|].
    right. split; [|exact Hv]. unfold memory_readings. cbn. now rewrite HB. }
  destruct (Env.db_fails E (dbOps s0) InsertReading) eqn:I.
  { rewrite (try_throw _ _ _ _ _
               (bind_throw _ _ _ _ _ (db_insert_reading_fails E v s0 I))).
    unfold setAvailable. rewrite bind_modify.
    destruct (remember_in_memory_run v (set_databaseAvailable false (next_dbOp s0)))
      as (r & Hr & Hv & _).
    exists r. eexists. split; [exact Hr|].
    right. split; [|exact Hv]. unfold memory_readings. cbn. now rewrite HB. }
  set (s1 := after_insert_reading E v s0).
  destruct (Env.db_fails E (dbOps s1) CountReadings) eqn:C.
  { erewrite try_throw.
    2:{ rewrite (bind_ok _ _ _ _ _ (db_insert_reading_ok E v s0 I)).
        fold s1. apply bind_throw. unfold db_count_readings.
        apply bind_throw. apply db_send_fails. exact C. }
    unfold setAvailable. rewrite bind_modify.
    destruct (remember_in_memory_run v (set_databaseAvailable false (next_dbOp s1)))
      as (r & Hr & Hv & _).
    exists r. eexists. split; [exact Hr|].
    right. split; [|exact Hv]. unfold memory_readings. cbn. now rewrite HB. }
  set (cnt := Z.of_nat (length (Tables.sensorReadings (tables s1)))).
  destruct (total_updateSystemStatus E (PartialSystemStatus.only_dataPoints cnt)
              (next_dbOp s1)) as (u & s3 & Hu).
  pose proof (updateSystemStatus_keeps_readings
                (stored_readings (next_dbOp s1)) (memory_readings (next_dbOp s1))
                (PartialSystemStatus.only_dataPoints cnt) (next_dbOp s1)
                (conj eq_refl eq_refl)) as K.
  rewrite Hu in K. cbn [snd] in K. destruct K as (K1 & K2).
  exists (inserted_row E v s0), s3. split.
  - apply try_ok.
    rewrite (bind_ok _ _ _ _ _ (db_insert_reading_ok E v s0 I)). fold s1.
    rewrite (bind_ok _ _ _ _ _ (db_count_readings_ok E s1 C)). fold cnt.
    rewrite (bind_ok _ _ _ _ _ Hu). reflexivity.
  - left. rewrite K1, K2. unfold stored_readings, memory_readings. cbn.
    now rewrite HT, HB.
Qed.

End Writes.

(** X12.  [createSensorReading] always returns a reading and always keeps
    it: either the reading is the row the store appended to the stored
    readings and handed back (the in-memory list being untouched), or it
    is a reading made up in memory, which carries the three submitted
    values and is put at the front of the in-memory list. *)
Theorem createSensorReading_keeps_what_it_returns
    (E : Env.t) (v : InsertSensorReading.t) (s : State) :
  exists r s',
    createSensorReading E v s = (Ok r, s') /\
    ((stored_readings s' = (stored_readings s ++ [r])%list /\
      memory_readings s' = memory_readings s) \/
     (memory_readings s' = r :: memory_readings s /\
      carries_values r v)).
Proof. apply createSensorReading_run. Qed.

(* ===================================================================== *)
(** ** Running without a store *)
(* ===================================================================== *)

Section WithoutGateway.
Variable E : Env.t.

Lemma fetchLatestReading_run_frame s :
  exists ext s1,
    fetchLatestReading E s = (Ok ext, s1) /\
    netCalls s1 = S (netCalls s) /\
    same_but_network s s1.
Proof.
  destruct (total_fetchLatestReading E s) as (ext & s1 & Hext).
  exists ext, s1. split; [exact Hext|].
  assert (K0 := hoare_netCalls_fetchLatestReading E (netCalls s) s eq_refl).
  assert (K1 : keeps (fun st => lastExternalFetchTime st = lastExternalFetchTime s)
                 (fetchLatestReading E)) by keeps_frame.
  assert (K2 : keeps (fun st => databaseAvailable st = databaseAvailable s)
                 (fetchLatestReading E)) by keeps_frame.
  assert (K3 : keeps (fun st => fallbackData st = fallbackData s)
                 (fetchLatestReading E)) by keeps_frame.
  assert (K4 : keeps (fun st => _db st = _db s) (fetchLatestReading E))
    by keeps_frame.
  assert (K5 : keeps (fun st => _databaseAvailable st = _databaseAvailable s)
                 (fetchLatestReading E)) by keeps_frame.
  assert (K6 : keeps (fun st => tables st = tables s) (fetchLatestReading E))
    by keeps_frame.
  assert (K7 : keeps (fun st => dbOps st = dbOps s) (fetchLatestReading E))
    by keeps_frame.
  specialize (K1 s eq_refl). specialize (K2 s eq_refl).
  specialize (K3 s eq_refl). specialize (K4 s eq_refl).
  specialize (K5 s eq_refl). specialize (K6 s eq_refl).
  specialize (K7 s eq_refl).
  rewrite Hext in *. cbn [snd] in *.
  split; [exact K0|]. unfold same_but_network. tauto.
Qed.

(** The second block of the priming step when nothing can be stored. *)
Lemma fetch_external_unavailable db av now s :
  av && db = false ->
  exists r s1,
    fetch_external E db av now s = (Ok r, s1) /\
    netCalls s1 = S (netCalls s) /\
    databaseAvailable s1 = databaseAvailable s /\
    fallbackData s1 = fallbackData s /\
    _db s1 = _db s /\
    _databaseAvailable s1 = _databaseAvailable s /\
    tables s1 = tables s /\
    dbOps s1 = dbOps s /\
    (forall row, r = Some row -> SensorReading.id row = Stamped "external" now).
Proof.
  intros Hav.
  destruct (fetchLatestReading_run_frame s)
    as (ext & s1 & Hext & HN & _ & HA & HB & HD & HDA & HT & HO).
  unfold fetch_external.
  destruct ext as [x|].
  - eexists _, _. split.
    + apply try_ok. rewrite (bind_ok _ _ _ _ _ Hext), bind_modify.
      unfold store_external. rewrite Hav. rewrite bind_ret.
      rewrite !bind_date_now. reflexivity.
    + cbn. repeat split; try assumption. now intros row [= <-].
  - exists None, s1. split.
    + apply try_ok. now rewrite (bind_ok _ _ _ _ _ Hext).
    + repeat split; try assumption. discriminate.
Qed.

(** The priming step without a store: one request, no statement, and the
    reading it returns, if any, is made up in memory. *)
Lemma fetchFromExternalDatabase_unavailable s :
  gateway_available E s = false ->
  exists r s1,
    fetchFromExternalDatabase E s = (Ok r, s1) /\
    gateway_available E s1 = false /\
    netCalls s1 = S (netCalls s) /\
    databaseAvailable s1 = databaseAvailable s /\
    fallbackData s1 = fallbackData s /\
    tables s1 = tables s /\
    dbOps s1 = dbOps s /\
    (forall row, r = Some row ->
       SensorReading.id row = Stamped "external" (Env.clock E (ticks s))).
Proof.
  intros G.
  destruct (getDatabaseConnection_unavailable E (next_tick s) G)
    as (db & av & s0 & Hc & Hav & _ & G0 & HL & HA & HB & HT & HO & HN & _).
  cbn in HL, HA, HB, HT, HO, HN.
  destruct (fetch_external_unavailable db av (Env.clock E (ticks s)) s0 Hav)
    as (r & s1 & Hr & HN1 & HA1 & HB1 & HD1 & HDA1 & HT1 & HO1 & Hid).
  exists r, s1. split.
  - unfold fetchFromExternalDatabase.
    rewrite bind_date_now, (bind_ok _ _ _ _ _ Hc).
    unfold bind at 1. rewrite read_cached_run, Hav. cbn [andb]. exact Hr.
  - unfold gateway_available in *. rewrite HD1, HDA1.
    repeat split; try congruence. exact Hid.
Qed.

(** [getSensorReadings] without a store. *)
Lemma getSensorReadings_unavailable fuel limit s :
  gateway_available E s = false ->
  exists rows s',
    getSensorReadings E (S fuel) limit s = (Ok rows, s') /\
    rows = slice0 (memory_readings s') limit /\
    gateway_available E s' = false /\
    tables s' = tables s /\
    dbOps s' = dbOps s /\
    netCalls s' = S (netCalls s) /\
    databaseAvailable s' = false /\
    match memory_readings s with
    | [] => exists sample, memory_readings s' = [sample] /\ is_sample sample
    | _ :: _ => memory_readings s' = memory_readings s
    end.
Proof.
  intros G.
  destruct (fetchFromExternalDatabase_unavailable s G)
    as (r & s1 & Hrun & G1 & HN & HA & HB & HT & HO & _).
  assert (Hfb : forall s2,
             gateway_available E s2 = gateway_available E s1 ->
             tables s2 = tables s1 -> dbOps s2 = dbOps s1 ->
             netCalls s2 = netCalls s1 -> fallbackData s2 = fallbackData s1 ->
             databaseAvailable s2 = false ->
             exists s',
               fallback_readings E limit s2 =
                 (Ok (slice0 (memory_readings s') limit), s') /\
               gateway_available E s' = false /\
               tables s' = tables s /\ dbOps s' = dbOps s /\
               netCalls s' = S (netCalls s) /\ databaseAvailable s' = false /\
               match memory_readings s with
               | [] => exists sample,
                         memory_readings s' = [sample] /\ is_sample sample
               | _ :: _ => memory_readings s' = memory_readings s
               end).
  { intros s2 H1 H2 H3 H4 H5 H6.
    destruct (fallback_readings_run E limit s2)
      as (s' & Hf & _ & HT' & HO' & HN' & HA' & Hm).
    exists s'. split; [exact Hf|].
    assert (Hg : gateway_available E s' = gateway_available E s2).
    { assert (K : keeps (fun st => _db st = _db s2 /\
                                  _databaseAvailable st = _databaseAvailable s2)
                        (fallback_readings E limit)) by keeps_frame.
      specialize (K s2 (conj eq_refl eq_refl)). cbn beta in K.
      rewrite Hf in K. cbn [snd] in K. destruct K as (K1 & K2). unfold gateway_available. now rewrite K1, K2. }
    repeat split; try congruence.
    unfold memory_readings in *. rewrite H5, HB in Hm.
    destruct (FallbackData.sensorReadings (fallbackData s)) eqn:Hl;
      [exact Hm|].
    subst s'. now rewrite H5, HB. }
  cbn [getSensorReadings].
  rewrite (bind_ok _ _ _ _ _ Hrun), bind_gets.
  destruct (databaseAvailable s1) eqn:F; cbn [negb].
  - destruct (getDatabaseConnection_unavailable E s1 G1)
      as (db & av & s2 & Hc & _ & Hneg & G2 & HL2 & HA2 & HB2 & HT2 & HO2 & HN2 & _).
    destruct (Hfb (set_databaseAvailable false s2)) as (s' & Hf & Hrest);
      try assumption; try reflexivity.
    { unfold gateway_available in *. cbn. congruence. }
    eexists _, s'. split; [|split; [reflexivity|exact Hrest]].
    apply try_ok. unfold query_readings.
    rewrite (bind_ok _ _ _ _ _ Hc), Hneg.
    unfold setAvailable. rewrite bind_modify. exact Hf.
  - destruct (Hfb s1) as (s' & Hf & Hrest); try reflexivity; try assumption.
    eexists _, s'. split; [exact Hf|]. split; [reflexivity|exact Hrest].
Qed.

End WithoutGateway.

(** X13.  Without a store (the gateway is unavailable) a call of
    [getSensorReadings] makes one request to the external service, sends
    no statement, and returns the in-memory list cut at [limit]: the list
    as it was before the call or, if that was empty, one sample reading
    (25.5 / 6.8 / 450).  What the external service answered during the
    call is not part of the result.  One attempt suffices, and the flag is
    DEGRADED afterwards. *)
Theorem getSensorReadings_without_store
    (E : Env.t) (fuel : nat) (limit : Z) (s : State) :
  gateway_available E s = false ->
  exists rows s',
    getSensorReadings E (S fuel) limit s = (Ok rows, s') /\
    rows = slice0 (memory_readings s') limit /\
    tables s' = tables s /\
    dbOps s' = dbOps s /\
    netCalls s' = S (netCalls s) /\
    databaseAvailable s' = false /\
    match memory_readings s with
    | [] => exists sample, memory_readings s' = [sample] /\ is_sample sample
    | _ :: _ => memory_readings s' = memory_readings s
    end.
Proof.
  intros G.
  destruct (getSensorReadings_unavailable E fuel limit s G)
    as (rows & s' & H1 & H2 & _ & H3).
  exists rows, s'. split; [exact H1|]. split; [exact H2|exact H3].
Qed.

Lemma getSensorReadings_without_store_witness :
  let E := Scenario.no_store in
  exists sample s',
    getSensorReadings E 1 50 (Scenario.boot E) = (Ok [sample], s') /\
    is_sample sample /\
    dbOps s' = 0%nat /\
    netCalls s' = 1%nat.
Proof.
  intros E.
  assert (G : gateway_available E (Scenario.boot E) = false)
    by (vm_compute; reflexivity).
  destruct (getSensorReadings_without_store E 0 50 (Scenario.boot E) G)
    as (rows & s' & H1 & H2 & _ & H3 & H4 & _ & H5).
  change (memory_readings (Scenario.boot E)) with (@nil SensorReading.t) in H5.
  destruct H5 as (sample & H5 & H6).
  exists sample, s'. rewrite H5 in H2. subst rows.
  split; [exact H1|]. split; [exact H6|]. split; [exact H3|exact H4].
Defined.

Section WithoutGatewayWrites.
Variable E : Env.t.

Lemma createSensorReading_unavailable v s :
  gateway_available E s = false ->
  exists r s',
    createSensorReading E v s = (Ok r, s') /\
    carries_values r v /\
    SensorReading.id r = Stamped "memory" (Env.clock E (ticks s)) /\
    memory_readings s' = r :: memory_readings s /\
    gateway_available E s' = false /\
    tables s' = tables s /\
    dbOps s' = dbOps s /\
    netCalls s' = netCalls s /\
    databaseAvailable s' = databaseAvailable s.
Proof.
  intros G.
  destruct (getDatabaseConnection_unavailable E s G)
    as (db & av & s0 & Hc & _ & Hneg & G0 & HL & HA & HB & HT & HO & HN & HK).
  destruct (remember_in_memory_run E v s0) as (r & Hr & Hv & Hid).
  exists r. eexists. split.
  - unfold createSensorReading. rewrite (bind_ok _ _ _ _ _ Hc), Hneg. exact Hr.
  - unfold memory_readings, gateway_available in *. cbn.
    rewrite Hid, HK, HB.
    repeat split; try assumption; try reflexivity; apply Hv.
Qed.

Lemma getSensorReadingsByTimeRange_unavailable a b s :
  gateway_available E s = false ->
  exists s',
    getSensorReadingsByTimeRange E a b s = (Ok (memory_readings s), s') /\
    fallbackData s' = fallbackData s /\
    tables s' = tables s /\
    dbOps s' = dbOps s /\
    gateway_available E s' = false.
Proof.
  intros G.
  destruct (fetchFromExternalDatabase_unavailable E s G)
    as (r & s1 & Hrun & G1 & HN & HA & HB & HT & HO & _).
  destruct (getDatabaseConnection_unavailable E s1 G1)
    as (db & av & s2 & Hc & _ & Hneg & G2 & HL2 & HA2 & HB2 & HT2 & HO2 & _).
  exists s2. split.
  - unfold getSensorReadingsByTimeRange.
    rewrite (bind_ok _ _ _ _ _ Hrun), (bind_ok _ _ _ _ _ Hc), Hneg.
    unfold get_fallback. rewrite bind_gets. unfold ret, memory_readings.
    now rewrite HB2, HB.
  - repeat split; congruence.
Qed.

End WithoutGatewayWrites.

(** X14.  Without a store, what [createSensorReading] returns is what the
    next [getSensorReadings] returns first: the created reading goes to
    the front of the in-memory list, and a read with a positive limit
    returns that list cut at the limit. *)
Theorem create_then_read_without_store
    (E : Env.t) (v : InsertSensorReading.t) (fuel : nat) (limit : Z)
    (s : State) :
  gateway_available E s = false ->
  0 < limit ->
  exists r s1 rows s2,
    createSensorReading E v s = (Ok r, s1) /\
    carries_values r v /\
    getSensorReadings E (S fuel) limit s1 = (Ok rows, s2) /\
    rows = slice0 (r :: memory_readings s) limit /\
    head rows = Some r.
Proof.
  intros G L.
  destruct (createSensorReading_unavailable E v s G)
    as (r & s1 & Hc & Hv & _ & Hm & G1 & _).
  destruct (getSensorReadings_unavailable E fuel limit s1 G1)
    as (rows & s2 & Hr & Hrows & _ & _ & _ & _ & _ & Hm2).
  rewrite Hm in Hm2. cbn beta iota in Hm2. rewrite Hm2 in Hrows.
  exists r, s1, rows, s2. repeat split; try assumption; try apply Hv.
  subst rows. unfold slice0.
  destruct (limit <? 0) eqn:Hl; [apply Z.ltb_lt in Hl; lia|].
  destruct (Z.to_nat limit) eqn:Hn; [lia|reflexivity].
Qed.

Lemma create_then_read_without_store_witness :
  let E := Scenario.no_store in
  exists r s1 s2,
    createSensorReading E sample_values (Scenario.boot E) = (Ok r, s1) /\
    getSensorReadings E 1 50 s1 = (Ok [r], s2).
Proof.
  intros E.
  assert (G : gateway_available E (Scenario.boot E) = false)
    by (vm_compute; reflexivity).
  destruct (create_then_read_without_store E sample_values 0 50
              (Scenario.boot E) G ltac:(lia))
    as (r & s1 & rows & s2 & H1 & _ & H2 & H3 & _).
  exists r, s1, s2. split; [exact H1|].
  rewrite H2, H3. reflexivity.
Defined.

(** X15.  Without a store [getSensorReadingsByTimeRange] returns the whole
    in-memory list, whatever the interval asked for: the list is neither
    filtered by the interval nor sorted, no sample is made up when it is
    empty, and the reading the priming step fetched is not added to it. *)
Theorem time_range_without_store_returns_memory
    (E : Env.t) (start end_ : Z) (s : State) :
  gateway_available E s = false ->
  exists s',
    getSensorReadingsByTimeRange E start end_ s = (Ok (memory_readings s), s') /\
    fallbackData s' = fallbackData s /\
    tables s' = tables s /\
    dbOps s' = dbOps s.
Proof.
  intros G.
  destruct (getSensorReadingsByTimeRange_unavailable E start end_ s G)
    as (s' & H1 & H2 & H3 & H4 & _).
  exists s'. repeat split; assumption.
Qed.

Lemma time_range_without_store_returns_memory_witness :
  let E := Scenario.no_store in
  let s := snd (createSensorReading E sample_values (Scenario.boot E)) in
  exists r s',
    memory_readings s = [r] /\
    getSensorReadingsByTimeRange E 5 4 s = (Ok [r], s').
Proof.
  intros E s.
  assert (G : gateway_available E s = false) by (vm_compute; reflexivity).
  destruct (time_range_without_store_returns_memory E 5 4 s G)
    as (s' & H1 & _).
  assert (Hm : exists r, memory_readings s = [r])
    by (vm_compute; eexists; reflexivity).
  destruct Hm as (r & Hm). exists r, s'. split; [exact Hm|].
  rewrite <- Hm. exact H1.
Defined.

(* ===================================================================== *)
(** ** Settings and status: what is written is what is read *)
(* ===================================================================== *)

Section RoundTrips.
Variable E : Env.t.

Lemma db_select_alerts_ok s :
  Env.db_fails E (dbOps s) SelectAlerts = false ->
  db_select_alerts E s = (Ok (head (Tables.alertSettings (tables s))), next_dbOp s).
Proof.
  intros H. unfold db_select_alerts, bind, db_send, gets, ret. now rewrite H.
Qed.

Lemma getAlertSettings_connected s :
  gateway_connected s ->
  Env.db_fails E (dbOps s) SelectAlerts = false ->
  getAlertSettings E s =
    (Ok (default (AlertSettings.mk (Named "default") true true false)
                 (head (Tables.alertSettings (tables s)))),
     set_databaseAvailable true (next_dbOp s)).
Proof.
  intros G F. unfold getAlertSettings.
  rewrite (bind_ok _ _ _ _ _ (getDatabaseConnection_connected E s G)).
  cbn [negb orb]. unfold try_catch.
  rewrite (bind_ok _ _ _ _ _ (db_select_alerts_ok s F)).
  unfold setAvailable. rewrite bind_modify.
  destruct (head _); reflexivity.
Qed.

Lemma getAlertSettings_unavailable s :
  gateway_available E s = false ->
  exists s',
    getAlertSettings E s = (Ok (FallbackData.alertSettings (fallbackData s)), s') /\
    same_but_gateway s s' /\ gateway_available E s' = false.
Proof.
  intros G.
  destruct (getDatabaseConnection_unavailable E s G)
    as (db & av & s0 & Hc & _ & Hneg & G0 & HS).
  exists s0. split; [|split; assumption].
  unfold getAlertSettings. rewrite (bind_ok _ _ _ _ _ Hc), Hneg.
  unfold gets. now destruct HS as (_ & _ & -> & _).
Qed.

Lemma updateAlertSettings_connected n s :
  gateway_connected s ->
  alerts_accepted E (dbOps s) ->
  exists row s1,
    updateAlertSettings E n s = (Ok (Some row), s1) /\
    head (Tables.alertSettings (tables s1)) = Some row /\
    same_switches row n /\
    gateway_connected s1 /\
    (dbOps s <= dbOps s1)%nat.
Proof.
  intros G R.
  destruct (R (dbOps s) ltac:(lia)) as (HS & _).
  destruct (R (S (dbOps s)) ltac:(lia)) as (_ & HI & HU).
  unfold updateAlertSettings.
  rewrite (bind_ok _ _ _ _ _ (getDatabaseConnection_connected E s G)).
  cbn [negb orb]. unfold try_catch.
  rewrite (bind_ok _ _ _ _ _ (db_select_alerts_ok s HS)).
  destruct (Tables.alertSettings (tables s)) as [|cur rest] eqn:Rows; cbn [head].
  - unfold db_insert_alerts, bind, db_send, fresh_uuid, gets,
      put_alertSettings, modify, ret.
    cbn. rewrite HI. cbn. rewrite Rows. cbn.
    eexists _, _. split; [reflexivity|]. cbn.
    repeat split; try reflexivity; try apply G. lia.
  - unfold db_update_alerts, bind, db_send, gets, put_alertSettings, modify, ret.
    cbn. rewrite HU. cbn. rewrite Rows. cbn. rewrite ident_eqb_refl. cbn.
    eexists _, _. split; [reflexivity|]. cbn. rewrite ident_eqb_refl.
    repeat split; try reflexivity; try apply G. lia.
Qed.

Lemma updateAlertSettings_unavailable n s :
  gateway_available E s = false ->
  exists s1,
    updateAlertSettings E n s = (Ok (Some n), s1) /\
    FallbackData.alertSettings (fallbackData s1) = n /\
    gateway_available E s1 = false /\
    tables s1 = tables s /\ dbOps s1 = dbOps s.
Proof.
  intros G.
  destruct (getDatabaseConnection_unavailable E s G)
    as (db & av & s0 & Hc & _ & Hneg & G0 & _ & _ & _ & HT & HO & _).
  unfold updateAlertSettings. rewrite (bind_ok _ _ _ _ _ Hc), Hneg.
  unfold update_fallback_alerts, put_fallback_alertSettings.
  rewrite bind_modify. eexists. split; [reflexivity|].
  cbn. repeat split; assumption.
Qed.

Lemma alerts_accepted_mono k k' :
  (k <= k')%nat -> alerts_accepted E k -> alerts_accepted E k'.
Proof. intros L R j Hj. apply R. lia. Qed.

(** **** The status row *)

Lemma getSystemStatus_connected s :
  gateway_connected s ->
  Env.db_fails E (dbOps s) SelectStatus = false ->
  exists s',
    getSystemStatus E s =
      (Ok (default (SystemStatus.mk (Named "default") connected
                      (Env.clock E (ticks s)) 0
                      (23 # 1)%Q (30 # 1)%Q (26 # 1)%Q "3d 14h 22m")
                   (head (Tables.systemStatus (tables s)))), s').
Proof.
  intros G F. unfold getSystemStatus.
  rewrite (bind_ok _ _ _ _ _ (getDatabaseConnection_connected E s G)).
  cbn [negb orb]. unfold try_catch.
  rewrite (bind_ok _ _ _ _ _ (db_select_status_ok E s F)).
  unfold setAvailable. rewrite bind_modify.
  destruct (head _); cbn; eauto.
Qed.

Lemma getSystemStatus_unavailable s :
  gateway_available E s = false ->
  exists s',
    getSystemStatus E s = (Ok (FallbackData.systemStatus (fallbackData s)), s').
Proof.
  intros G.
  destruct (getDatabaseConnection_unavailable E s G)
    as (db & av & s0 & Hc & _ & Hneg & G0 & HS).
  exists s0.
  unfold getSystemStatus. rewrite (bind_ok _ _ _ _ _ Hc), Hneg.
  unfold gets. now destruct HS as (_ & _ & -> & _).
Qed.

Lemma carries_update_assign st u t : carries_update (assign_status st u t) u.
Proof.
  unfold carries_update, assign_status. cbn.
  repeat split; intros v ->; reflexivity.
Qed.

Lemma updateSystemStatus_connected u s :
  gateway_connected s ->
  recount_accepted E (dbOps s) ->
  exists row s1,
    updateSystemStatus E u s = (Ok (Some row), s1) /\
    head (Tables.systemStatus (tables s1)) = Some row /\
    carries_update row u /\
    gateway_connected s1 /\
    (dbOps s <= dbOps s1)%nat.
Proof.
  intros G R.
  destruct (R (dbOps s) ltac:(lia)) as (_ & HS & _).
  destruct (R (S (dbOps s)) ltac:(lia)) as (_ & _ & HI & HU).
  unfold updateSystemStatus.
  rewrite (bind_ok _ _ _ _ _ (getDatabaseConnection_connected E s G)).
  cbn [negb orb]. unfold try_catch.
  rewrite (bind_ok _ _ _ _ _ (db_select_status_ok E s HS)).
  destruct (Tables.systemStatus (tables s)) as [|cur rest] eqn:Rows; cbn [head].
  - unfold db_insert_status, bind, db_send, fresh_uuid, date_now, gets,
      put_systemStatus, modify, ret.
    cbn. rewrite HI. cbn. rewrite Rows. cbn.
    eexists _, _. split; [reflexivity|]. cbn.
    split; [reflexivity|]. split; [|split; [exact G|lia]].
    unfold carries_update. cbn. repeat split; intros v ->; reflexivity.
  - unfold db_update_status, bind, db_send, date_now, gets,
      put_systemStatus, modify, ret.
    cbn -[assign_status]. rewrite HU. cbn -[assign_status].
    rewrite Rows. cbn -[assign_status]. rewrite ident_eqb_refl.
    cbn -[assign_status].
    eexists _, _. split; [reflexivity|]. cbn -[assign_status].
    rewrite ident_eqb_refl.
    split; [reflexivity|]. split; [apply carries_update_assign|].
    split; [exact G|lia].
Qed.

Lemma carries_update_text st u : carries_update st u -> carries_text st u.
Proof. intros (_ & H1 & _ & _ & _ & _ & H2). now split. Qed.

Lemma updateSystemStatus_unavailable u s :
  gateway_available E s = false ->
  exists st s1,
    updateSystemStatus E u s = (Ok (Some st), s1) /\
    FallbackData.systemStatus (fallbackData s1) = st /\
    carries_update st u /\
    SystemStatus.lastUpdate st = Env.clock E (ticks s) /\
    gateway_available E s1 = false /\
    tables s1 = tables s /\ dbOps s1 = dbOps s.
Proof.
  intros G.
  destruct (getDatabaseConnection_unavailable E s G)
    as (db & av & s0 & Hc & _ & Hneg & G0 & _ & _ & _ & HT & HO & _ & HK).
  unfold updateSystemStatus. rewrite (bind_ok _ _ _ _ _ Hc), Hneg.
  unfold update_fallback_status, get_fallback, put_fallback_systemStatus.
  rewrite bind_date_now, bind_gets, bind_modify.
  eexists _, _. split; [reflexivity|].
  cbn -[assign_status]. rewrite HK.
  split; [reflexivity|]. split; [apply carries_update_assign|].
  split; [reflexivity|]. repeat split; assumption.
Qed.

End RoundTrips.

(** X16.  Alert settings, written then read: when the statements on the
    settings row are accepted, what [getAlertSettings] returns right after
    [updateAlertSettings] has the three switches that were submitted.
    This holds with a store (the row is created if there is none, updated
    otherwise) and without one (the in-memory object is replaced). *)
Theorem alert_settings_written_then_read
    (E : Env.t) (n : AlertSettings.t) (s : State) :
  alerts_accepted E (dbOps s) ->
  exists w s1 a s2,
    updateAlertSettings E n s = (Ok (Some w), s1) /\
    same_switches w n /\
    getAlertSettings E s1 = (Ok a, s2) /\
    same_switches a n.
Proof.
  intros R.
  destruct (gateway_available E s) eqn:G.
  - destruct (getDatabaseConnection_available E s G)
      as (s0 & Hc & G0 & _ & _ & _ & HT & HO & _).
    assert (R0 : alerts_accepted E (dbOps s0)) by now rewrite HO.
    destruct (updateAlertSettings_connected E n s0 G0 R0)
      as (row & s1 & Hu & Hh & Hsw & G1 & Hle).
    assert (Hu' : updateAlertSettings E n s = (Ok (Some row), s1)).
    { revert Hu. unfold updateAlertSettings.
      rewrite (bind_ok _ _ _ _ _ Hc).
      now rewrite (bind_ok _ _ _ _ _ (getDatabaseConnection_connected E s0 G0)). }
    destruct (R0 (dbOps s1) Hle) as (HS1 & _).
    exists row, s1. eexists _, _. split; [exact Hu'|]. split; [exact Hsw|].
    split; [apply getAlertSettings_connected; assumption|].
    rewrite Hh. exact Hsw.
  - destruct (updateAlertSettings_unavailable E n s G)
      as (s1 & Hu & Hf & G1 & _).
    destruct (getAlertSettings_unavailable E s1 G1) as (s2 & Hg & _).
    exists n, s1, n, s2. rewrite Hf in Hg.
    repeat split; assumption.
Qed.

Lemma alert_settings_written_then_read_witness :
  let E := Scenario.healthy "production" in
  let n := AlertSettings.mk (Named "from-client") false false true in
  exists w s1 a s2,
    updateAlertSettings E n (Scenario.boot E) = (Ok (Some w), s1) /\
    getAlertSettings E s1 = (Ok a, s2) /\
    same_switches a n.
Proof.
  intros E n.
  assert (R : alerts_accepted E (dbOps (Scenario.boot E)))
    by (intros j _; repeat split; reflexivity).
  destruct (alert_settings_written_then_read E n (Scenario.boot E) R)
    as (w & s1 & a & s2 & H1 & _ & H2 & H3).
  exists w, s1, a, s2. split; [exact H1|]. split; [exact H2|exact H3].
Defined.

(** X17.  A settings update can be lost.  With the gateway connected and
    a settings row in the store, if the query that opens
    [updateAlertSettings] is rejected, the method still returns the
    submitted settings (they went to the in-memory object); the next
    [getAlertSettings], its query being accepted, returns the stored row
    as it was before the update. *)
Theorem alert_settings_update_lost_after_rejected_query
    (E : Env.t) (n old : AlertSettings.t) (s : State) :
  gateway_connected s ->
  head (Tables.alertSettings (tables s)) = Some old ->
  Env.db_fails E (dbOps s) SelectAlerts = true ->
  Env.db_fails E (S (dbOps s)) SelectAlerts = false ->
  exists s1 s2,
    updateAlertSettings E n s = (Ok (Some n), s1) /\
    tables s1 = tables s /\
    getAlertSettings E s1 = (Ok old, s2).
Proof.
  intros G Hold F1 F2.
  eexists _, _. split; [|split].
  - unfold updateAlertSettings.
    rewrite (bind_ok _ _ _ _ _ (getDatabaseConnection_connected E s G)).
    cbn [negb orb].
    rewrite (try_throw _ _ _ _ _
               (bind_throw _ _ _ _ _ (db_select_alerts_fails E s F1))).
    unfold setAvailable, update_fallback_alerts, put_fallback_alertSettings.
    rewrite !bind_modify. reflexivity.
  - reflexivity.
  - rewrite getAlertSettings_connected; [|exact G|exact F2].
    cbn. rewrite Hold. reflexivity.
Qed.

(** X18.  System status, written then read: when the statements on the
    status row are accepted, what [getSystemStatus] returns right after
    [updateSystemStatus] is the very status the update returned, and it
    has the connectionStatus and the uptime that were submitted.  Without
    a store (the gateway is unavailable) it has every property that was
    submitted, the timestamp lastUpdate apart, which is the time of the
    update. *)
Theorem system_status_written_then_read
    (E : Env.t) (u : PartialSystemStatus.t) (s : State) :
  recount_accepted E (dbOps s) ->
  exists w s1 st s2,
    updateSystemStatus E u s = (Ok (Some w), s1) /\
    getSystemStatus E s1 = (Ok st, s2) /\
    st = w /\
    carries_text st u /\
    (gateway_available E s = false ->
     carries_update st u /\
     SystemStatus.lastUpdate st = Env.clock E (ticks s)).
Proof.
  intros R.
  destruct (gateway_available E s) eqn:G.
  - destruct (getDatabaseConnection_available E s G)
      as (s0 & Hc & G0 & _ & _ & _ & HT & HO & _).
    assert (R0 : recount_accepted E (dbOps s0)) by now rewrite HO.
    destruct (updateSystemStatus_connected E u s0 G0 R0)
      as (row & s1 & Hu & Hh & Hcu & G1 & Hle).
    assert (Hu' : updateSystemStatus E u s = (Ok (Some row), s1)).
    { revert Hu. unfold updateSystemStatus.
      rewrite (bind_ok _ _ _ _ _ Hc).
      now rewrite (bind_ok _ _ _ _ _ (getDatabaseConnection_connected E s0 G0)). }
    destruct (R0 (dbOps s1) Hle) as (_ & HS1 & _).
    destruct (getSystemStatus_connected E s1 G1 HS1) as (s2 & Hg).
    rewrite Hh in Hg. cbn [default] in Hg.
    exists row, s1, row, s2.
    split; [exact Hu'|]. split; [exact Hg|]. split; [reflexivity|].
    split; [now apply carries_update_text|discriminate].
  - destruct (updateSystemStatus_unavailable E u s G)
      as (st & s1 & Hu & Hf & Hcu & Ht & G1 & _).
    destruct (getSystemStatus_unavailable E s1 G1) as (s2 & Hg).
    rewrite Hf in Hg.
    exists st, s1, st, s2.
    split; [exact Hu|]. split; [exact Hg|]. split; [reflexivity|].
    split; [now apply carries_update_text|]. intros _. now split.
Qed.

Lemma system_status_written_then_read_witness :
  let E := Scenario.healthy "production" in
  let u := PartialSystemStatus.mk None (Some error) None (Some 7) None None
             None (Some "up") in
  exists st s1 s2,
    updateSystemStatus E u (Scenario.boot E) = (Ok (Some st), s1) /\
    getSystemStatus E s1 = (Ok st, s2) /\
    SystemStatus.connectionStatus st = error /\
    SystemStatus.uptime st = "up".
Proof.
  intros E u.
  assert (R : recount_accepted E (dbOps (Scenario.boot E)))
    by (intros j _; repeat split; reflexivity).
  destruct (system_status_written_then_read E u (Scenario.boot E) R)
    as (w & s1 & st & s2 & H1 & H2 & H3 & (H4 & H5) & _).
  subst w. exists st, s1, s2.
  split; [exact H1|]. split; [exact H2|].
  split; [now apply H4|now apply H5].
Defined.

Lemma alert_settings_update_lost_after_rejected_query_witness :
  let E := Scenario.hiccup in
  let n := AlertSettings.mk (Named "from-client") false false true in
  exists old s1 s2,
    updateAlertSettings E n (Scenario.boot E) = (Ok (Some n), s1) /\
    getAlertSettings E s1 = (Ok old, s2) /\
    AlertSettings.temperatureAlerts old = true /\
    AlertSettings.tdsLevelAlerts old = false.
Proof.
  intros E n.
  destruct (alert_settings_update_lost_after_rejected_query E n
              (AlertSettings.mk (Uuid 1) true true false) (Scenario.boot E)
              (conj eq_refl eq_refl) eq_refl eq_refl eq_refl)
    as (s1 & s2 & H1 & _ & H2).
  eexists _, s1, s2. split; [exact H1|]. split; [exact H2|].
  split; reflexivity.
Defined.

(* ===================================================================== *)
(** ** Reads inside the freshness window *)
(* ===================================================================== *)

#[global] Instance newest_first_total : Total newest_first.
Proof. intros a b. unfold newest_first. lia. Qed.

#[global] Instance newest_first_trans : Transitive newest_first.
Proof. intros a b c. unfold newest_first. lia. Qed.

Section Window.
Variable E : Env.t.

Lemma newest_first_head (rows : list SensorReading.t) row :
  head (merge_sort newest_first rows) = Some row ->
  row ∈ rows /\
  forall x, x ∈ rows -> SensorReading.timestamp x <= SensorReading.timestamp row.
Proof.
  intros H.
  pose proof (merge_sort_Permutation newest_first rows) as HP.
  pose proof (Sorted_merge_sort newest_first rows) as HS.
  apply Sorted_StronglySorted in HS; [|typeclasses eauto].
  destruct (merge_sort newest_first rows) as [|y l]; [discriminate|].
  injection H as ->.
  split.
  - rewrite <- HP. left.
  - intros x Hx. rewrite <- HP in Hx.
    apply StronglySorted_inv in HS as (_ & HF).
    apply elem_of_cons in Hx as [->|Hx]; [lia|].
    rewrite Forall_forall in HF. exact (HF x Hx).
Qed.

Lemma head_take_1 {A} (l : list A) : head (take 1 l) = head l.
Proof. destruct l; reflexivity. Qed.

(** The priming step inside the window, on a store that answers. *)
Lemma fetchFromExternalDatabase_cached s :
  served_from_cache E s = true ->
  exists row s1,
    fetchFromExternalDatabase E s = (Ok (Some row), s1) /\
    head (merge_sort newest_first (stored_readings s)) = Some row /\
    gateway_connected s1 /\
    lastExternalFetchTime s1 = lastExternalFetchTime s /\
    databaseAvailable s1 = databaseAvailable s /\
    fallbackData s1 = fallbackData s /\
    tables s1 = tables s /\
    dbOps s1 = S (dbOps s) /\
    netCalls s1 = netCalls s.
Proof.
  unfold served_from_cache. intros H.
  apply andb_true_iff in H as (H & Hrows).
  apply andb_true_iff in H as (H & HF).
  apply andb_true_iff in H as (G & HW).
  apply negb_true_iff in HF.
  destruct (getDatabaseConnection_available E (next_tick s) G)
    as (s0 & Hc & G0 & HL & HA & HB & HT & HO & HN & _).
  cbn in HL, HA, HB, HT, HO, HN.
  unfold fetchFromExternalDatabase.
  rewrite bind_date_now, (bind_ok _ _ _ _ _ Hc).
  unfold bind. rewrite read_cached_run. cbn [andb].
  rewrite HL, HW, HO, HF, HT.
  destruct (head (take 1 (merge_sort newest_first
                            (Tables.sensorReadings (tables s))))) as [row|] eqn:Hh.
  - exists row, (next_dbOp s0). split; [reflexivity|].
    rewrite head_take_1 in Hh. cbn.
    repeat split; try assumption; try apply G0. now rewrite HO.
  - apply head_newest_nil in Hh. rewrite Hh in Hrows. discriminate.
Qed.

End Window.

(** X19.  Inside the freshness window, with the gateway available and the
    query accepted on a store that holds readings, the priming step of a
    read answers from the store alone: it returns a stored reading of the
    latest timestamp, makes no request, inserts nothing and leaves the
    freshness timestamp, the flag and the in-memory data as they were. *)
Theorem cache_hit_returns_newest_stored (E : Env.t) (s : State) :
  served_from_cache E s = true ->
  exists row s1,
    fetchFromExternalDatabase E s = (Ok (Some row), s1) /\
    row ∈ stored_readings s /\
    (forall x, x ∈ stored_readings s ->
               SensorReading.timestamp x <= SensorReading.timestamp row) /\
    tables s1 = tables s /\
    netCalls s1 = netCalls s /\
    lastExternalFetchTime s1 = lastExternalFetchTime s /\
    databaseAvailable s1 = databaseAvailable s /\
    fallbackData s1 = fallbackData s.
Proof.
  intros H.
  destruct (fetchFromExternalDatabase_cached E s H)
    as (row & s1 & Hrun & Hh & _ & HL & HA & HB & HT & _ & HN).
  destruct (newest_first_head _ _ Hh) as (Hin & Hmax).
  exists row, s1. repeat split; assumption.
Qed.

Lemma cache_hit_returns_newest_stored_witness :
  let E := Scenario.healthy "production" in
  let s := snd (fetchFromExternalDatabase E (Scenario.boot E)) in
  exists row s1,
    fetchFromExternalDatabase E s = (Ok (Some row), s1) /\
    stored_readings s = [row] /\
    netCalls s1 = netCalls s.
Proof.
  intros E s.
  assert (H : served_from_cache E s = true) by (vm_compute; reflexivity).
  destruct (cache_hit_returns_newest_stored E s H)
    as (row & s1 & H1 & H2 & _ & _ & H3 & _).
  exists row, s1. split; [exact H1|]. split; [|exact H3].
  assert (Hs : exists r0, stored_readings s = [r0])
    by (vm_compute; eexists; reflexivity).
  destruct Hs as (r0 & Hs). rewrite Hs in H2 |- *.
  apply list_elem_of_singleton in H2. now subst.
Defined.

Section LiveQuery.
Variable E : Env.t.

(** The [try] block of [getSensorReadings] on a store that answers with at
    least one row. *)
Lemma query_readings_rows limit s :
  gateway_connected s ->
  Env.db_fails E (dbOps s) SelectReadings = false ->
  0 < limit ->
  stored_readings s <> [] ->
  query_readings E limit s =
    (Ok (take (Z.to_nat limit) (merge_sort newest_first (stored_readings s))),
     set_databaseAvailable true (next_dbOp s)).
Proof.
  intros G HS L Hne. unfold query_readings.
  rewrite (bind_ok _ _ _ _ _ (getDatabaseConnection_connected E s G)).
  cbn [negb orb].
  rewrite (bind_ok _ _ _ _ _ (db_select_readings_ok E limit s HS)).
  rewrite sql_limit_nonneg by lia.
  unfold setAvailable. rewrite bind_modify. fold (stored_readings s).
  pose proof (merge_sort_Permutation newest_first (stored_readings s)) as HP.
  destruct (merge_sort newest_first (stored_readings s)) as [|x l] eqn:Hm.
  - apply Permutation_nil_l in HP. congruence.
  - destruct (Z.to_nat limit) eqn:Hn; [lia|]. reflexivity.
Qed.

(** The same block when the query comes back empty because the limit is
    zero. *)
Lemma query_readings_zero_dev s :
  gateway_connected s ->
  Env.db_fails E (dbOps s) SelectReadings = false ->
  Env.db_fails E (S (dbOps s)) InsertReading = false ->
  is_development E = true ->
  exists seed s',
    query_readings E 0 s = (Ok [seed], s') /\
    stored_readings s' = (stored_readings s ++ [seed])%list /\
    is_sample seed.
Proof.
  intros G HS HI HD. unfold query_readings.
  rewrite (bind_ok _ _ _ _ _ (getDatabaseConnection_connected E s G)).
  cbn [negb orb].
  rewrite (bind_ok _ _ _ _ _ (db_select_readings_ok E 0 s HS)).
  rewrite sql_limit_nonneg by lia.
  change (Z.to_nat 0) with 0%nat. rewrite take_0.
  unfold setAvailable. rewrite bind_modify, HD.
  erewrite bind_ok by (apply db_insert_reading_ok; exact HI).
  eexists _, _. split; [reflexivity|]. cbn.
  repeat split; reflexivity.
Qed.

Lemma query_readings_zero_prod s :
  gateway_connected s ->
  Env.db_fails E (dbOps s) SelectReadings = false ->
  is_development E = false ->
  exists synth s',
    query_readings E 0 s = (Ok [synth], s') /\
    tables s' = tables s /\
    memory_readings s' = [synth] /\
    is_sample synth.
Proof.
  intros G HS HD. unfold query_readings.
  rewrite (bind_ok _ _ _ _ _ (getDatabaseConnection_connected E s G)).
  cbn [negb orb].
  rewrite (bind_ok _ _ _ _ _ (db_select_readings_ok E 0 s HS)).
  rewrite sql_limit_nonneg by lia.
  change (Z.to_nat 0) with 0%nat. rewrite take_0.
  unfold setAvailable. rewrite bind_modify, HD.
  unfold in_memory_reading, put_fallback_sensorReadings, bind, date_now,
    modify, ret. cbn.
  eexists _, _. split; [reflexivity|]. cbn. repeat split; reflexivity.
Qed.

End LiveQuery.

(** X20.  A read inside the freshness window is a read of the store and
    nothing else.  With the flag LIVE, the gateway available, the two
    queries accepted and a positive limit, [getSensorReadings] returns the
    stored readings of the latest timestamps, newest first, [limit] of
    them at most: the result followed by the readings left out is the
    whole table sorted by descending timestamp.  No request is made and
    nothing is written. *)
Theorem read_inside_window_returns_newest
    (E : Env.t) (fuel : nat) (limit : Z) (s : State) :
  served_from_cache E s = true ->
  databaseAvailable s = true ->
  Env.db_fails E (S (dbOps s)) SelectReadings = false ->
  0 < limit ->
  exists rows rest s',
    getSensorReadings E (S fuel) limit s = (Ok rows, s') /\
    (rows ++ rest)%list ≡ₚ stored_readings s /\
    Sorted newest_first (rows ++ rest)%list /\
    length rows = Nat.min (Z.to_nat limit) (length (stored_readings s)) /\
    tables s' = tables s /\
    fallbackData s' = fallbackData s /\
    netCalls s' = netCalls s.
Proof.
  intros H HA HS L.
  destruct (fetchFromExternalDatabase_cached E s H)
    as (row & s1 & Hrun & Hh & G1 & HL1 & HA1 & HB1 & HT1 & HO1 & HN1).
  assert (Hst : stored_readings s1 = stored_readings s)
    by (unfold stored_readings; now rewrite HT1).
  assert (Hne : stored_readings s1 <> []).
  { rewrite Hst. intros Hnil. rewrite Hnil in Hh. discriminate. }
  rewrite <- HO1 in HS.
  pose proof (query_readings_rows E limit s1 G1 HS L Hne) as Hq.
  set (sorted := merge_sort newest_first (stored_readings s1)) in *.
  exists (take (Z.to_nat limit) sorted), (drop (Z.to_nat limit) sorted).
  eexists. split; [|split; [|split; [|split]]].
  - cbn [getSensorReadings].
    rewrite (bind_ok _ _ _ _ _ Hrun), bind_gets, HA1, HA. cbn [negb].
    apply try_ok. exact Hq.
  - rewrite take_drop. unfold sorted. rewrite <- Hst.
    apply merge_sort_Permutation.
  - rewrite take_drop. apply Sorted_merge_sort. typeclasses eauto.
  - rewrite length_take. f_equal. unfold sorted. rewrite <- Hst.
    apply Permutation_length, merge_sort_Permutation.
  - cbn. repeat split; assumption.
Qed.

Lemma read_inside_window_returns_newest_witness :
  let E := Scenario.healthy "production" in
  let s := snd (fetchFromExternalDatabase E (Scenario.boot E)) in
  exists rows s',
    getSensorReadings E 1 50 s = (Ok rows, s') /\
    rows ≡ₚ stored_readings s /\
    netCalls s' = netCalls s.
Proof.
  intros E s.
  assert (H : served_from_cache E s = true) by (vm_compute; reflexivity).
  assert (HA : databaseAvailable s = true) by (vm_compute; reflexivity).
  destruct (read_inside_window_returns_newest E 0 50 s H HA eq_refl ltac:(lia))
    as (rows & rest & s' & H1 & H2 & _ & H3 & _ & _ & H4).
  exists rows, s'. split; [exact H1|]. split; [|exact H4].
  assert (Hl : length (stored_readings s) = 1%nat) by (vm_compute; reflexivity).
  rewrite Hl in H3. change (Z.to_nat 50) with 50%nat in H3. cbn in H3.
  assert (Hrest : rest = []).
  { apply Permutation_length in H2. rewrite length_app, Hl, H3 in H2.
    destruct rest; [reflexivity|cbn in H2; lia]. }
  subst rest. now rewrite app_nil_r in H2.
Defined.

(** X21.  A limit of zero does not give an empty result.  A
    [getSensorReadings] call that reaches its query in the LIVE state with
    limit 0 gets no row back, whatever the store holds (the store answers
    [limit(0)] as SQL answers LIMIT 0), and takes the branch of the empty
    store: in development it inserts a sample reading (25.5 / 6.8 / 450)
    after the stored ones and returns it; otherwise it returns a sample
    made up in memory, which replaces the in-memory list. *)
Theorem zero_limit_read_returns_a_sample
    (E : Env.t) (fuel : nat) (s s1 : State)
    (r1 : Result (option SensorReading.t)) :
  fetchFromExternalDatabase E s = (r1, s1) ->
  databaseAvailable s1 = true ->
  gateway_connected s1 ->
  Env.db_fails E (dbOps s1) SelectReadings = false ->
  (is_development E = true ->
   Env.db_fails E (S (dbOps s1)) InsertReading = false ->
   exists seed s2,
     getSensorReadings E (S fuel) 0 s = (Ok [seed], s2) /\
     stored_readings s2 = (stored_readings s1 ++ [seed])%list /\
     is_sample seed) /\
  (is_development E = false ->
   exists synth s2,
     getSensorReadings E (S fuel) 0 s = (Ok [synth], s2) /\
     tables s2 = tables s1 /\
     memory_readings s2 = [synth] /\
     is_sample synth).
Proof.
  intros Hrun HA G HS.
  destruct (fetch_returns E s r1 s1 Hrun) as (a & ->).
  assert (Hunfold :
            getSensorReadings E (S fuel) 0 s =
              try_catch (query_readings E 0)
                (fun _ => bind (setAvailable false)
                            (fun _ => getSensorReadings E fuel 0)) s1).
  { cbn [getSensorReadings].
    rewrite (bind_ok _ _ _ _ _ Hrun).
    rewrite bind_gets. now rewrite HA. }
  split.
  - intros HD HI.
    destruct (query_readings_zero_dev E s1 G HS HI HD)
      as (seed & s2 & Hq & Hrows & Hval).
    exists seed, s2. rewrite Hunfold.
    rewrite (try_ok _ _ _ _ _ Hq). auto.
  - intros HD.
    destruct (query_readings_zero_prod E s1 G HS HD)
      as (synth & s2 & Hq & Htb & Hm & Hval).
    exists synth, s2. rewrite Hunfold.
    rewrite (try_ok _ _ _ _ _ Hq). auto.
Qed.

Lemma zero_limit_read_returns_a_sample_witness :
  let E := Scenario.healthy "development" in
  let s := snd (fetchFromExternalDatabase E (Scenario.boot E)) in
  exists stored seed s2,
    stored_readings s = [stored] /\
    getSensorReadings E 1 0 s = (Ok [seed], s2) /\
    stored_readings s2 = [stored; seed] /\
    is_sample seed.
Proof.
  intros E s.
  pose (s1 := snd (fetchFromExternalDatabase E s)).
  pose (r1 := fst (fetchFromExternalDatabase E s)).
  assert (Hrun : fetchFromExternalDatabase E s = (r1, s1))
    by (vm_compute; reflexivity).
  assert (HA : databaseAvailable s1 = true) by (vm_compute; reflexivity).
  assert (HG : gateway_connected s1) by (vm_compute; split; reflexivity).
  assert (HS : Env.db_fails E (dbOps s1) SelectReadings = false)
    by (vm_compute; reflexivity).
  destruct (zero_limit_read_returns_a_sample E 0 s s1 r1 Hrun HA HG HS)
    as (Hdev & _).
  destruct (Hdev ltac:(vm_compute; reflexivity) ltac:(vm_compute; reflexivity))
    as (seed & s2 & H1 & H2 & H3).
  assert (Hs : exists r0, stored_readings s = [r0] /\ stored_readings s1 = [r0])
    by (vm_compute; eexists; split; reflexivity).
  destruct Hs as (r0 & Hs & Hs1).
  exists r0, seed, s2. rewrite Hs1 in H2.
  split; [exact Hs|]. split; [exact H1|]. split; [exact H2|exact H3].
Defined.

(* ===================================================================== *)
(** ** From the upstream answer to the stored row *)
(* ===================================================================== *)

Section Persist.
Variable E : Env.t.

Lemma updateSystemStatus_frame u s :
  let s' := snd (updateSystemStatus E u s) in
  lastExternalFetchTime s' = lastExternalFetchTime s /\
  netCalls s' = netCalls s /\
  stored_readings s' = stored_readings s /\
  memory_readings s' = memory_readings s.
Proof.
  assert (K1 : keeps (fun st => lastExternalFetchTime st = lastExternalFetchTime s)
                 (updateSystemStatus E u)) by keeps_frame.
  assert (K2 : keeps (fun st => netCalls st = netCalls s)
                 (updateSystemStatus E u)) by keeps_frame.
  pose proof (updateSystemStatus_keeps_readings E (stored_readings s)
                (memory_readings s) u s (conj eq_refl eq_refl)) as (K3 & K4).
  specialize (K1 s eq_refl). specialize (K2 s eq_refl).
  cbn beta zeta in *. repeat split; assumption.
Qed.

(** The second block of the priming step, when the external service gives
    a reading and the store takes it. *)
Lemma fetch_external_persists now s x s1 :
  gateway_connected s ->
  fetchLatestReading E s = (Ok (Some x), s1) ->
  inserts_accepted E (dbOps s) ->
  recount_accepted E (dbOps s) ->
  exists row s',
    fetch_external E true true now s = (Ok (Some row), s') /\
    stored_readings s' = (stored_readings s ++ [row])%list /\
    SensorReading.temperature row = ExternalDatabaseReading.temperature x /\
    SensorReading.ph row = ExternalDatabaseReading.ph x /\
    SensorReading.tdsLevel row = ExternalDatabaseReading.tdsLevel x /\
    lastExternalFetchTime s' = now /\
    netCalls s' = S (netCalls s) /\
    databaseAvailable s' = true /\
    memory_readings s' = memory_readings s /\
    gateway_connected s'.
Proof.
  intros G Hx I R.
  destruct (fetchLatestReading_run_frame E s)
    as (ext & s1' & Hext & HN & _ & _ & HB & HD & HDA & HT & HO).
  rewrite Hx in Hext. injection Hext as <- <-.
  set (v := InsertSensorReading.mk (ExternalDatabaseReading.temperature x)
              (ExternalDatabaseReading.ph x) (ExternalDatabaseReading.tdsLevel x)).
  set (s2 := set_lastExternalFetchTime now s1).
  set (s3 := set_databaseAvailable true (after_insert_reading E v s2)).
  set (cnt := Z.of_nat (length (Tables.sensorReadings (tables s3)))).
  assert (HI : Env.db_fails E (dbOps s2) InsertReading = false)
    by (apply I; unfold s2; cbn; lia).
  assert (R3 : recount_accepted E (dbOps (next_dbOp s3)))
    by (apply (recount_accepted_mono E (dbOps s)); [unfold s3, s2; cbn; lia|exact R]).
  assert (HC : Env.db_fails E (dbOps s3) CountReadings = false)
    by (apply R; unfold s3, s2; cbn; lia).
  assert (G3 : gateway_connected (next_dbOp s3)).
  { destruct G as (G1 & G2). split; cbn; congruence. }
  destruct (updateSystemStatus_recount_flag E cnt (next_dbOp s3) G3 R3)
    as (HA & G4).
  destruct (updateSystemStatus_frame (PartialSystemStatus.only_dataPoints cnt)
              (next_dbOp s3)) as (HL4 & HN4 & HS4 & HM4).
  destruct (total_updateSystemStatus E (PartialSystemStatus.only_dataPoints cnt)
              (next_dbOp s3)) as (u & s4 & Hu).
  rewrite Hu in HA, G4, HL4, HN4, HS4, HM4.
  cbn [snd] in HA, G4, HL4, HN4, HS4, HM4.
  assert (Hst : store_external E true true v s2 =
                  (Ok (Some (inserted_row E v s2)), s4)).
  { unfold store_external. cbn [andb]. apply try_ok.
    rewrite (bind_ok _ _ _ _ _ (db_insert_reading_ok E v s2 HI)).
    unfold setAvailable. rewrite bind_modify. fold s3.
    rewrite (bind_ok _ _ _ _ _ (db_count_readings_ok E s3 HC)). fold cnt.
    rewrite (bind_ok _ _ _ _ _ Hu). reflexivity. }
  exists (inserted_row E v s2), s4. split.
  - unfold fetch_external. apply try_ok.
    rewrite (bind_ok _ _ _ _ _ Hx), bind_modify. fold v s2.
    rewrite (bind_ok _ _ _ _ _ Hst). reflexivity.
  - rewrite HS4, HL4, HN4, HA, HM4.
    unfold stored_readings, memory_readings. cbn.
    rewrite HT, HB, HN. repeat split; try reflexivity; apply G4.
Qed.

Lemma fetchFromExternalDatabase_persists s :
  served_from_cache E s = false ->
  gateway_available E s = true ->
  inserts_accepted E (dbOps s) ->
  recount_accepted E (dbOps s) ->
  exists s0,
    gateway_connected s0 /\
    netCalls s0 = netCalls s /\
    (ticks s < ticks s0)%nat /\
    forall x s1,
      fetchLatestReading E s0 = (Ok (Some x), s1) ->
      exists row s',
        fetchFromExternalDatabase E s = (Ok (Some row), s') /\
        stored_readings s' = (stored_readings s ++ [row])%list /\
        SensorReading.temperature row = ExternalDatabaseReading.temperature x /\
        SensorReading.ph row = ExternalDatabaseReading.ph x /\
        SensorReading.tdsLevel row = ExternalDatabaseReading.tdsLevel x /\
        lastExternalFetchTime s' = Env.clock E (ticks s) /\
        netCalls s' = S (netCalls s) /\
        databaseAvailable s' = true /\
        memory_readings s' = memory_readings s.
Proof.
  intros Hc G I R.
  destruct (getDatabaseConnection_available E (next_tick s) G)
    as (s0 & Hconn & G0 & HL & HA & HB & HT & HO & HN & HK).
  cbn in HL, HA, HB, HT, HO, HN, HK.
  assert (Hcase : exists sx,
             read_cached E true true (Env.clock E (ticks s)) s0 = (Ok None, sx) /\
             gateway_connected sx /\ netCalls sx = netCalls s /\
             ticks sx = S (ticks s) /\
             tables sx = tables s /\ fallbackData sx = fallbackData s /\
             (dbOps s <= dbOps sx)%nat).
  { rewrite read_cached_run. cbn [andb]. rewrite HL, HO, HT.
    unfold served_from_cache in Hc. rewrite G in Hc. cbn [andb] in Hc.
    destruct (_ <? cacheTimeout); cbn [andb] in Hc.
    - destruct (Env.db_fails E (dbOps s) SelectLatest); cbn [negb andb] in Hc.
      + eexists. split; [reflexivity|]. cbn.
        repeat split; try assumption; try apply G0. lia.
      + destruct (Tables.sensorReadings (tables s)) as [|y l] eqn:Rows;
          [|discriminate].
        eexists. split; [reflexivity|]. cbn.
        repeat split; try assumption; try apply G0. lia.
    - eexists. split; [reflexivity|].
      repeat split; try assumption; try apply G0. lia. }
  destruct Hcase as (sx & Hrc & Gx & HNx & HKx & HTx & HBx & HOx).
  exists sx. split; [exact Gx|]. split; [exact HNx|]. split; [lia|].
  intros x s1 Hx.
  destruct (fetch_external_persists (Env.clock E (ticks s)) sx x s1 Gx Hx)
    as (row & s' & Hf & H1 & H2 & H3 & H4 & H5 & H6 & H7 & H8 & _).
  { intros j Hj. apply I. lia. }
  { apply (recount_accepted_mono E (dbOps s)); assumption. }
  exists row, s'. split.
  - unfold fetchFromExternalDatabase.
    rewrite bind_date_now, (bind_ok _ _ _ _ _ Hconn).
    rewrite (bind_ok _ _ _ _ _ Hrc). exact Hf.
  - unfold stored_readings, memory_readings in *.
    rewrite H1, H8, HTx, HBx, H6, HNx. repeat split; assumption.
Qed.

End Persist.

(** X22.  From the upstream answer to the stored row.  Outside the cache
    (window elapsed, or nothing stored yet), with the gateway available
    and the statements accepted, an upstream answer that passes the checks
    of the fetcher ends as one new stored row: the priming step appends
    exactly one reading to the stored ones and returns it; its three
    values are the decoded ones, adapted (a missing, NaN or zero value is
    0, tdsLevel falls back on ec); the freshness window starts at the
    time the step began, and the flag is LIVE. *)
Theorem upstream_answer_becomes_stored_row
    (E : Env.t) (s : State) (resp : Response.t) (data ev dc : JsValue)
    (d : Decoded.t) :
  served_from_cache E s = false ->
  gateway_available E s = true ->
  inserts_accepted E (dbOps s) ->
  recount_accepted E (dbOps s) ->
  Env.net E (netCalls s) = Responded resp ->
  Response.ok resp = true ->
  declares_json resp = true ->
  Response.json resp = Some data ->
  device_code_of data = Ok dc ->
  encoded_data_of data = Ok ev ->
  truthy ev = true ->
  decodeHexData ev dc = Ok (Some d) ->
  exists row s',
    fetchFromExternalDatabase E s = (Ok (Some row), s') /\
    stored_readings s' = (stored_readings s ++ [row])%list /\
    SensorReading.temperature row = num_or (Decoded.temperature d) 0 /\
    SensorReading.ph row = num_or (Decoded.ph d) 0 /\
    SensorReading.tdsLevel row =
      num_or (Decoded.tdsLevel d) (num_or (Decoded.ec d) 0) /\
    lastExternalFetchTime s' = Env.clock E (ticks s) /\
    netCalls s' = S (netCalls s) /\
    databaseAvailable s' = true /\
    memory_readings s' = memory_readings s.
Proof.
  intros Hc G I R N Hok Hct Hjs Hdc Hev T Dc.
  destruct (fetchFromExternalDatabase_persists E s Hc G I R)
    as (s0 & G0 & HN0 & _ & Hk).
  rewrite <- HN0 in N.
  destruct (fetchLatestReading_adapts_decoded_run E s0 resp data ev dc d
              N Hok Hct Hjs Hdc Hev T Dc)
    as (x & s1 & Hx & H1 & H2 & H3).
  destruct (Hk x s1 Hx) as (row & s' & Hf & Hrest).
  exists row, s'. split; [exact Hf|].
  rewrite <- H1, <- H2, <- H3. exact Hrest.
Qed.

Lemma upstream_answer_becomes_stored_row_witness :
  let E := Scenario.healthy "production" in
  exists row s',
    fetchFromExternalDatabase E (Scenario.boot E) = (Ok (Some row), s') /\
    stored_readings s' = [row] /\
    SensorReading.temperature row = (240 # 10)%Q /\
    SensorReading.ph row = (700 # 100)%Q /\
    SensorReading.tdsLevel row = (2000 # 10)%Q.
Proof.
  intros E.
  assert (I : inserts_accepted E (dbOps (Scenario.boot E)))
    by (intros j _; reflexivity).
  assert (R : recount_accepted E (dbOps (Scenario.boot E)))
    by (intros j _; repeat split; reflexivity).
  destruct (upstream_answer_becomes_stored_row E (Scenario.boot E)
              (Response.mk true (Some "application/json; charset=utf-8")
                           (Some Scenario.envelope))
              Scenario.envelope (JStr "02BC07D000F0") (JStr "HZ1")
              {| Decoded.ph := Some (Fin (700 # 100));
                 Decoded.moisture := None;
                 Decoded.ec := None;
                 Decoded.temperature := Some (Fin (240 # 10));
                 Decoded.humidity := None;
                 Decoded.light := None;
                 Decoded.tdsLevel := Some (Fin (2000 # 10)) |}
              eq_refl eq_refl I R eq_refl eq_refl eq_refl eq_refl eq_refl
              eq_refl eq_refl eq_refl)
    as (row & s' & H1 & H2 & H3 & H4 & H5 & _).
  exists row, s'. split; [exact H1|]. split; [exact H2|].
  split; [exact H3|]. split; [exact H4|exact H5].
Defined.

(* ===================================================================== *)
(** ** Start-up and the singleton rows *)
(* ===================================================================== *)

Section Defaults.
Variable E : Env.t.

Lemma db_insert_status_empty_ok s :
  Env.db_fails E (dbOps s) InsertStatus = false ->
  exists s',
    db_insert_status E PartialSystemStatus.empty s =
      (Ok (default_status_row (Uuid (Tables.next_uuid (tables s)))
                              (Env.clock E (ticks s))), s') /\
    Tables.systemStatus (tables s') =
      (Tables.systemStatus (tables s) ++
       [default_status_row (Uuid (Tables.next_uuid (tables s)))
                           (Env.clock E (ticks s))])%list /\
    Tables.alertSettings (tables s') = Tables.alertSettings (tables s) /\
    Tables.sensorReadings (tables s') = Tables.sensorReadings (tables s) /\
    dbOps s' = S (dbOps s) /\
    fallbackData s' = fallbackData s /\
    gateway_connected s' = gateway_connected s.
Proof.
  intros H.
  unfold db_insert_status, bind, db_send, fresh_uuid, date_now, gets,
    put_systemStatus, modify, ret.
  rewrite H. cbn. eexists. split; [reflexivity|]. cbn.
  repeat split; reflexivity.
Qed.

Lemma db_insert_alerts_ok ta pa la s :
  Env.db_fails E (dbOps s) InsertAlerts = false ->
  exists s',
    db_insert_alerts E ta pa la s =
      (Ok (AlertSettings.mk (Uuid (Tables.next_uuid (tables s))) ta pa la), s') /\
    Tables.alertSettings (tables s') =
      (Tables.alertSettings (tables s) ++
       [AlertSettings.mk (Uuid (Tables.next_uuid (tables s))) ta pa la])%list /\
    Tables.systemStatus (tables s') = Tables.systemStatus (tables s) /\
    Tables.sensorReadings (tables s') = Tables.sensorReadings (tables s) /\
    dbOps s' = S (dbOps s) /\
    fallbackData s' = fallbackData s.
Proof.
  intros H.
  unfold db_insert_alerts, bind, db_send, fresh_uuid, gets,
    put_alertSettings, modify, ret.
  rewrite H. cbn. eexists. split; [reflexivity|]. cbn.
  repeat split; reflexivity.
Qed.

Lemma initializeDefaults_connected s :
  gateway_connected s ->
  recount_accepted E (dbOps s) ->
  alerts_accepted E (dbOps s) ->
  let s' := snd (initializeDefaults E s) in
  databaseAvailable s' = true /\
  Tables.sensorReadings (tables s') = Tables.sensorReadings (tables s) /\
  fallbackData s' = fallbackData s /\
  match Tables.systemStatus (tables s) with
  | [] => exists i t, Tables.systemStatus (tables s') = [default_status_row i t]
  | _ :: _ => Tables.systemStatus (tables s') = Tables.systemStatus (tables s)
  end /\
  match Tables.alertSettings (tables s) with
  | [] => exists i, Tables.alertSettings (tables s') = [default_alerts_row i]
  | _ :: _ => Tables.alertSettings (tables s') = Tables.alertSettings (tables s)
  end.
Proof.
  intros G R RA s'. subst s'.
  destruct (R (dbOps s) ltac:(lia)) as (_ & HS0 & _).
  destruct (R (S (dbOps s)) ltac:(lia)) as (_ & HS1 & _).
  destruct (R (S (S (dbOps s))) ltac:(lia)) as (_ & _ & HI2 & _).
  unfold initializeDefaults.
  set (s1 := next_dbOp s).
  set (s2 := next_dbOp s1).
  (* the state after the status part *)
  assert (Hstatus : exists s3,
             match head (Tables.systemStatus (tables s2)) with
             | None => bind (db_insert_status E PartialSystemStatus.empty)
                         (fun _ => ret tt)
             | Some _ => ret tt
             end s2 = (Ok tt, s3) /\
             gateway_connected s3 /\
             (dbOps s <= dbOps s3)%nat /\
             Tables.sensorReadings (tables s3) = Tables.sensorReadings (tables s) /\
             Tables.alertSettings (tables s3) = Tables.alertSettings (tables s) /\
             fallbackData s3 = fallbackData s /\
             match Tables.systemStatus (tables s) with
             | [] => exists i t,
                       Tables.systemStatus (tables s3) = [default_status_row i t]
             | _ :: _ =>
                 Tables.systemStatus (tables s3) = Tables.systemStatus (tables s)
             end).
  { change (Tables.systemStatus (tables s2)) with (Tables.systemStatus (tables s)).
    destruct (Tables.systemStatus (tables s)) as [|st rest] eqn:Rows; cbn [head].
    - destruct (db_insert_status_empty_ok s2 HI2)
        as (s3 & Hi & H1 & H2 & H3 & H4 & H5 & H6).
      exists s3. split.
      + rewrite (bind_ok _ _ _ _ _ Hi). reflexivity.
      + change (Tables.systemStatus (tables s2)) with (Tables.systemStatus (tables s)) in H1.
        rewrite Rows in H1.
        split; [rewrite H6; exact G|].
        split; [rewrite H4; cbn; lia|].
        repeat split; try assumption. eauto.
    - exists s2. split; [reflexivity|].
      repeat split; try reflexivity; try apply G; try exact Rows. cbn. lia. }
  destruct Hstatus as (s3 & Hst & G3 & HO3 & HR3 & HA3 & HB3 & Hrows3).
  destruct (RA (dbOps s3) HO3) as (HSA & _).
  destruct (RA (S (dbOps s3)) ltac:(lia)) as (_ & HIA & _).
  assert (Hrun : exists s5,
             bind (getDatabaseConnection E)
               (fun conn =>
                  let '(db, available) := conn in
                  if negb available || negb db then setAvailable false
                  else
                    bind (db_select_status E) (fun _ =>
                    bind (db_select_status E) (fun statusCount =>
                    bind (match statusCount with
                          | None => bind (db_insert_status E PartialSystemStatus.empty)
                                      (fun _ => ret tt)
                          | Some _ => ret tt
                          end) (fun _ =>
                    bind (db_select_alerts E) (fun alertsCount =>
                    bind (match alertsCount with
                          | None => bind (db_insert_alerts E true true false)
                                      (fun _ => ret tt)
                          | Some _ => ret tt
                          end) (fun _ => setAvailable true)))))) s
             = (Ok tt, set_databaseAvailable true s5) /\
             Tables.sensorReadings (tables s5) = Tables.sensorReadings (tables s) /\
             Tables.systemStatus (tables s5) = Tables.systemStatus (tables s3) /\
             fallbackData s5 = fallbackData s /\
             match Tables.alertSettings (tables s) with
             | [] => exists i,
                       Tables.alertSettings (tables s5) = [default_alerts_row i]
             | _ :: _ =>
                 Tables.alertSettings (tables s5) = Tables.alertSettings (tables s)
             end).
  { rewrite (bind_ok _ _ _ _ _ (getDatabaseConnection_connected E s G)).
    cbn [negb orb].
    rewrite (bind_ok _ _ _ _ _ (db_select_status_ok E s HS0)). fold s1.
    rewrite (bind_ok _ _ _ _ _ (db_select_status_ok E s1 HS1)). fold s2.
    change (Tables.systemStatus (tables s1)) with (Tables.systemStatus (tables s2)).
    rewrite (bind_ok _ _ _ _ _ Hst).
    rewrite (bind_ok _ _ _ _ _ (db_select_alerts_ok E s3 HSA)).
    rewrite HA3.
    destruct (Tables.alertSettings (tables s)) as [|a rest] eqn:Rows; cbn [head].
    - destruct (db_insert_alerts_ok true true false (next_dbOp s3) HIA)
        as (s5 & Hi & H1 & H2 & H3 & H4 & H5).
      exists s5. split.
      + rewrite (bind_ok _ _ _ _ _ (bind_ok _ _ _ _ _ Hi)). reflexivity.
      + cbn in H1, H2, H3, H5. rewrite HA3, ?Rows in H1.
        repeat split; try congruence. eauto.
    - exists (next_dbOp s3). split; [reflexivity|]. cbn.
      repeat split; try assumption; try congruence. }
  destruct Hrun as (s5 & Hrun & HR5 & HS5 & HB5 & Halerts).
  rewrite (try_ok _ _ _ _ _ Hrun). cbn.
  repeat split; try assumption.
  destruct (Tables.systemStatus (tables s)); now rewrite HS5.
Qed.

(** **** At most one row of each kind *)

Lemma keeps_single_updateSystemStatus u :
  keeps single_rows (updateSystemStatus E u).
Proof.
  intros s (H1 & H2).
  destruct (getDatabaseConnection_run E s)
    as (db & av & s0 & Hc & _ & _ & _ & _ & _ & HT & _).
  assert (Kfb : forall st, tables st = tables s ->
                     single_rows (snd (update_fallback_status E u st))).
  { intros st Hst. unfold single_rows. cbn. now rewrite Hst. }
  unfold updateSystemStatus. rewrite (bind_ok _ _ _ _ _ Hc).
  destruct (negb av || negb db); [now apply Kfb|].
  unfold try_catch, db_select_status, db_insert_status, db_update_status,
    bind, db_send, fresh_uuid, date_now, gets, put_systemStatus, modify, ret,
    setAvailable.
  destruct (Env.db_fails E (dbOps s0) SelectStatus); [now apply Kfb|].
  cbn. rewrite HT.
  destruct (Tables.systemStatus (tables s)) as [|cur rest] eqn:Rows; cbn.
  - destruct (Env.db_fails E (S (dbOps s0)) InsertStatus); cbn.
    + unfold single_rows. cbn. rewrite HT, Rows. cbn. split; [lia|exact H2].
    + unfold single_rows. cbn. rewrite HT, Rows. cbn. split; [lia|exact H2].
  - destruct (Env.db_fails E (S (dbOps s0)) UpdateStatus); cbn -[assign_status].
    + unfold single_rows. cbn. rewrite HT, Rows. split; [exact H1|exact H2].
    + unfold single_rows. cbn -[assign_status]. rewrite HT, Rows.
      cbn -[assign_status]. rewrite length_map. split; [exact H1|exact H2].
Qed.

Lemma keeps_single_updateAlertSettings n :
  keeps single_rows (updateAlertSettings E n).
Proof.
  intros s (H1 & H2).
  destruct (getDatabaseConnection_run E s)
    as (db & av & s0 & Hc & _ & _ & _ & _ & _ & HT & _).
  assert (Kfb : forall st, tables st = tables s ->
                     single_rows (snd (update_fallback_alerts n st))).
  { intros st Hst. unfold single_rows. cbn. now rewrite Hst. }
  unfold updateAlertSettings. rewrite (bind_ok _ _ _ _ _ Hc).
  destruct (negb av || negb db); [now apply Kfb|].
  unfold try_catch, db_select_alerts, db_insert_alerts, db_update_alerts,
    bind, db_send, fresh_uuid, gets, put_alertSettings, modify, ret,
    setAvailable.
  destruct (Env.db_fails E (dbOps s0) SelectAlerts); [now apply Kfb|].
  cbn. rewrite HT.
  destruct (Tables.alertSettings (tables s)) as [|cur rest] eqn:Rows; cbn.
  - destruct (Env.db_fails E (S (dbOps s0)) InsertAlerts); cbn.
    + unfold single_rows. cbn. rewrite HT, Rows. cbn. split; [exact H1|lia].
    + unfold single_rows. cbn. rewrite HT, Rows. cbn. split; [exact H1|lia].
  - destruct (Env.db_fails E (S (dbOps s0)) UpdateAlerts); cbn.
    + unfold single_rows. cbn. rewrite HT, Rows. split; [exact H1|exact H2].
    + unfold single_rows. cbn. rewrite HT, Rows.
      cbn. rewrite length_map. split; [exact H1|exact H2].
Qed.

End Defaults.

Section Singletons.
Variable E : Env.t.

Lemma keeps_single_initializeDefaults :
  keeps single_rows (initializeDefaults E).
Proof.
  intros s (H1 & H2).
  destruct (getDatabaseConnection_run E s)
    as (db & av & s0 & Hc & _ & _ & _ & _ & _ & HT & _).
  unfold initializeDefaults, try_catch.
  rewrite (bind_ok _ _ _ _ _ Hc).
  destruct (negb av || negb db);
    [unfold single_rows; cbn; rewrite HT; now split|].
  unfold db_select_status, db_select_alerts, db_insert_status,
    db_insert_alerts, bind, db_send, fresh_uuid, date_now, gets,
    put_systemStatus, put_alertSettings, modify, ret, setAvailable,
    single_rows.
  destruct (Env.db_fails E (dbOps s0) SelectStatus);
    [cbn; rewrite HT; now split|].
  cbn.
  destruct (Env.db_fails E (S (dbOps s0)) SelectStatus);
    [cbn; rewrite HT; now split|].
  cbn. rewrite HT.
  destruct (Tables.systemStatus (tables s)) as [|st rest] eqn:RS; cbn.
  - destruct (Env.db_fails E (S (S (dbOps s0))) InsertStatus); cbn;
      [rewrite ?HT, ?RS; now split|].
    destruct (Env.db_fails E (S (S (S (dbOps s0)))) SelectAlerts); cbn;
      [rewrite ?HT, ?RS; cbn; split; [lia|exact H2]|].
    rewrite HT.
    destruct (Tables.alertSettings (tables s)) as [|a resta] eqn:RA; cbn.
    + destruct (Env.db_fails E (S (S (S (S (dbOps s0))))) InsertAlerts); cbn;
        rewrite ?HT, ?RS, ?RA; cbn; split; lia.
    + rewrite ?HT, ?RS, ?RA. cbn. split; [lia|exact H2].
  - destruct (Env.db_fails E (S (S (dbOps s0))) SelectAlerts); cbn;
      [rewrite ?HT, ?RS; now split|].
    rewrite HT.
    destruct (Tables.alertSettings (tables s)) as [|a resta] eqn:RA; cbn.
    + destruct (Env.db_fails E (S (S (S (dbOps s0)))) InsertAlerts); cbn;
        rewrite ?HT, ?RS, ?RA; cbn; split; try exact H1; lia.
    + rewrite ?HT, ?RS, ?RA. split; [exact H1|exact H2].
Qed.

Ltac keeps_single :=
  repeat progress
    unfold fetchFromExternalDatabase, read_cached, fetch_external,
      store_external, fetchLatestReading, createSensorReading,
      remember_in_memory, getSensorReadingsByTimeRange, query_readings,
      fallback_readings, in_memory_reading, getSystemStatus, default_status,
      getAlertSettings, setAvailable, get_fallback,
      put_fallback_alertSettings, put_fallback_sensorReadings;
  unfold db_insert_reading, db_select_latest, db_select_readings,
    db_select_range, db_count_readings, db_select_status, db_select_alerts,
    put_sensorReadings;
  repeat keeps_step;
  first [ apply keeps_single_updateSystemStatus
        | unfold single_rows; keeps_leaf ].

Lemma keeps_single_fetchFromExternalDatabase :
  keeps single_rows (fetchFromExternalDatabase E).
Proof. keeps_single. Qed.

Lemma keeps_single_createSensorReading v :
  keeps single_rows (createSensorReading E v).
Proof. keeps_single. Qed.

Lemma keeps_single_getSystemStatus : keeps single_rows (getSystemStatus E).
Proof. keeps_single. Qed.

Lemma keeps_single_getAlertSettings : keeps single_rows (getAlertSettings E).
Proof. keeps_single. Qed.

Lemma keeps_single_getSensorReadingsByTimeRange a b :
  keeps single_rows (getSensorReadingsByTimeRange E a b).
Proof. keeps_single. Qed.

Lemma keeps_single_getSensorReadings fuel limit :
  keeps single_rows (getSensorReadings E fuel limit).
Proof.
  induction fuel as [|fuel IH]; cbn [getSensorReadings];
    [apply keeps_lift|].
  apply keeps_bind; [apply keeps_single_fetchFromExternalDatabase|intros ?].
  apply keeps_bind; [apply keeps_gets|intros flag].
  destruct (negb flag); [keeps_single|].
  apply keeps_try_catch; [keeps_single|intros ?].
  apply keeps_bind; [keeps_single|intros ?]. exact IH.
Qed.

(** **** The gateway, once connected *)

Lemma keeps_connected_gateway_getSensorReadings fuel limit :
  keeps gateway_connected (getSensorReadings E fuel limit).
Proof.
  unfold gateway_connected.
  induction fuel as [|fuel IH]; cbn [getSensorReadings];
    [apply keeps_lift|].
  unfold_methods; unfold_statements.
  repeat keeps_step; try exact IH; keeps_leaf.
Qed.

End Singletons.

(** X23.  Start-up creates what is missing and nothing more.  With the
    gateway available and the statements accepted, [initializeDefaults]
    leaves the flag LIVE; a store without a status row gets exactly one,
    with the default values (connected, 0 data points, 23 / 30 / 26,
    3d 14h 22m), a store without a settings row gets exactly one
    (temperature and ph alerts on, tdsLevel alerts off); rows that exist
    are left as they are, as are the readings and the in-memory data. *)
Theorem initializeDefaults_creates_missing_rows (E : Env.t) (s : State) :
  gateway_available E s = true ->
  recount_accepted E (dbOps s) ->
  alerts_accepted E (dbOps s) ->
  let s' := snd (initializeDefaults E s) in
  databaseAvailable s' = true /\
  stored_readings s' = stored_readings s /\
  fallbackData s' = fallbackData s /\
  match Tables.systemStatus (tables s) with
  | [] => exists i t, Tables.systemStatus (tables s') = [default_status_row i t]
  | _ :: _ => Tables.systemStatus (tables s') = Tables.systemStatus (tables s)
  end /\
  match Tables.alertSettings (tables s) with
  | [] => exists i, Tables.alertSettings (tables s') = [default_alerts_row i]
  | _ :: _ => Tables.alertSettings (tables s') = Tables.alertSettings (tables s)
  end.
Proof.
  intros G R RA.
  destruct (getDatabaseConnection_available E s G)
    as (s0 & Hc & G0 & _ & _ & HB & HT & HO & _).
  assert (Heq : initializeDefaults E s = initializeDefaults E s0).
  { unfold initializeDefaults, try_catch.
    rewrite (bind_ok _ _ _ _ _ Hc).
    now rewrite (bind_ok _ _ _ _ _ (getDatabaseConnection_connected E s0 G0)). }
  rewrite Heq. unfold stored_readings. rewrite <- HT, <- HB.
  apply initializeDefaults_connected; [exact G0| |]; now rewrite HO.
Qed.

Lemma initializeDefaults_creates_missing_rows_witness :
  let E := Scenario.healthy "production" in
  let s := Scenario.boot E in
  (exists i t, Tables.systemStatus (tables s) = [default_status_row i t]) /\
  (exists i, Tables.alertSettings (tables s) = [default_alerts_row i]) /\
  tables (snd (initializeDefaults E s)) = tables s /\
  databaseAvailable s = true.
Proof.
  intros E s.
  assert (R : forall st, recount_accepted E (dbOps st))
    by (intros st j _; repeat split; reflexivity).
  assert (RA : forall st, alerts_accepted E (dbOps st))
    by (intros st j _; repeat split; reflexivity).
  pose proof (initializeDefaults_creates_missing_rows E
                (new_DatabaseStorage E Scenario.empty_store)
                eq_refl (R _) (RA _)) as (H1 & _ & _ & H2 & H3).
  cbn beta iota zeta in H2, H3.
  split; [exact H2|]. split; [exact H3|]. split; [|exact H1].
  vm_compute. reflexivity.
Defined.

(** X24.  As long as its calls run one after another, each completing
    before the next starts, the orchestrator never creates a second
    status row or a second settings row: if the store holds at most one
    row of each kind when a method is called, it still does when the
    method has returned, whatever the store accepted or rejected on the
    way.  In particular this holds once [initializeDefaults] has completed
    on an empty store.  (Every method selects before it inserts; nothing
    is stated here about calls that overlap.) *)
Theorem never_a_second_status_or_settings_row (E : Env.t) :
  keeps single_rows (initializeDefaults E) /\
  (forall u, keeps single_rows (updateSystemStatus E u)) /\
  (forall n, keeps single_rows (updateAlertSettings E n)) /\
  (forall v, keeps single_rows (createSensorReading E v)) /\
  keeps single_rows (getSystemStatus E) /\
  keeps single_rows (getAlertSettings E) /\
  (forall start end_,
      keeps single_rows (getSensorReadingsByTimeRange E start end_)) /\
  (forall fuel limit, keeps single_rows (getSensorReadings E fuel limit)) /\
  single_rows (Scenario.boot E).
Proof.
  split; [apply keeps_single_initializeDefaults|].
  split; [apply keeps_single_updateSystemStatus|].
  split; [apply keeps_single_updateAlertSettings|].
  split; [apply keeps_single_createSensorReading|].
  split; [apply keeps_single_getSystemStatus|].
  split; [apply keeps_single_getAlertSettings|].
  split; [apply keeps_single_getSensorReadingsByTimeRange|].
  split; [apply keeps_single_getSensorReadings|].
  apply keeps_single_initializeDefaults.
  split; cbn; lia.
Qed.

(** X25.  The gateway is never reset.  Once the connection objects exist,
    no method of the orchestrator and no rejected statement clears them:
    [getDatabaseConnection] keeps answering that the store is available,
    without initialising anything again. *)
Theorem gateway_stays_connected (E : Env.t) :
  (forall s, gateway_connected s ->
             getDatabaseConnection E s = (Ok (true, true), s)) /\
  keeps gateway_connected (initializeDefaults E) /\
  (forall u, keeps gateway_connected (updateSystemStatus E u)) /\
  (forall n, keeps gateway_connected (updateAlertSettings E n)) /\
  (forall v, keeps gateway_connected (createSensorReading E v)) /\
  keeps gateway_connected (getSystemStatus E) /\
  keeps gateway_connected (getAlertSettings E) /\
  (forall start end_,
      keeps gateway_connected (getSensorReadingsByTimeRange E start end_)) /\
  (forall fuel limit, keeps gateway_connected (getSensorReadings E fuel limit)).
Proof.
  split; [apply getDatabaseConnection_connected|].
  split; [unfold gateway_connected; keeps_frame|].
  split; [intros u; unfold gateway_connected; keeps_frame|].
  split; [intros n; unfold gateway_connected; keeps_frame|].
  split; [intros v; unfold gateway_connected; keeps_frame|].
  split; [unfold gateway_connected; keeps_frame|].
  split; [unfold gateway_connected; keeps_frame|].
  split; [intros a b; unfold gateway_connected; keeps_frame|].
  apply keeps_connected_gateway_getSensorReadings.
Qed.

Section Untouched.
Variable E : Env.t.

Lemma initializeDefaults_unavailable s :
  gateway_available E s = false ->
  let s' := snd (initializeDefaults E s) in
  store_untouched s s' /\ databaseAvailable s' = false /\
  fallbackData s' = fallbackData s.
Proof.
  intros G.
  destruct (getDatabaseConnection_unavailable E s G)
    as (db & av & s0 & Hc & _ & Hneg & G0 & _ & _ & HB & HT & HO & _).
  unfold initializeDefaults, try_catch.
  rewrite (bind_ok _ _ _ _ _ Hc), Hneg. cbn.
  unfold store_untouched. cbn. repeat split; assumption.
Qed.

Lemma getSystemStatus_unavailable_frame s :
  gateway_available E s = false ->
  store_untouched s (snd (getSystemStatus E s)).
Proof.
  intros G.
  destruct (getDatabaseConnection_unavailable E s G)
    as (db & av & s0 & Hc & _ & Hneg & G0 & _ & _ & HB & HT & HO & _).
  unfold getSystemStatus. rewrite (bind_ok _ _ _ _ _ Hc), Hneg.
  cbn. split; assumption.
Qed.

End Untouched.

(** X26.  Without a store the orchestrator sends no statement: when the
    gateway is unavailable (no connection string, or the connection
    objects could not be built), every method leaves the count of
    statements and the tables as they were, and start-up leaves the flag
    DEGRADED. *)
Theorem without_store_no_statement (E : Env.t) (s : State) :
  gateway_available E s = false ->
  store_untouched s (snd (initializeDefaults E s)) /\
  databaseAvailable (snd (initializeDefaults E s)) = false /\
  (forall v, store_untouched s (snd (createSensorReading E v s))) /\
  (forall u, store_untouched s (snd (updateSystemStatus E u s))) /\
  (forall n, store_untouched s (snd (updateAlertSettings E n s))) /\
  store_untouched s (snd (getSystemStatus E s)) /\
  store_untouched s (snd (getAlertSettings E s)) /\
  (forall start end_,
      store_untouched s (snd (getSensorReadingsByTimeRange E start end_ s))) /\
  (forall fuel limit,
      store_untouched s (snd (getSensorReadings E (S fuel) limit s))).
Proof.
  intros G. unfold store_untouched.
  destruct (initializeDefaults_unavailable E s G) as (H1 & H2 & _).
  split; [exact H1|]. split; [exact H2|].
  split.
  { intros v.
    destruct (createSensorReading_unavailable E v s G)
      as (r & s' & -> & _ & _ & _ & _ & HT & HO & _).
    now split. }
  split.
  { intros u.
    destruct (updateSystemStatus_unavailable E u s G)
      as (st & s' & -> & _ & _ & _ & _ & HT & HO).
    now split. }
  split.
  { intros n.
    destruct (updateAlertSettings_unavailable E n s G)
      as (s' & -> & _ & _ & HT & HO).
    now split. }
  split; [apply getSystemStatus_unavailable_frame; exact G|].
  split.
  { destruct (getAlertSettings_unavailable E s G)
      as (s' & -> & (_ & _ & _ & HT & HO & _) & _).
    now split. }
  split.
  { intros a b.
    destruct (getSensorReadingsByTimeRange_unavailable E a b s G)
      as (s' & -> & _ & HT & HO & _).
    now split. }
  intros fuel limit.
  destruct (getSensorReadings_unavailable E fuel limit s G)
    as (rows & s' & -> & _ & _ & HT & HO & _).
  now split.
Qed.

Lemma without_store_no_statement_witness :
  let E := Scenario.no_store in
  let s := Scenario.boot E in
  databaseAvailable s = false /\
  store_untouched s (snd (createSensorReading E sample_values s)) /\
  store_untouched s (snd (getSensorReadings E 1 50 s)).
Proof.
  intros E s.
  assert (G0 : gateway_available E (new_DatabaseStorage E Scenario.empty_store)
               = false) by reflexivity.
  assert (G : gateway_available E s = false) by (vm_compute; reflexivity).
  destruct (without_store_no_statement E _ G0) as (_ & H0 & _).
  destruct (without_store_no_statement E s G)
    as (_ & _ & H1 & _ & _ & _ & _ & _ & H2).
  split; [exact H0|]. split; [apply H1|apply H2].
Defined.

(* ===================================================================== *)
(** ** Antares fetcher *)
(* ===================================================================== *)

Section AntaresFacts.
Variable E : Env.t.
Variable JSON_parse : string -> option JsValue.
Variable parseFloat : JsValue -> option ParsedNumber.

Lemma antares_field_halts v k : antares_field parseFloat v k <> OutOfFuel.
Proof.
  unfold antares_field.
  destruct (js_get v k) as [x| |] eqn:H; cbn;
    [destruct (parseFloat x); discriminate|discriminate|].
  now destruct (js_get_halts v k).
Qed.

Lemma antares_fields_halts v : antares_fields parseFloat v <> OutOfFuel.
Proof.
  unfold antares_fields.
  pose proof (antares_field_halts v "temperature") as H1.
  pose proof (antares_field_halts v "ph") as H2.
  pose proof (antares_field_halts v "tdsLevel") as H3.
  destruct (antares_field parseFloat v "temperature"); cbn; try congruence.
  destruct (antares_field parseFloat v "ph"); cbn; try congruence.
  destruct (antares_field parseFloat v "tdsLevel"); cbn; congruence.
Qed.

Lemma antares_field_throws v k :
  (exists e, antares_field parseFloat v k = Throw e) <->
  v = JNull \/ v = JUndefined \/
  exists x, js_get v k = Ok x /\ parseFloat x = None.
Proof.
  unfold antares_field. split.
  - intros (e & H).
    destruct (js_get v k) as [x| |] eqn:G; cbn in H.
    + destruct (parseFloat x) eqn:P; [discriminate|]. eauto.
    + destruct v; cbn in G; try discriminate; auto.
    + discriminate.
  - intros [-> | [-> | (x & G & P)]]; cbn; eauto.
    rewrite G. cbn. rewrite P. eauto.
Qed.

(** Building the result fails exactly on [null], on [undefined] and on a
    value one of whose three properties [parseFloat] cannot convert. *)
Lemma antares_fields_throws v :
  (exists e, antares_fields parseFloat v = Throw e) <->
  v = JNull \/ v = JUndefined \/ unreadable_field parseFloat v.
Proof.
  unfold antares_fields, unreadable_field. split.
  - intros (e & H).
    destruct (antares_field parseFloat v "temperature") as [t| |] eqn:F1;
      cbn in H.
    2:{ destruct (proj1 (antares_field_throws v "temperature") (ex_intro _ _ F1))
          as [?|[?|(x & G & P)]]; auto.
        right. right. exists "temperature", x. auto. }
    2: discriminate.
    destruct (antares_field parseFloat v "ph") as [p| |] eqn:F2; cbn in H.
    2:{ destruct (proj1 (antares_field_throws v "ph") (ex_intro _ _ F2))
          as [?|[?|(x & G & P)]]; auto.
        right. right. exists "ph", x. auto. }
    2: discriminate.
    destruct (antares_field parseFloat v "tdsLevel") as [d| |] eqn:F3;
      cbn in H; try discriminate.
    destruct (proj1 (antares_field_throws v "tdsLevel") (ex_intro _ _ F3))
      as [?|[?|(x & G & P)]]; auto.
    right. right. exists "tdsLevel", x. auto.
  - intros Hv.
    assert (Hk : exists k, (k = "temperature" \/ k = "ph" \/ k = "tdsLevel") /\
                           exists e, antares_field parseFloat v k = Throw e).
    { destruct Hv as [-> | [-> | (k & x & Hk & G & P)]].
      - exists "temperature". split; [auto|]. cbn. eauto.
      - exists "temperature". split; [auto|]. cbn. eauto.
      - exists k. split; [exact Hk|].
        apply antares_field_throws. eauto. }
    destruct Hk as (k & Hk & e & He).
    pose proof (antares_field_halts v "temperature") as H1.
    pose proof (antares_field_halts v "ph") as H2.
    pose proof (antares_field_halts v "tdsLevel") as H3.
    destruct (antares_field parseFloat v "temperature") as [t| |] eqn:F1;
      cbn; eauto; try congruence.
    destruct (antares_field parseFloat v "ph") as [p| |] eqn:F2;
      cbn; eauto; try congruence.
    destruct (antares_field parseFloat v "tdsLevel") as [d| |] eqn:F3;
      cbn; eauto; try congruence.
    destruct Hk as [-> | [-> | ->]]; congruence.
Qed.

(** The whole of [fetchLatestData], as a function of the response. *)
Lemma fetchLatestData_run s :
  fetchLatestData E JSON_parse parseFloat s =
    (match Env.net E (netCalls s) with
     | Rejected => Throw NetworkError
     | Responded resp =>
         if negb (Response.ok resp) then Throw ApiError
         else
           match Response.json resp with
           | None => Throw SyntaxError
           | Some data =>
               match antares_content data with
               | Ok content =>
                   if negb (truthy content) then Throw FormatError
                   else
                     match content with
                     | JStr c => parsed_result JSON_parse parseFloat c
                     | _ =>
                         match antares_fields parseFloat content with
                         | Ok r => Ok (Some r)
                         | Throw e => Throw e
                         | OutOfFuel => OutOfFuel
                         end
                     end
               | Throw e => Throw e
               | OutOfFuel => OutOfFuel
               end
           end
     end, next_netCall s).
Proof.
  unfold fetchLatestData, parsed_result, try_catch, bind, http_fetch, throw,
    lift, ret.
  destruct (Env.net E (netCalls s)) as [|resp]; [reflexivity|].
  destruct (Response.ok resp); cbn [negb]; [|reflexivity].
  destruct (Response.json resp) as [data|]; [|reflexivity].
  destruct (antares_content data) as [content| |]; try reflexivity.
  destruct (truthy content); cbn [negb]; [|reflexivity].
  destruct content as [| | | |c| |];
    try (destruct (antares_fields parseFloat _); reflexivity).
  destruct (JSON_parse c) as [p|]; [|reflexivity].
  destruct (antares_fields parseFloat p); reflexivity.
Qed.

End AntaresFacts.

(** X27.  Unlike the external fetcher, the Antares fetcher lets its
    failures out: a rejected request, a status that is not OK, a body that
    does not parse, and an envelope without content each end in an
    exception, not in null.  It makes exactly one request in every
    case. *)
Theorem fetchLatestData_throws_on_failure
    (E : Env.t) (JSON_parse : string -> option JsValue)
    (parseFloat : JsValue -> option ParsedNumber) (s : State) :
  let out := fetchLatestData E JSON_parse parseFloat s in
  netCalls (snd out) = S (netCalls s) /\
  (Env.net E (netCalls s) = Rejected -> fst out = Throw NetworkError) /\
  (forall resp, Env.net E (netCalls s) = Responded resp ->
     (Response.ok resp = false -> fst out = Throw ApiError) /\
     (Response.ok resp = true -> Response.json resp = None ->
      fst out = Throw SyntaxError) /\
     (forall data content,
        Response.ok resp = true -> Response.json resp = Some data ->
        antares_content data = Ok content -> truthy content = false ->
        fst out = Throw FormatError)).
Proof.
  intros out. subst out. rewrite fetchLatestData_run. cbn [fst snd].
  split; [reflexivity|]. split; [now intros ->|].
  intros resp ->. split; [|split].
  - now intros ->.
  - now intros -> ->.
  - intros data content -> -> -> ->. reflexivity.
Qed.

(** X28.  The Antares fetcher returns null in one situation only: the
    response is OK, its body parses, the content of the envelope is a
    non-empty string, and turning that string into a reading fails, that
    is: [JSON.parse] throws on it, or gives null (or undefined), or gives
    a value one of whose properties temperature, ph, tdsLevel [parseFloat]
    cannot convert to a string (it throws, and the inner [catch] answers
    null). *)
Theorem fetchLatestData_null_iff_unparsable_content
    (E : Env.t) (JSON_parse : string -> option JsValue)
    (parseFloat : JsValue -> option ParsedNumber) (s : State) :
  fst (fetchLatestData E JSON_parse parseFloat s) = Ok None <->
  exists resp data c,
    Env.net E (netCalls s) = Responded resp /\
    Response.ok resp = true /\
    Response.json resp = Some data /\
    antares_content data = Ok (JStr c) /\
    c <> EmptyString /\
    (JSON_parse c = None \/
     exists p, JSON_parse c = Some p /\
               (p = JNull \/ p = JUndefined \/ unreadable_field parseFloat p)).
Proof.
  rewrite fetchLatestData_run. cbn [fst].
  assert (Hparsed : forall c,
             parsed_result JSON_parse parseFloat c = Ok None <->
             (JSON_parse c = None \/
              exists p, JSON_parse c = Some p /\
                        (p = JNull \/ p = JUndefined \/
                         unreadable_field parseFloat p))).
  { intros c. unfold parsed_result.
    destruct (JSON_parse c) as [p|] eqn:P.
    - pose proof (antares_fields_throws parseFloat p) as T.
      destruct (antares_fields parseFloat p) as [r|e|] eqn:F.
      + split; [discriminate|]. intros [?|(p' & [= <-] & Hp)]; [discriminate|].
        apply T in Hp as (e & He). discriminate.
      + split; [intros _|reflexivity]. right. exists p. split; [reflexivity|].
        apply T. eauto.
      + split; [discriminate|]. intros [?|(p' & [= <-] & Hp)]; [discriminate|].
        apply T in Hp as (e & He). discriminate.
    - split; [auto|reflexivity]. }
  split.
  - intros H.
    destruct (Env.net E (netCalls s)) as [|resp]; [discriminate|].
    destruct (Response.ok resp) eqn:Hok; cbn [negb] in H; [|discriminate].
    destruct (Response.json resp) as [data|] eqn:Hjs; [|discriminate].
    destruct (antares_content data) as [content| |] eqn:C; try discriminate.
    destruct (truthy content) eqn:T; cbn [negb] in H; [|discriminate].
    destruct content as [| | | |c| |];
      try (destruct (antares_fields parseFloat _); discriminate).
    exists resp, data, c.
    split; [reflexivity|]. split; [exact Hok|]. split; [exact Hjs|].
    split; [exact C|]. split.
    + intros ->. discriminate.
    + now apply Hparsed.
  - intros (resp & data & c & -> & -> & -> & -> & Hne & Hc). cbn [negb].
    replace (truthy (JStr c)) with true
      by (destruct c; [congruence|reflexivity]).
    cbn [negb]. now apply Hparsed.
Qed.

(* ===================================================================== *)
(** ** Two edges of the fallback logic *)
(* ===================================================================== *)

Section Edges.
Variable E : Env.t.

(** The priming step when the queries on the readings are rejected but
    inserts are accepted: the fetched reading is stored, which sets the
    flag LIVE. *)
Lemma fetchFromExternalDatabase_restores_flag s :
  reads_always_rejected E ->
  upstream_always_answers E ->
  inserts_accepted E 0 ->
  recount_accepted E 0 ->
  gateway_connected s ->
  exists row s1,
    fetchFromExternalDatabase E s = (Ok (Some row), s1) /\
    databaseAvailable s1 = true /\
    gateway_connected s1.
Proof.
  intros RR UA I R G.
  assert (Hx : forall now sx, gateway_connected sx ->
             exists row s1,
               fetch_external E true true now sx = (Ok (Some row), s1) /\
               databaseAvailable s1 = true /\ gateway_connected s1).
  { intros now sx Gx.
    destruct (UA sx) as (x & s1 & Hf).
    destruct (fetch_external_persists E now sx x s1 Gx Hf)
      as (row & s' & Hrun & _ & _ & _ & _ & _ & _ & HA & _ & G').
    - intros j _. apply I. lia.
    - intros j _. apply R. lia.
    - exists row, s'. repeat split; try assumption; apply G'. }
  unfold fetchFromExternalDatabase.
  rewrite bind_date_now.
  rewrite (bind_ok _ _ _ _ _ (getDatabaseConnection_connected E (next_tick s) G)).
  unfold bind at 1. rewrite read_cached_run. cbn [andb].
  destruct (RR (dbOps (next_tick s))) as (-> & _).
  destruct (_ <? cacheTimeout); cbn iota; apply Hx; exact G.
Qed.

Lemma retry_needs_more_fuel fuel limit :
  reads_always_rejected E ->
  upstream_always_answers E ->
  inserts_accepted E 0 ->
  recount_accepted E 0 ->
  forall s, gateway_connected s ->
    fst (getSensorReadings E fuel limit s) = OutOfFuel.
Proof.
  intros RR UA I R.
  induction fuel as [|fuel IH]; intros s G; [reflexivity|].
  destruct (fetchFromExternalDatabase_restores_flag s RR UA I R G)
    as (row & s1 & Hrun & HA & G1).
  cbn [getSensorReadings].
  rewrite (bind_ok _ _ _ _ _ Hrun), bind_gets, HA. cbn [negb].
  erewrite try_throw.
  2:{ unfold query_readings.
      rewrite (bind_ok _ _ _ _ _ (getDatabaseConnection_connected E s1 G1)).
      cbn [negb orb]. apply bind_throw.
      unfold db_select_readings. apply bind_throw. apply db_send_fails.
      apply RR. }
  unfold setAvailable. rewrite bind_modify. apply IH. exact G1.
Qed.

(** [createSensorReading] when the insert is accepted and the count that
    follows is rejected. *)
Lemma createSensorReading_count_rejected v s :
  gateway_connected s ->
  Env.db_fails E (dbOps s) InsertReading = false ->
  Env.db_fails E (S (dbOps s)) CountReadings = true ->
  exists r s',
    createSensorReading E v s = (Ok r, s') /\
    SensorReading.id r = Stamped "memory" (Env.clock E (S (ticks s))) /\
    carries_values r v /\
    stored_readings s' = (stored_readings s ++ [inserted_row E v s])%list /\
    memory_readings s' = r :: memory_readings s /\
    databaseAvailable s' = false.
Proof.
  intros G I C.
  set (s1 := after_insert_reading E v s).
  destruct (remember_in_memory_run E v (set_databaseAvailable false (next_dbOp s1)))
    as (r & Hr & Hv & Hid).
  exists r. eexists. split.
  - unfold createSensorReading.
    rewrite (bind_ok _ _ _ _ _ (getDatabaseConnection_connected E s G)).
    cbn [negb orb].
    erewrite try_throw.
    2:{ rewrite (bind_ok _ _ _ _ _ (db_insert_reading_ok E v s I)).
        fold s1. apply bind_throw. unfold db_count_readings.
        apply bind_throw. apply db_send_fails. exact C. }
    unfold setAvailable. rewrite bind_modify. exact Hr.
  - split; [exact Hid|]. split; [exact Hv|].
    unfold stored_readings, memory_readings. cbn. repeat split; reflexivity.
Qed.

End Edges.

(** X29.  The retry of [getSensorReadings] has no bound.  When the store
    rejects every query on the readings but accepts inserts and the
    statements of the recount, and the external service answers, each
    attempt stores the fetched reading (which sets the flag LIVE), has
    its query rejected, clears the flag and calls the method again, from
    a state in which the next attempt goes the same way: no number of
    attempts lets the call return. *)
Theorem getSensorReadings_retry_never_ends
    (E : Env.t) (fuel : nat) (limit : Z) (s : State) :
  reads_always_rejected E ->
  upstream_always_answers E ->
  inserts_accepted E 0 ->
  recount_accepted E 0 ->
  gateway_connected s ->
  fst (getSensorReadings E fuel limit s) = OutOfFuel.
Proof.
  intros RR UA I R G. now apply retry_needs_more_fuel.
Qed.

Lemma getSensorReadings_retry_never_ends_witness :
  let E := Scenario.reads_rejected in
  fst (getSensorReadings E 1000 50 (Scenario.boot E)) = OutOfFuel.
Proof.
  intros E.
  apply (getSensorReadings_retry_never_ends E 1000 50 (Scenario.boot E)).
  - intros k. split; reflexivity.
  - intros s. destruct (reads_rejected_fetch s) as (x & Hx). eauto.
  - intros j _. reflexivity.
  - intros j _. repeat split; reflexivity.
  - vm_compute. split; reflexivity.
Defined.

(** X30.  A reading can be kept twice.  With the gateway connected, when
    the insert of [createSensorReading] is accepted and the count query
    that follows is rejected, the store has one row more (the inserted
    one) and a second copy, made up in memory with the submitted values
    under an id of its own, is put at the front of the in-memory list;
    the method returns the in-memory copy, not the stored row, and leaves
    the flag DEGRADED. *)
Theorem createSensorReading_keeps_twice_when_count_rejected
    (E : Env.t) (v : InsertSensorReading.t) (s : State) :
  gateway_connected s ->
  Env.db_fails E (dbOps s) InsertReading = false ->
  Env.db_fails E (S (dbOps s)) CountReadings = true ->
  exists r row s',
    createSensorReading E v s = (Ok r, s') /\
    stored_readings s' = (stored_readings s ++ [row])%list /\
    memory_readings s' = r :: memory_readings s /\
    carries_values r v /\
    SensorReading.id r <> SensorReading.id row /\
    databaseAvailable s' = false.
Proof.
  intros G I C.
  destruct (createSensorReading_count_rejected E v s G I C)
    as (r & s' & Hrun & Hid & Hv & Hs & Hm & HA).
  exists r, (inserted_row E v s), s'.
  split; [exact Hrun|]. split; [exact Hs|]. split; [exact Hm|].
  split; [exact Hv|]. split; [|exact HA].
  rewrite Hid. discriminate.
Qed.

Lemma createSensorReading_keeps_twice_when_count_rejected_witness :
  let E := count_rejected in
  exists r row s',
    createSensorReading E sample_values (Scenario.boot E) = (Ok r, s') /\
    stored_readings s' = [row] /\
    memory_readings s' = [r] /\
    SensorReading.id r <> SensorReading.id row.
Proof.
  intros E.
  destruct (createSensorReading_keeps_twice_when_count_rejected E sample_values
              (Scenario.boot E) (conj eq_refl eq_refl) eq_refl eq_refl)
    as (r & row & s' & H1 & H2 & H3 & _ & H4 & _).
  exists r, row, s'. split; [exact H1|]. split; [exact H2|].
  split; [exact H3|exact H4].
Defined.
